(** * VW_FTP: the SFTP-to-FTP inventory transfer script, embedded in Rocq

    The development follows [VW_FTP.py] function by function.  Python
    strings are [string]s, the file system and the two remote servers are
    fields of a [world] record, exceptions are values of type [exn], and
    every function of the script that touches the world is a computation
    in a small state-and-exception monad that also records the externally
    visible actions it performs. *)

From Stdlib Require Import String Ascii List Bool Arith ZArith QArith Lia.
From Stdlib Require Import DecimalString DecimalPos OrderedTypeEx.
Import ListNotations.

Local Close Scope Q_scope.
Local Open Scope Z_scope.
Local Open Scope nat_scope.
Local Open Scope list_scope.
Local Open Scope string_scope.

(** ** Python string primitives used by the script *)

Module Py.

(** The line feed, the carriage return and the double quote, which a
    literal cannot hold. *)
Definition nl : string := String (ascii_of_nat 10) "".
Definition cr : string := String (ascii_of_nat 13) "".
Definition dq : string := String (ascii_of_nat 34) "".

(** [c in chars] for a single character. *)
Fixpoint mem_char (c : ascii) (chars : string) : bool :=
  match chars with
  | "" => false
  | String d chars' => Ascii.eqb c d || mem_char c chars'
  end.

(** [s.lstrip(chars)]: drop leading characters that belong to [chars]. *)
Fixpoint lstrip (chars s : string) : string :=
  match s with
  | "" => ""
  | String c s' => if mem_char c chars then lstrip chars s' else s
  end.

(** [s.rstrip(chars)]: drop trailing characters that belong to [chars]. *)
Fixpoint rstrip (chars s : string) : string :=
  match s with
  | "" => ""
  | String c s' =>
      match rstrip chars s' with
      | "" => if mem_char c chars then "" else String c ""
      | r => String c r
      end
  end.

(** [s.strip(chars)]: [chars] is a set of characters, removed from both
    ends of [s] for as long as the end character belongs to the set. *)
Definition strip (chars s : string) : string := rstrip chars (lstrip chars s).

(** [s.startswith(p)]. *)
Fixpoint startswith (p s : string) : bool :=
  match p, s with
  | "", _ => true
  | String _ _, "" => false
  | String a p', String b s' => Ascii.eqb a b && startswith p' s'
  end.

(** [s.endswith(suffix)]. *)
Fixpoint endswith (suffix s : string) : bool :=
  String.eqb s suffix ||
  match s with
  | "" => false
  | String _ s' => endswith suffix s'
  end.

(** [sub in s] on strings: substring containment. *)
Fixpoint contains (sub s : string) : bool :=
  startswith sub s ||
  match s with
  | "" => false
  | String _ s' => contains sub s'
  end.

(** [s.split('.')[0]]: the part of [s] before its first dot. *)
Fixpoint split_dot_0 (s : string) : string :=
  match s with
  | "" => ""
  | String c s' => if Ascii.eqb c "."%char then "" else String c (split_dot_0 s')
  end.

(** [s[:-1]]: all but the last character; the empty string stays empty. *)
Fixpoint drop_last (s : string) : string :=
  match s with
  | "" => ""
  | String c "" => ""
  | String c s' => String c (drop_last s')
  end.

(** [''.join(l)]. *)
Definition join_empty (l : list string) : string := fold_right append "" l.

(** [str(n)] for an integer. *)
Definition str_int (z : Z) : string := NilZero.string_of_int (Z.to_int z).

(** [range(n)]: 0, 1, ..., n-1, empty when [n <= 0]. *)
Definition range (n : Z) : list Z := map Z.of_nat (seq 0 (Z.to_nat n)).

(** [bool(s)] for a string: true unless the string is empty. *)
Definition truthy (s : string) : bool := negb (String.eqb s "").

(** [repr(s)] for a string of printable characters without a single
    quote or a backslash. *)
Definition repr (s : string) : string := "'" ++ s ++ "'".

(** [os.path.join(a, b)] on POSIX. *)
Definition os_path_join (a b : string) : string :=
  if startswith "/" b then b
  else if String.eqb a "" || endswith "/" a then a ++ b
  else a ++ "/" ++ b.

(** Insertion into a list kept in descending order; elements that
    compare equal keep their order of arrival, as in a stable sort. *)
Fixpoint insert_desc (x : string) (l : list string) : list string :=
  match l with
  | [] => [x]
  | y :: l' => if String.ltb y x then x :: l else y :: insert_desc x l'
  end.

(** [sorted(l, reverse=True)] on strings: descending code point order. *)
Definition sorted_reverse (l : list string) : list string :=
  fold_right insert_desc [] l.

(** What a file opened in text mode hands to its reader.  [open] is
    called without a [newline] argument, so universal newlines apply: a
    carriage return followed by a line feed, a lone carriage return and a
    lone line feed each arrive as one line feed.  [after_cr] tells that the
    character just before was a carriage return, whose line feed has
    already been delivered. *)
Fixpoint translate_newlines (after_cr : bool) (raw : string) : string :=
  match raw with
  | "" => ""
  | String c rest =>
      if Ascii.eqb c (ascii_of_nat 13)
      then String (ascii_of_nat 10) (translate_newlines true rest)
      else if Ascii.eqb c (ascii_of_nat 10)
           then if after_cr then translate_newlines false rest
                else String c (translate_newlines false rest)
           else String c (translate_newlines false rest)
  end.

Definition universal_newlines (raw : string) : string := translate_newlines false raw.

(** A text cut after every line feed, each piece keeping its line feed. *)
Fixpoint split_keepends (text : string) : list string :=
  match text with
  | "" => []
  | String c rest =>
      if Ascii.eqb c (ascii_of_nat 10) then String c "" :: split_keepends rest
      else match split_keepends rest with
           | [] => [String c ""]
           | l :: ls => String c l :: ls
           end
  end.

(** Iterating over a file opened in text mode: the lines of the
    translated content, each keeping its line feed. *)
Definition readlines (content : string) : list string :=
  split_keepends (universal_newlines content).

(** ['\r' in s or '\n' in s]. *)
Definition has_line_break (s : string) : bool :=
  mem_char (ascii_of_nat 13) s || mem_char (ascii_of_nat 10) s.

End Py.

(** ** Data model *)

(** A cell of the data frame as [pandas] hands it to the loop: an integer,
    a float (a missing cell is the float NaN) or a string.  A finite float
    is represented by the rational number it denotes. *)
Inductive pyfloat : Type :=
| FNaN
| FInf (negative : bool)
| FFin (q : Q).

Inductive pyval : Type :=
| PyInt (z : Z)
| PyFloat (f : pyfloat)
| PyStr (s : string).

(** One record of the payload: the two columns the script reads, and the
    remaining columns, which it never touches. *)
Record row : Type := mkRow {
  NON_TRASH_PHOTO_COUNT : pyval;
  IMAGE_URL_PATTERN : pyval;
  other_columns : list string
}.

(** Content of a regular file of the working area: a table that
    [pd.read_csv] parses, or text that it rejects. *)
Inductive payload : Type :=
| Table (rows : list row)
| Raw (text : string).

(** A directory entry: a regular file or a directory with its entries in
    listing order.  A name is a single path component. *)
#[warning="-register-all"]
Inductive node : Type :=
| File (name : string) (data : payload)
| Dir (name : string) (children : list node).

(** Content of an entry of the SFTP drop or of a file of the current
    directory: a sound zip archive with its top-level members; a zip
    archive one of whose members, a regular file, fails its CRC check
    while it is read ([before] are the members listed before it, [data] is
    what of it has been written when the check fails, [after] the members
    listed after it); bytes that [zipfile] rejects; or, on the drop only,
    an entry that cannot be fetched (a directory, a file the account may
    not read, a transfer that breaks), with the error the server or the
    transport reports. *)
Inductive remote_data : Type :=
| Zip (members : list node)
| ZipDamaged (before : list node) (damaged : string) (data : payload) (after : list node)
| NotZip (bytes : string)
| Unfetchable (why : string).

Record remote_file : Type := mkRemote {
  rname : string;
  rmtime : Z;
  rdata : remote_data
}.

(** How a server answers when a session is opened.  For the SFTP source,
    [AuthRejected] is paramiko's [AuthenticationException], [Unreachable]
    is pysftp's [ConnectionException] (the host name does not resolve) and
    [Failed] is any other failure of the session, such as a refused
    connection or a host key that does not match, which surface as
    paramiko's [SSHException].  For the FTP destination, [AuthRejected] is
    a rejected login, [Unreachable] an error of the socket and [Failed]
    another error reply. *)
Inductive conn_status : Type :=
| ConnOk
| AuthRejected (why : string)
| Unreachable (why : string)
| Failed (why : string).

(** Exceptions.  [FTPConnectionError] and [DuplicateFileError] come from
    the script's [errors] module; the others are Python's or a library's. *)
Inductive exn_class : Type :=
| FTPConnectionError
| DuplicateFileError
| KeyError
| IndexError
| FileNotFoundError
| OSError
| BadZipFile
| ParserError
| TypeError
| AttributeError
| ValueError
| OverflowError
| FTPLibError
| SSHException
| NameError
| IsADirectoryError
| NotADirectoryError
| FileExistsError.

Inductive exn : Type := Exn (cls : exn_class) (msg : string).

Definition exn_cls (e : exn) : exn_class := let 'Exn c _ := e in c.

Definition result (A : Type) : Type := (exn + A)%type.

(** Everything the script reads or changes. *)
Record world : Type := mkWorld {
  w_getcwd : string;                          (* os.getcwd() when the module is loaded *)
  w_sftp : conn_status;                       (* does the VW server accept the session *)
  w_vw_out : list remote_file;                (* entries of /vw_out/ *)
  w_log : option string;                      (* content of LOG_FILE, None when absent *)
  w_cwd : list (string * remote_data);        (* files fetched into os.getcwd() *)
  w_temp : option (list node);                (* the directory [path], None when absent *)
  w_ftp : conn_status;                        (* does the Motocommerce server accept the session *)
  w_ftp_stored : list (string * payload);     (* STOR commands the server received *)
  w_messages : list string;                   (* the module-level [messages] list *)
  w_ftp_refuses : list (string * string);     (* names the destination refuses to store, with its reply *)
  w_undeletable : list (string * list node)   (* entries of [path] whose deletion fails, with
                                                 what a failed [rmtree] leaves inside *)
}.

Definition set_log (v : option string) (w : world) : world :=
  mkWorld (w_getcwd w) (w_sftp w) (w_vw_out w) v (w_cwd w) (w_temp w) (w_ftp w) (w_ftp_stored w) (w_messages w)
    (w_ftp_refuses w) (w_undeletable w).
Definition set_cwd (v : list (string * remote_data)) (w : world) : world :=
  mkWorld (w_getcwd w) (w_sftp w) (w_vw_out w) (w_log w) v (w_temp w) (w_ftp w) (w_ftp_stored w) (w_messages w)
    (w_ftp_refuses w) (w_undeletable w).
Definition set_temp (v : option (list node)) (w : world) : world :=
  mkWorld (w_getcwd w) (w_sftp w) (w_vw_out w) (w_log w) (w_cwd w) v (w_ftp w) (w_ftp_stored w) (w_messages w)
    (w_ftp_refuses w) (w_undeletable w).
Definition set_ftp_stored (v : list (string * payload)) (w : world) : world :=
  mkWorld (w_getcwd w) (w_sftp w) (w_vw_out w) (w_log w) (w_cwd w) (w_temp w) (w_ftp w) v (w_messages w)
    (w_ftp_refuses w) (w_undeletable w).
Definition set_messages (v : list string) (w : world) : world :=
  mkWorld (w_getcwd w) (w_sftp w) (w_vw_out w) (w_log w) (w_cwd w) (w_temp w) (w_ftp w) (w_ftp_stored w) v
    (w_ftp_refuses w) (w_undeletable w).

(** Actions of a run that are visible from outside the process. *)
Inductive event : Type :=
| EvDownload (filename : string)              (* sftp.get *)
| EvLogAppend (line : string)                 (* write to LOG_FILE *)
| EvExtract (filename : string)               (* ZipFile.extractall *)
| EvRemoveArchive (filename : string)         (* os.remove of the archive *)
| EvRename (src dst : string)                 (* os.rename inside [path] *)
| EvReadCsv (filename : string)               (* pd.read_csv *)
| EvWriteCsv (filename : string)              (* DataFrame.to_csv *)
| EvStor (name : string)                      (* ftp.storbinary *)
| EvDelete (name : string)                    (* os.unlink / shutil.rmtree *)
| EvRmdir                                     (* os.rmdir(path) *)
| EvSlack (channels messages : list string).  (* slack_send_message *)

(** ** The monad of the script: state, exceptions and a trace *)

Definition M (A : Type) : Type := world -> result A * world * list event.

Definition ret {A} (a : A) : M A := fun w => (inr a, w, []).

Definition raise {A} (c : exn_class) (msg : string) : M A :=
  fun w => (inl (Exn c msg), w, []).

Definition bind {A B} (m : M A) (k : A -> M B) : M B :=
  fun w =>
    match m w with
    | (inl e, w1, t1) => (inl e, w1, t1)
    | (inr a, w1, t1) =>
        match k a w1 with
        | (r, w2, t2) => (r, w2, app t1 t2)
        end
    end.

Definition get : M world := fun w => (inr w, w, []).
Definition modify (f : world -> world) : M unit := fun w => (inr tt, f w, []).
Definition emit (e : event) : M unit := fun w => (inr tt, w, [e]).

(** [try: m except Exception as e: ...] hands the outcome to the handler. *)
Definition try_ {A} (m : M A) : M (result A) :=
  fun w => match m w with (r, w1, t1) => (inr r, w1, t1) end.

(** Lifting of a pure computation that may raise. *)
Definition lift {A} (r : result A) : M A := fun w => (r, w, []).

Notation "x <- m ;; k" := (bind m (fun x => k))
  (at level 61, m at next level, right associativity).
Notation "m ;; k" := (bind m (fun _ => k))
  (at level 61, right associativity).

(** The same sequencing for pure computations that may raise. *)
Definition rbind {A B} (r : result A) (k : A -> result B) : result B :=
  match r with
  | inl e => inl e
  | inr a => k a
  end.

Notation "x <~ r ;; k" := (rbind r (fun x => k))
  (at level 61, r at next level, right associativity).

Definition outcome {A} (x : result A * world * list event) : result A := fst (fst x).
Definition final {A} (x : result A * world * list event) : world := snd (fst x).
Definition trace {A} (x : result A * world * list event) : list event := snd x.

(** ** Module-level constants of the script *)

Definition PREFIX : string := "ops_mdm_veh_inven_en_fr_vw_can".
Definition channels : list string := ["vw-ftp-script"].
Definition path (w : world) : string := Py.os_path_join (w_getcwd w) "temp".

(** [for x in l: body(x)]. *)
Fixpoint for_each {A} (l : list A) (body : A -> M unit) : M unit :=
  match l with
  | [] => ret tt
  | x :: l' => body x ;; for_each l' body
  end.

(** ** Dedup ledger *)

(** The line [log_file] writes for [filename]. *)
Definition log_line (filename : string) : string :=
  Py.strip ".txt" filename ++ ".zip" ++ Py.nl.

(** [log_file(filename)]: open LOG_FILE in append mode, which creates it
    when it is absent, and write one line. *)
Definition log_file (filename : string) : M unit :=
  w <- get ;;
  let old := match w_log w with Some content => content | None => "" end in
  modify (set_log (Some (old ++ log_line filename))) ;;
  emit (EvLogAppend (log_line filename)).

Definition missing_log_message : string :=
  "[Errno 2] No such file or directory: 'log_file.txt'".

(** The loop of [check_duplicate] over the lines of an open ledger. *)
Definition scan_log (filename content : string) : bool :=
  fold_left
    (fun repeat line =>
       if Py.contains filename (Py.strip Py.nl line) then true else repeat)
    (Py.readlines content) false.

(** [check_duplicate(filename)]: LOG_FILE is opened in mode r+, which
    raises when the file does not exist. *)
Definition check_duplicate (filename : string) : M bool :=
  w <- get ;;
  match w_log w with
  | None => raise FileNotFoundError missing_log_message
  | Some content => ret (scan_log filename content)
  end.

(** ** Remote source selector *)

Definition not_found_message : string :=
  "Unable to find any files in VW SFTP directory " ++ Py.dq ++ "/vw_out/" ++ Py.dq
  ++ " that begin with PREFIX " ++ Py.dq ++ PREFIX ++ Py.dq.

(** [sftp.listdir()]: names only. *)
Definition sftp_listdir (w : world) : list string := map rname (w_vw_out w).

(** The candidates: entries whose name starts with PREFIX. *)
Definition candidates (names : list string) : list string :=
  filter (Py.startswith PREFIX) names.

(** Lines 188-199: filter, emptiness check, [sorted(files, reverse=True)[0]]. *)
Definition select_newest (names : list string) : result string :=
  let files := candidates names in
  if Nat.eqb (List.length files) 0 then inl (Exn KeyError not_found_message)
  else match Py.sorted_reverse files with
       | filename :: _ => inr filename
       | [] => inl (Exn IndexError "list index out of range")
       end.

(** [sftp.get(filename)]: paramiko first opens the local file for
    writing, which creates it or empties the file of the same name, and
    then copies the remote file into it.  When the remote side cannot be
    read, the exception leaves the empty local file behind. *)
Definition sftp_get (filename : string) : M unit :=
  w <- get ;;
  let others := filter (fun e => negb (String.eqb (fst e) filename)) (w_cwd w) in
  match find (fun f => String.eqb (rname f) filename) (w_vw_out w) with
  | None =>
      modify (set_cwd ((filename, NotZip "") :: others)) ;;
      raise FileNotFoundError "[Errno 2] No such file"
  | Some f =>
      match rdata f with
      | Unfetchable why =>
          modify (set_cwd ((filename, NotZip "") :: others)) ;;
          raise OSError why
      | _ =>
          modify (set_cwd ((filename, rdata f) :: others)) ;;
          emit (EvDownload filename)
      end
  end.

(** [download_sftp(host, user, password, hostkey)].  The two [except]
    clauses turn paramiko's [AuthenticationException] and pysftp's
    [ConnectionException] into [FTPConnectionError]; every other exception
    raised inside the [try], a failure of the session of another kind
    included, passes through unchanged. *)
Definition download_sftp : M string :=
  w <- get ;;
  match w_sftp w with
  | AuthRejected why =>
      raise FTPConnectionError ("Unable to authenticate connection to sftp: " ++ why)
  | Unreachable why =>
      raise FTPConnectionError ("Unable to establish connection to host : " ++ why)
  | Failed why => raise SSHException why
  | ConnOk =>
      filename <- lift (select_newest (sftp_listdir w)) ;;
      repeat_status <- check_duplicate filename ;;
      if repeat_status then raise DuplicateFileError "File has already been logged."
      else if Py.truthy filename then
             sftp_get filename ;;
             log_file filename ;;
             ret filename
           else raise KeyError not_found_message
  end.

(** ** Working area *)

Definition node_name (n : node) : string :=
  match n with
  | File name _ => name
  | Dir name _ => name
  end.

Definition find_entry (name : string) (entries : list node) : option node :=
  find (fun n => String.eqb (node_name n) name) entries.

Definition remove_entry (name : string) (entries : list node) : list node :=
  filter (fun n => negb (String.eqb (node_name n) name)) entries.

(** Write an entry into a directory: over the entry of the same name when
    there is one, as a new last entry otherwise. *)
Fixpoint put_entry (n : node) (entries : list node) : list node :=
  match entries with
  | [] => [n]
  | e :: rest =>
      if String.eqb (node_name e) (node_name n) then n :: rest
      else e :: put_entry n rest
  end.

(** The outcome of an extraction: the exception that stopped it, if any,
    and the directory as the extraction left it. *)
Definition extraction : Type := (option exn * list node)%type.

(** One more member, unless the extraction has already stopped. *)
Definition and_then (acc : extraction) (step : list node -> extraction) : extraction :=
  match acc with
  | (None, dest) => step dest
  | (Some e, dest) => (Some e, dest)
  end.

(** Extraction of one archive member into the directory [parent], whose
    entries are [dest].  A regular file is written over a file of the same
    name; it cannot be written over a directory.  A directory, which the
    archive lists before its members, is created unless a directory of
    that name is there; it cannot be created over a regular file.  Its
    members follow, up to the first that fails. *)
Fixpoint extract_member (parent : string) (m : node) (dest : list node) {struct m}
  : extraction :=
  match m with
  | File name _ =>
      match find_entry name dest with
      | Some (Dir _ _) =>
          (Some (Exn IsADirectoryError
                   ("[Errno 21] Is a directory: " ++ Py.repr (Py.os_path_join parent name))),
           dest)
      | _ => (None, put_entry m dest)
      end
  | Dir name ms =>
      match find_entry name dest with
      | Some (File _ _) =>
          (Some (Exn FileExistsError
                   ("[Errno 17] File exists: " ++ Py.repr (Py.os_path_join parent name))),
           dest)
      | found =>
          let old := match found with
                     | Some (Dir _ cs) => cs
                     | _ => []
                     end in
          let inner :=
            fold_left
              (fun acc m' => and_then acc (extract_member (Py.os_path_join parent name) m'))
              ms (None, old) in
          (fst inner, put_entry (Dir name (snd inner)) dest)
      end
  end.

(** [ZipFile.extractall(path)] into the entries of [path]: the members in
    the order of the archive, up to the first that fails. *)
Definition extractall (top : string) (members dest : list node) : extraction :=
  fold_left (fun acc m => and_then acc (extract_member top m)) members (None, dest).

(** The call of [extractall] inside [unzip_file].  The directory [path] is
    created when the first member is written, so an archive without
    members leaves a missing working area missing. *)
Definition zip_extractall (members : list node) : M unit :=
  w <- get ;;
  match members with
  | [] => ret tt
  | _ :: _ =>
      let dest := match w_temp w with Some es => es | None => [] end in
      let done := extractall (path w) members dest in
      modify (set_temp (Some (snd done))) ;;
      match fst done with
      | Some e => lift (inl e)
      | None => ret tt
      end
  end.

(** [unzip_file(filename, path)]: the archive is looked up in the current
    directory and removed once it has been extracted in full.  A member
    that fails its CRC check raises after its bytes and those of the
    members before it have been written. *)
Definition unzip_file (filename : string) : M unit :=
  if Py.truthy filename then
    w <- get ;;
    match find (fun e => String.eqb (fst e) filename) (w_cwd w) with
    | None =>
        raise FileNotFoundError
          ("[Errno 2] No such file or directory: " ++ Py.repr filename)
    | Some (_, NotZip _) => raise BadZipFile "File is not a zip file"
    | Some (_, Unfetchable _) => raise BadZipFile "File is not a zip file"
    | Some (_, ZipDamaged before damaged data _) =>
        zip_extractall (app before [File damaged data]) ;;
        raise BadZipFile ("Bad CRC-32 for file " ++ Py.repr damaged)
    | Some (_, Zip members) =>
        zip_extractall members ;;
        emit (EvExtract filename) ;;
        modify (set_cwd (filter (fun e => negb (String.eqb (fst e) filename)) (w_cwd w))) ;;
        emit (EvRemoveArchive filename)
    end
  else ret tt.

(** [os.rename(os.path.join(path, src), os.path.join(path, dst))] on
    POSIX.  A regular file replaces a regular file of the new name and
    cannot replace a directory; a directory replaces an empty directory
    only.  The message of every error names both paths. *)
Definition os_rename (src dst : string) : M unit :=
  w <- get ;;
  let paths := Py.repr (Py.os_path_join (path w) src) ++ " -> "
               ++ Py.repr (Py.os_path_join (path w) dst) in
  match w_temp w with
  | None => raise FileNotFoundError ("[Errno 2] No such file or directory: " ++ paths)
  | Some entries =>
      match find_entry src entries with
      | None => raise FileNotFoundError ("[Errno 2] No such file or directory: " ++ paths)
      | Some n =>
          if String.eqb src dst then emit (EvRename src dst)
          else
            match n, find_entry dst entries with
            | File _ _, Some (Dir _ _) =>
                raise IsADirectoryError ("[Errno 21] Is a directory: " ++ paths)
            | Dir _ _, Some (File _ _) =>
                raise NotADirectoryError ("[Errno 20] Not a directory: " ++ paths)
            | Dir _ _, Some (Dir _ (_ :: _)) =>
                raise OSError ("[Errno 39] Directory not empty: " ++ paths)
            | _, _ =>
                let renamed := match n with
                               | File _ d => File dst d
                               | Dir _ cs => Dir dst cs
                               end in
                modify (set_temp (Some (put_entry renamed (remove_entry src entries)))) ;;
                emit (EvRename src dst)
            end
      end
  end.

(** [convert_file(curr_ext, new_ext, filename, path)]. *)
Definition convert_file (curr_ext new_ext filename : string) : M string :=
  let filename := Py.split_dot_0 filename in
  os_rename (filename ++ curr_ext) (filename ++ new_ext) ;;
  let filename := filename ++ new_ext in
  ret filename.

(** What a deletion that fails leaves of an entry: a regular file stays
    as it is, a directory stays with what [shutil.rmtree] had not yet
    removed from it. *)
Definition leave_behind (n : node) (remains : list node) (entries : list node)
  : list node :=
  match n with
  | File _ _ => entries
  | Dir name _ =>
      map (fun e => if String.eqb (node_name e) name then Dir name remains else e) entries
  end.

(** [remove_temp_files(filename, path)]: the entries of [path] are
    deleted one after the other; [os.listdir] raises when [path] does not
    exist.  Each deletion sits in a [try] whose handler formats its message
    with the name [filepath], which the module defines nowhere: a deletion
    that fails ends the function with [NameError], and the entries after
    it are not looked at. *)
Definition remove_temp_files (filename : string) : M unit :=
  w <- get ;;
  match w_temp w with
  | None =>
      raise FileNotFoundError
        ("[Errno 2] No such file or directory: " ++ Py.repr (path w))
  | Some entries =>
      for_each entries
        (fun n =>
           w' <- get ;;
           match find (fun r => String.eqb (fst r) (node_name n)) (w_undeletable w') with
           | Some (_, remains) =>
               modify (fun w' => set_temp (option_map (leave_behind n remains) (w_temp w')) w') ;;
               raise NameError "name 'filepath' is not defined"
           | None =>
               modify (fun w' =>
                         set_temp (option_map (remove_entry (node_name n)) (w_temp w')) w') ;;
               emit (EvDelete (node_name n))
           end)
  end.

(** [os.rmdir(path)]: only an existing empty directory can be removed. *)
Definition os_rmdir : M unit :=
  w <- get ;;
  match w_temp w with
  | None =>
      raise FileNotFoundError
        ("[Errno 2] No such file or directory: " ++ Py.repr (path w))
  | Some [] => modify (set_temp None) ;; emit EvRmdir
  | Some (_ :: _) =>
      raise OSError ("[Errno 39] Directory not empty: " ++ Py.repr (path w))
  end.

(** ** Record transformer *)

(** [math.isnan(x)]. *)
Definition math_isnan (v : pyval) : result bool :=
  match v with
  | PyInt _ => inr false
  | PyFloat FNaN => inr true
  | PyFloat _ => inr false
  | PyStr _ => inl (Exn TypeError "must be real number, not str")
  end.

(** [int(x)] on a number: a float is truncated towards zero.  Strings never
    reach this call, [math.isnan] has raised on them before. *)
Definition py_int (v : pyval) : result Z :=
  match v with
  | PyInt z => inr z
  | PyFloat (FFin q) => inr (Z.quot (Qnum q) (Zpos (Qden q)))
  | PyFloat (FInf _) => inl (Exn OverflowError "cannot convert float infinity to integer")
  | PyFloat FNaN => inl (Exn ValueError "cannot convert float NaN to integer")
  | PyStr _ => inl (Exn ValueError "invalid literal for int() with base 10")
  end.

(** [type(v).__name__] for a cell of a row that holds cells of several
    types, which [iterrows] hands over as Python objects. *)
Definition type_name (v : pyval) : string :=
  match v with
  | PyInt _ => "int"
  | PyFloat _ => "float"
  | PyStr _ => "str"
  end.

(** [v.strip(chars)]: only strings have the method. *)
Definition str_strip (chars : string) (v : pyval) : result string :=
  match v with
  | PyStr s => inr (Py.strip chars s)
  | _ => inl (Exn AttributeError
                ("'" ++ type_name v ++ "' object has no attribute 'strip'"))
  end.

(** The body of the inner loop, lines 282-288, for picture index [i]. *)
Definition pic_link_step (r : row) (acc : result (list string)) (i : Z)
  : result (list string) :=
  pic_path_list <~ acc ;;
  let pic_path := IMAGE_URL_PATTERN r in
  pic_path <~ str_strip "seq#.jpg" pic_path ;;
  let pic_path := pic_path ++ Py.str_int (i + 1)%Z ++ ".jpg" in
  inr (app pic_path_list [pic_path ++ "|"]).

(** The inner loop, [for i in range(pic_count)]. *)
Definition pic_links (r : row) (pic_count : Z) : result (list string) :=
  fold_left (pic_link_step r) (Py.range pic_count) (inr []).

(** The body of the outer loop, lines 275-295, for one row. *)
Definition change_row (r : row) : result row :=
  let pic_count := NON_TRASH_PHOTO_COUNT r in
  isnan <~ math_isnan pic_count ;;
  pic_path_list <~ (if negb isnan
                    then pic_count <~ py_int pic_count ;; pic_links r pic_count
                    else inr []) ;;
  let final_pic_path := Py.join_empty pic_path_list in
  let final_pic_path := Py.drop_last final_pic_path in
  inr (mkRow (NON_TRASH_PHOTO_COUNT r) (PyStr final_pic_path) (other_columns r)).

(** The outer loop over [df.iterrows()]. *)
Fixpoint change_rows (rows : list row) : result (list row) :=
  match rows with
  | [] => inr []
  | r :: rest =>
      r' <~ change_row r ;;
      rest' <~ change_rows rest ;;
      inr (r' :: rest')
  end.

(** [change_pictures(filename)]: read the table at [path]/[filename],
    rewrite every row, write the table back.  An exception inside the loop
    leaves the file as it was. *)
Definition change_pictures (filename : string) : M unit :=
  w <- get ;;
  let file := Py.repr (Py.os_path_join (path w) filename) in
  match w_temp w with
  | None => raise FileNotFoundError ("[Errno 2] No such file or directory: " ++ file)
  | Some entries =>
      match find_entry filename entries with
      | None => raise FileNotFoundError ("[Errno 2] No such file or directory: " ++ file)
      | Some (Dir _ _) => raise IsADirectoryError ("[Errno 21] Is a directory: " ++ file)
      | Some (File _ (Raw _)) =>
          emit (EvReadCsv filename) ;;
          raise ParserError "Error tokenizing data"
      | Some (File _ (Table rows)) =>
          emit (EvReadCsv filename) ;;
          rows' <- lift (change_rows rows) ;;
          modify (set_temp (Some (put_entry (File filename (Table rows')) entries))) ;;
          emit (EvWriteCsv filename)
      end
  end.

(** ** Remote sink uploader *)

Definition dir_files (entries : list node) : list (string * payload) :=
  flat_map (fun n => match n with
                     | File name d => [(name, d)]
                     | Dir _ _ => []
                     end) entries.

Definition dir_subdirs (entries : list node) : list string :=
  flat_map (fun n => match n with
                     | File _ _ => []
                     | Dir name _ => [name]
                     end) entries.

(** One item of [os.walk]: (dirpath, dirnames, filenames); the files
    carry their content for the later [open]. *)
Definition walk_item : Type := (string * list string * list (string * payload))%type.

(** The part of the top-down walk below [parent] contributed by one entry. *)
Fixpoint walk_node (parent : string) (n : node) {struct n} : list walk_item :=
  match n with
  | File _ _ => []
  | Dir name cs =>
      let new_path := Py.os_path_join parent name in
      (new_path, dir_subdirs cs, dir_files cs) :: flat_map (walk_node new_path) cs
  end.

(** [os.walk(top)] over the working area; a missing directory yields nothing. *)
Definition os_walk (top : string) (temp : option (list node)) : list walk_item :=
  match temp with
  | None => []
  | Some entries =>
      (top, dir_subdirs entries, dir_files entries) :: flat_map (walk_node top) entries
  end.

(** [ftp.storbinary("STOR name", fh)].  [ftplib] refuses to send a
    command line that holds a carriage return or a line feed, and the
    server may refuse the name; in both cases nothing is stored. *)
Definition ftp_storbinary (name : string) (data : payload) : M unit :=
  w <- get ;;
  if Py.has_line_break name
  then raise ValueError "an illegal newline character should not be contained"
  else
    match find (fun r => String.eqb (fst r) name) (w_ftp_refuses w) with
    | Some (_, reply) => raise FTPLibError reply
    | None =>
        modify (fun w => set_ftp_stored (app (w_ftp_stored w) [(name, data)]) w) ;;
        emit (EvStor name)
    end.

(** [ftp_upload(host, user, passwd, filename, path)]. *)
Definition ftp_upload (filename path : string) : M unit :=
  w <- get ;;
  match w_ftp w with
  | AuthRejected why => raise FTPLibError ("530 " ++ why)
  | Unreachable why => raise OSError why
  | Failed why => raise FTPLibError why
  | ConnOk =>
      for_each (os_walk path (w_temp w))
        (fun '(new_path, subdirs, files) =>
           for_each files
             (fun '(name, data) =>
                if negb (Py.endswith "__MACOSX" new_path)
                then ftp_storbinary name data
                else ret tt))
  end.

(** ** Pipeline orchestrator *)

(** [str(e)]: the message, except for [KeyError], which shows its [repr]. *)
Definition str_exn (e : exn) : string :=
  match e with
  | Exn KeyError msg => Py.repr msg
  | Exn _ msg => msg
  end.

Definition messages_append (m : string) : M unit :=
  modify (fun w => set_messages (app (w_messages w) [m]) w).

(** Modelled from the spec: [slack_send_message(channels, messages)]
    belongs to the module [SlackBot], which is not among the sources.  The
    spec describes it as a notification sink that accepts a list of channel
    identifiers and a list of message strings, and gives it no result and
    no failure; it is modelled as the action of handing the current
    message list to the given channels, and it returns.  [main] calls it
    after the [try] statement, outside every handler, so an exception of
    the notifier, of which the spec knows none, would leave [main]. *)
Definition slack_send_message (chans : list string) : M unit :=
  w <- get ;;
  emit (EvSlack chans (w_messages w)).

(** The body of the [try] of [main], lines 306-314. *)
Definition pipeline : M unit :=
  w <- get ;;
  filename <- download_sftp ;;
  unzip_file filename ;;
  filename <- convert_file ".txt" ".csv" filename ;;
  change_pictures filename ;;
  filename <- convert_file ".csv" ".txt" filename ;;
  ftp_upload filename (path w) ;;
  remove_temp_files filename ;;
  os_rmdir.

(** The [except] clauses of [main], in order. *)
Definition handler (e : exn) : M unit :=
  match exn_cls e with
  | FTPConnectionError => messages_append (str_exn e)
  | KeyError => messages_append (str_exn e)
  | DuplicateFileError => messages_append (str_exn e)
  | _ => messages_append ("Unknown error: " ++ str_exn e)
  end.

Definition main : M unit :=
  messages_append "An error has occurred:" ;;
  r <- try_ pipeline ;;
  run_success <- match r with
                 | inr _ => ret true
                 | inl e => handler e ;; ret false
                 end ;;
  (if negb run_success then slack_send_message channels else ret tt) ;;
  ret tt.

(** ** Notions used to state the properties *)

(** [sub] occurs in [s] as a run of consecutive characters. *)
Definition is_substring (sub s : string) : Prop :=
  exists pre post, s = pre ++ sub ++ post.

(** The lines of a ledger without their terminators, as the loop of
    [check_duplicate] tests them. *)
Definition ledger_lines (content : string) : list string :=
  map (Py.strip Py.nl) (Py.readlines content).

(** The lines of a text file, terminators left out.  A line ends at a
    line feed, at a carriage return, at a carriage return followed by a
    line feed (one terminator, not two) or at the end of the text; an
    empty text has no line. *)
Fixpoint text_lines (content : string) : list string :=
  match content with
  | "" => []
  | String c rest =>
      if Ascii.eqb c (ascii_of_nat 10) then "" :: text_lines rest
      else if Ascii.eqb c (ascii_of_nat 13)
           then "" :: match rest with
                      | "" => []
                      | String c' rest' =>
                          if Ascii.eqb c' (ascii_of_nat 10) then text_lines rest'
                          else text_lines rest
                      end
           else match text_lines rest with
                | [] => [String c ""]
                | l :: ls => String c l :: ls
                end
  end.

(** The lines of a text whose only terminator is the line feed. *)
Fixpoint plain_lines (text : string) : list string :=
  match text with
  | "" => []
  | String c rest =>
      if Ascii.eqb c (ascii_of_nat 10) then "" :: plain_lines rest
      else match plain_lines rest with
           | [] => [String c ""]
           | l :: ls => String c l :: ls
           end
  end.

(** A ledger holding exactly the given lines, one terminator after each. *)
Definition ledger_of (lines : list string) : string :=
  fold_right (fun l rest => (l ++ Py.nl) ++ rest) "" lines.

Definition newline_free (s : string) : Prop :=
  Py.mem_char (ascii_of_nat 10) s = false.

(** A string that holds neither a carriage return nor a line feed. *)
Definition line_break_free (s : string) : Prop :=
  Py.mem_char (ascii_of_nat 13) s = false /\ Py.mem_char (ascii_of_nat 10) s = false.

(** A name of the expected form: the prefix of the inventory files
    followed by anything. *)
Definition has_prefix (name : string) : Prop :=
  exists rest, name = "ops_mdm_veh_inven_en_fr_vw_can" ++ rest.

(** [f] is a lexicographically greatest element of [l]. *)
Definition greatest (f : string) (l : list string) : Prop :=
  In f l /\ forall g, In g l -> String.leb g f = true.

(** A photo count that is a negative integer or a negative finite float. *)
Definition negative_number (v : pyval) : Prop :=
  match v with
  | PyInt z => (z < 0)%Z
  | PyFloat (FFin q) => (q < 0)%Q
  | _ => False
  end.

(** A photo count below zero: a negative integer, a negative finite float
    or negative infinity. *)
Definition below_zero (v : pyval) : Prop :=
  match v with
  | PyInt z => (z < 0)%Z
  | PyFloat (FFin q) => (q < 0)%Q
  | PyFloat (FInf negative) => negative = true
  | _ => False
  end.

(** The links the transformer is meant to produce from a template
    [base ++ "seq#.jpg"]: [base1.jpg|base2.jpg|...|basen.jpg]. *)
Definition numbered_links (base : string) (n : nat) : string :=
  String.concat "|"
    (map (fun i => base ++ Py.str_int (Z.of_nat i) ++ ".jpg") (seq 1 n)).

(** Every character of [s] belongs to the set [chars]. *)
Fixpoint all_in (chars s : string) : bool :=
  match s with
  | "" => true
  | String c s' => Py.mem_char c chars && all_in chars s'
  end.

(** An action other than the download and the ledger write: a step of
    the pipeline that comes after them, or the failure notification. *)
Definition later_step (e : event) : Prop :=
  match e with
  | EvDownload _ | EvLogAppend _ => False
  | _ => True
  end.

(** The first element of a list, when there is one, is at least every
    element of the list. *)
Definition head_greatest (l : list string) : Prop :=
  match l with
  | [] => True
  | y :: _ => forall g, In g l -> String.leb g y = true
  end.

Definition is_download (e : event) : Prop :=
  match e with
  | EvDownload _ => True
  | _ => False
  end.

(** A computation of the pipeline that comes after the download: it
    performs only later steps and leaves the ledger as it finds it. *)
Definition after_download {A} (m : M A) : Prop :=
  forall w, Forall later_step (trace (m w)) /\ w_log (final (m w)) = w_log w.

(** A computation that, when it returns, has removed the working area. *)
Definition ends_clean (m : M unit) : Prop :=
  forall w, outcome (m w) = inr tt -> w_temp (final (m w)) = None.

(** The base names [ftp_upload] stores, in order: the files of every
    directory of the walk whose path does not end with the marker. *)
Definition uploaded_names (top : string) (temp : option (list node)) : list string :=
  flat_map
    (fun item : walk_item =>
       let '(new_path, _, files) := item in
       if negb (Py.endswith "__MACOSX" new_path) then map fst files else [])
    (os_walk top temp).

(** The names of the entries of a directory, in listing order. *)
Definition entry_names (entries : list node) : list string :=
  map node_name entries.

(** The directory holds a directory of that name. *)
Definition holds_directory (name : string) (entries : list node) : Prop :=
  match find_entry name entries with
  | Some (Dir _ _) => True
  | _ => False
  end.

(** Members that are all regular files, none of them named like a
    directory of [dest]. *)
Definition plain_files (members dest : list node) : Prop :=
  Forall (fun m => match m with
                   | File name _ => ~ holds_directory name dest
                   | Dir _ _ => False
                   end) members.

(** The directory after each of the members was written into it. *)
Definition write_all (members dest : list node) : list node :=
  fold_left (fun acc m => put_entry m acc) members dest.

(** Content that [sftp.get] can fetch. *)
Definition fetchable (d : remote_data) : Prop :=
  match d with
  | Unfetchable _ => False
  | _ => True
  end.

(** The destination accepts a STOR command for that name. *)
Definition storable (w : world) (name : string) : bool :=
  negb (Py.has_line_break name)
  && match find (fun r => String.eqb (fst r) name) (w_ftp_refuses w) with
     | Some _ => false
     | None => true
     end.

(** The deletion of that entry of the working area succeeds. *)
Definition deletable (w : world) (n : node) : bool :=
  match find (fun r => String.eqb (fst r) (node_name n)) (w_undeletable w) with
  | Some _ => false
  | None => true
  end.

(** The two conversions of [main] in a row: from the raw payload to the
    table-readable name and back, the second applied to the name the first
    returns. *)
Definition convert_there_and_back (filename : string) : M string :=
  filename <- convert_file ".txt" ".csv" filename ;;
  convert_file ".csv" ".txt" filename.

(** ** Sample runs *)

Module Sample.

Definition archive : string := "ops_mdm_veh_inven_en_fr_vw_can_20201207.zip".
Definition older : string := "ops_mdm_veh_inven_en_fr_vw_can_20201206.zip".
Definition table : string := "ops_mdm_veh_inven_en_fr_vw_can_20201207.txt".
Definition table_csv : string := "ops_mdm_veh_inven_en_fr_vw_can_20201207.csv".

Definition good_row : row :=
  mkRow (PyInt 2) (PyStr "https://cdn.example.com/veh/seq#.jpg") ["VIN1"].

(** A row of a table whose photo count column holds text. *)
Definition text_row : row :=
  mkRow (PyStr "three") (PyStr "https://cdn.example.com/veh/seq#.jpg") ["VIN2"].

Definition drop (rows : list row) : list remote_file :=
  [mkRemote older 50 (Zip [File "ops_mdm_veh_inven_en_fr_vw_can_20201206.txt" (Table [])]);
   mkRemote archive 10 (Zip [File table (Table rows)]);
   mkRemote "readme.txt" 99 (NotZip "notes")].

(** A first run on a server that holds two archives, with an empty
    ledger and no working area. *)
Definition fresh (rows : list row) : world :=
  mkWorld "/home/vw" ConnOk (drop rows) (Some "") [] None ConnOk [] [] [] [].

(** The same with a destination that cannot be reached. *)
Definition sink_down (rows : list row) : world :=
  mkWorld "/home/vw" ConnOk (drop rows) (Some "") [] None
    (Unreachable "[Errno 111] Connection refused") [] [] [] [].

(** A working area unpacked from an archive made on macOS, with a
    folder inside the metadata directory. *)
Definition mac_area : list node :=
  [File "inventory.txt" (Raw "data");
   Dir "__MACOSX"
     [File "._inventory.txt" (Raw "meta");
      Dir "photos" [File "._cover.jpg" (Raw "meta")]]].

(** A later run against the same server: the ledger holds the line
    written for the newest archive. *)
Definition seen : world :=
  mkWorld "/home/vw" ConnOk (drop [good_row]) (Some (log_line archive)) [] None ConnOk [] [] [] [].

(** A first run on a deployment whose ledger file was never created. *)
Definition no_ledger : world :=
  mkWorld "/home/vw" ConnOk (drop [good_row]) None [] None ConnOk [] [] [] [].

Definition mac_world : world :=
  mkWorld "/home/vw" ConnOk [] (Some "") [] (Some mac_area) ConnOk [] [] [] [].

End Sample.

(** A computation that leaves the source as it is: the state of the SFTP
    session and the listing of the drop directory. *)
Definition keeps_source {A} (m : M A) : Prop :=
  forall w, w_sftp (final (m w)) = w_sftp w /\ w_vw_out (final (m w)) = w_vw_out w.

(** A computation that leaves one component of the world as it is. *)
Definition keeps {X A} (component : world -> X) (m : M A) : Prop :=
  forall w, component (final (m w)) = component w.

(** A computation all of whose actions satisfy [P]. *)
Definition emits_only {A} (P : event -> Prop) (m : M A) : Prop :=
  forall w, Forall P (trace (m w)).

Definition not_slack (e : event) : Prop :=
  match e with
  | EvSlack _ _ => False
  | _ => True
  end.

Definition header : string := "An error has occurred:".

(** A row with its URL field replaced by the string [s]. *)
Definition row_with_url (r : row) (s : string) : row :=
  mkRow (NON_TRASH_PHOTO_COUNT r) (PyStr s) (other_columns r).

(** What [change_row] makes of a row whose photo count is a number of
    integer part [n]: on a string template, the numbered links of the
    stripped template; on a template that is not a string, the empty
    string when there is no link to build and an exception otherwise. *)
Definition outcome_on_count (r : row) (n : Z) : Prop :=
  match IMAGE_URL_PATTERN r with
  | PyStr t =>
      change_row r
      = inr (row_with_url r (numbered_links (Py.strip "seq#.jpg" t) (Z.to_nat n)))
  | _ =>
      if (n <=? 0)%Z then change_row r = inr (row_with_url r "")
      else exists msg, change_row r = inl (Exn AttributeError msg)
  end.

Definition decimal_digits : string := "0123456789".

(** The files [ftp_upload] sends, in order, each with its content: the
    files of every directory of the walk whose path does not end with the
    marker. *)
Definition uploaded_files (top : string) (temp : option (list node))
  : list (string * payload) :=
  flat_map
    (fun item : walk_item =>
       let '(new_path, _, files) := item in
       if negb (Py.endswith "__MACOSX" new_path) then files else [])
    (os_walk top temp).

(** The last character of a string. *)
Fixpoint last_char (s : string) : option ascii :=
  match s with
  | "" => None
  | String c "" => Some c
  | String _ s' => last_char s'
  end.

(** ** Further sample states *)

Module Fixture.

(** The working area right after the archive was expanded. *)
Definition unpacked : world :=
  mkWorld "/home/vw" ConnOk (Sample.drop [Sample.good_row]) (Some "") []
    (Some [File "notes.md" (Raw "keep"); File Sample.table (Table [Sample.good_row])])
    ConnOk [] [] [] [].

(** The current directory right after the download. *)
Definition fetched : world :=
  mkWorld "/home/vw" ConnOk (Sample.drop [Sample.good_row]) (Some "")
    [(Sample.archive, Zip [File Sample.table (Table [Sample.good_row])])]
    (Some [File "notes.md" (Raw "keep")]) ConnOk [] [] [] [].

(** A drop directory without any file of the expected prefix. *)
Definition empty_drop : world :=
  mkWorld "/home/vw" ConnOk [mkRemote "readme.txt" 99 (NotZip "notes")]
    None [] None ConnOk [] [] [] [].

End Fixture.

(** * Properties *)

#[local] Arguments Ascii.eqb : simpl never.

(** ** Running the monad *)

Section MonadLaws.

Context {A B C : Type}.

Lemma run_bind_get (k : world -> M B) (w : world) :
  bind get k w = k w w.
Proof. unfold bind, get. now destruct (k w w) as [[r w2] t2]. Qed.

Lemma run_bind_ret (a : A) (k : A -> M B) (w : world) :
  bind (ret a) k w = k a w.
Proof. unfold bind, ret. now destruct (k a w) as [[r w2] t2]. Qed.

Lemma run_bind_raise (c : exn_class) (msg : string) (k : A -> M B) (w : world) :
  bind (raise c msg) k w = (inl (Exn c msg), w, []).
Proof. reflexivity. Qed.

Lemma run_bind_lift (r : result A) (k : A -> M B) (w : world) :
  bind (lift r) k w
  = match r with
    | inl e => (inl e, w, [])
    | inr a => k a w
    end.
Proof.
  unfold bind, lift. destruct r as [e | a]; [reflexivity |].
  now destruct (k a w) as [[r w2] t2].
Qed.

Lemma run_bind_modify (f : world -> world) (k : unit -> M B) (w : world) :
  bind (modify f) k w = k tt (f w).
Proof. unfold bind, modify. now destruct (k tt (f w)) as [[r w2] t2]. Qed.

Lemma run_bind_emit (e : event) (k : unit -> M B) (w : world) :
  bind (emit e) k w
  = (outcome (k tt w), final (k tt w), e :: trace (k tt w)).
Proof. unfold bind, emit. now destruct (k tt w) as [[r w2] t2]. Qed.

Lemma run_bind_assoc (m : M A) (f : A -> M B) (g : B -> M C) (w : world) :
  bind (bind m f) g w = bind m (fun a => bind (f a) g) w.
Proof.
  unfold bind. destruct (m w) as [[[e | a] w1] t1]; [reflexivity |].
  destruct (f a w1) as [[[e | b] w2] t2]; [reflexivity |].
  destruct (g b w2) as [[r w3] t3]. now rewrite app_assoc.
Qed.

Lemma run_bind_parts (m : M A) (k : A -> M B) (w : world) :
  bind m k w
  = match outcome (m w) with
    | inl e => (inl e, final (m w), trace (m w))
    | inr a => (outcome (k a (final (m w))), final (k a (final (m w))),
                app (trace (m w)) (trace (k a (final (m w)))))
    end.
Proof.
  unfold bind, outcome, final, trace.
  destruct (m w) as [[[e | a] w1] t1]; cbn [fst snd]; [reflexivity |].
  now destruct (k a w1) as [[r w2] t2].
Qed.

End MonadLaws.

Lemma run_parts {A} (x : result A * world * list event) :
  x = (outcome x, final x, trace x).
Proof. now destruct x as [[r w] t]. Qed.

(** ** Strings *)

Section StringFacts.

Lemma startswith_spec (p s : string) :
  Py.startswith p s = true <-> exists post, s = p ++ post.
Proof.
  revert s; induction p as [|a p IH]; intros s; simpl.
  - split; [intros _; now exists s | trivial].
  - destruct s as [|b s]; simpl.
    + split; [discriminate | intros [post H]; discriminate].
    + rewrite andb_true_iff, Ascii.eqb_eq, IH. split.
      * intros [-> [post ->]]. now exists post.
      * intros [post H]. injection H as -> ->. split; [reflexivity | now exists post].
Qed.

Lemma contains_spec (sub s : string) :
  Py.contains sub s = true <-> is_substring sub s.
Proof.
  unfold is_substring. induction s as [|c s IH]; simpl.
  - rewrite orb_false_r, startswith_spec. split.
    + intros [post H]. exists "", post. exact H.
    + intros [pre [post H]]. destruct pre; [now exists post | discriminate].
  - rewrite orb_true_iff, startswith_spec, IH. split.
    + intros [[post H] | [pre [post H]]].
      * exists "", post. exact H.
      * exists (String c pre), post. simpl. now rewrite H.
    + intros [pre [post H]]. destruct pre as [|c' pre]; simpl in H.
      * left. now exists post.
      * right. injection H as _ H. now exists pre, post.
Qed.

Lemma append_empty_r (s : string) : s ++ "" = s.
Proof. induction s; simpl; congruence. Qed.

Lemma append_assoc (a b c : string) : (a ++ b) ++ c = a ++ b ++ c.
Proof. induction a; simpl; congruence. Qed.

(** The flag of a scanning loop ends up set exactly when some item
    passes the test. *)
Lemma flag_loop {A} (test : A -> bool) (l : list A) (flag : bool) :
  fold_left (fun repeat x => if test x then true else repeat) l flag
  = flag || existsb test l.
Proof.
  revert flag; induction l as [|x l IH]; intros flag; simpl.
  - now rewrite orb_false_r.
  - rewrite IH. destruct (test x), flag; reflexivity.
Qed.

End StringFacts.

(** ** Dedup ledger *)

Section Ledger.

Lemma scan_log_spec (filename content : string) :
  scan_log filename content = true
  <-> exists line, In line (ledger_lines content) /\ is_substring filename line.
Proof.
  unfold scan_log, ledger_lines. rewrite flag_loop. simpl.
  rewrite existsb_exists. split.
  - intros [raw [Hin Hc]]. exists (Py.strip Py.nl raw). split.
    + now apply in_map.
    + now apply contains_spec.
  - intros [line [Hin Hs]]. apply in_map_iff in Hin as [raw [<- Hin]].
    exists raw. split; [assumption | now apply contains_spec].
Qed.

Lemma mem_char_nl (c : ascii) :
  Py.mem_char c Py.nl = Ascii.eqb c (ascii_of_nat 10).
Proof. unfold Py.nl. cbn [Py.mem_char]. apply orb_false_r. Qed.

Lemma newline_free_cons (c : ascii) (l : string) :
  newline_free (String c l)
  <-> Ascii.eqb c (ascii_of_nat 10) = false /\ newline_free l.
Proof.
  unfold newline_free. cbn [Py.mem_char].
  rewrite orb_false_iff, (Ascii.eqb_sym c). reflexivity.
Qed.

Lemma line_break_free_cons (c : ascii) (l : string) :
  line_break_free (String c l)
  <-> (Ascii.eqb c (ascii_of_nat 13) = false /\ Ascii.eqb c (ascii_of_nat 10) = false)
      /\ line_break_free l.
Proof.
  unfold line_break_free. cbn [Py.mem_char].
  rewrite !orb_false_iff, (Ascii.eqb_sym c (ascii_of_nat 13)),
    (Ascii.eqb_sym c (ascii_of_nat 10)).
  tauto.
Qed.

Lemma line_break_free_newline_free (s : string) : line_break_free s -> newline_free s.
Proof. intros [_ H]. exact H. Qed.

Lemma line_break_free_app (a b : string) :
  line_break_free a -> line_break_free b -> line_break_free (a ++ b).
Proof.
  intros Ha Hb. induction a as [|c a IH]; [assumption |].
  apply line_break_free_cons in Ha as [Hc Ha].
  cbn [append]. apply line_break_free_cons. auto.
Qed.

(** Stripping line feeds removes the terminator of a line that holds no
    other line feed. *)
Lemma rstrip_nl_terminated (l : string) :
  newline_free l -> Py.rstrip Py.nl (l ++ Py.nl) = l.
Proof.
  induction l as [|c l IH]; intros H.
  - reflexivity.
  - apply newline_free_cons in H as [Hc Hl].
    cbn [append Py.rstrip]. rewrite (IH Hl).
    destruct l; [| reflexivity].
    now rewrite mem_char_nl, Hc.
Qed.

Lemma strip_nl_terminated (l : string) :
  newline_free l -> Py.strip Py.nl (l ++ Py.nl) = l.
Proof.
  intros H. unfold Py.strip. destruct l as [|c l].
  - reflexivity.
  - pose proof H as H'. apply newline_free_cons in H' as [Hc _].
    cbn [append Py.lstrip]. rewrite mem_char_nl, Hc.
    now apply (rstrip_nl_terminated (String c l)).
Qed.

(** A piece of a text cut at its line feeds is a lone line feed or starts
    with another character. *)
Lemma split_keepends_items (text l : string) :
  In l (Py.split_keepends text) ->
  l = Py.nl \/ exists c r, l = String c r /\ Ascii.eqb c (ascii_of_nat 10) = false.
Proof.
  revert l. induction text as [|c rest IH]; intros l; cbn [Py.split_keepends].
  - intros [].
  - destruct (Ascii.eqb c (ascii_of_nat 10)) eqn:Ec.
    + apply Ascii.eqb_eq in Ec. subst c. intros [<- | Hin]; [now left | now apply IH].
    + destruct (Py.split_keepends rest) as [|l0 ls].
      * intros [<- | []]. right. now exists c, "".
      * intros [<- | Hin].
        -- right. now exists c, l0.
        -- apply IH. now right.
Qed.

Lemma strip_nl_cons (c : ascii) (l : string) :
  Ascii.eqb c (ascii_of_nat 10) = false ->
  Py.strip Py.nl (String c l) = String c (Py.rstrip Py.nl l).
Proof.
  intros Hc. unfold Py.strip. cbn [Py.lstrip]. rewrite mem_char_nl, Hc.
  cbn [Py.rstrip]. destruct (Py.rstrip Py.nl l); [| reflexivity].
  now rewrite mem_char_nl, Hc.
Qed.

Lemma strip_nl_item (text l : string) :
  In l (Py.split_keepends text) -> Py.strip Py.nl l = Py.rstrip Py.nl l.
Proof.
  intros Hin. destruct (split_keepends_items _ _ Hin) as [-> | [c [r [-> Hc]]]].
  - reflexivity.
  - rewrite strip_nl_cons by assumption. cbn [Py.rstrip].
    destruct (Py.rstrip Py.nl r); [| reflexivity].
    now rewrite mem_char_nl, Hc.
Qed.

(** Cutting a text after its line feeds and stripping the pieces gives
    its lines. *)
Lemma stripped_pieces (text : string) :
  map (Py.strip Py.nl) (Py.split_keepends text) = plain_lines text.
Proof.
  induction text as [|c rest IH];
    cbn [Py.split_keepends plain_lines]; [reflexivity |].
  destruct (Ascii.eqb c (ascii_of_nat 10)) eqn:Ec.
  - apply Ascii.eqb_eq in Ec. subst c. cbn [map]. now rewrite IH.
  - rewrite <- IH. destruct (Py.split_keepends rest) as [|l0 ls] eqn:E; cbn [map].
    + now rewrite strip_nl_cons.
    + rewrite strip_nl_cons by assumption.
      rewrite (strip_nl_item rest l0) by (rewrite E; now left).
      reflexivity.
Qed.

(** The lines of the translated content are the lines of the file; after
    a carriage return, a line feed at the head belongs to the terminator
    already seen. *)
Lemma plain_lines_translated (content : string) :
  plain_lines (Py.translate_newlines false content) = text_lines content
  /\ plain_lines (Py.translate_newlines true content)
     = match content with
       | "" => []
       | String c rest =>
           if Ascii.eqb c (ascii_of_nat 10) then text_lines rest else text_lines content
       end.
Proof.
  induction content as [|c rest [IHf IHt]]; [split; reflexivity |].
  assert (Hcr : Ascii.eqb c (ascii_of_nat 13) = true ->
                plain_lines (String (ascii_of_nat 10) (Py.translate_newlines true rest))
                = text_lines (String c rest)).
  { intros Ec. cbn [plain_lines text_lines].
    rewrite Ec, Ascii.eqb_refl, IHt.
    apply Ascii.eqb_eq in Ec. subst c.
    change (Ascii.eqb (ascii_of_nat 13) (ascii_of_nat 10)) with false. cbv iota.
    destruct rest as [|c' rest']; [reflexivity |].
    now destruct (Ascii.eqb c' (ascii_of_nat 10)). }
  assert (Hother : Ascii.eqb c (ascii_of_nat 13) = false ->
                   Ascii.eqb c (ascii_of_nat 10) = false ->
                   plain_lines (String c (Py.translate_newlines false rest))
                   = text_lines (String c rest)).
  { intros E13 E10. cbn [plain_lines text_lines]. now rewrite E10, E13, IHf. }
  cbn [Py.translate_newlines].
  destruct (Ascii.eqb c (ascii_of_nat 13)) eqn:E13.
  - pose proof E13 as E. apply Ascii.eqb_eq in E. subst c.
    change (Ascii.eqb (ascii_of_nat 13) (ascii_of_nat 10)) with false. cbv iota.
    split; now apply Hcr.
  - destruct (Ascii.eqb c (ascii_of_nat 10)) eqn:E10.
    + split; [| exact IHf].
      cbn [plain_lines text_lines]. now rewrite E10, IHf.
    + split; now apply Hother.
Qed.

(** The strings the loop of [check_duplicate] tests are the lines of the
    ledger. *)
Lemma ledger_lines_text (content : string) :
  ledger_lines content = text_lines content.
Proof.
  unfold ledger_lines, Py.readlines, Py.universal_newlines.
  rewrite stripped_pieces. apply plain_lines_translated.
Qed.

(** [log_file] appends its line to whatever the ledger holds. *)
Lemma log_file_run (filename : string) (w : world) :
  log_file filename w
  = (inr tt,
     set_log (Some ((match w_log w with Some c => c | None => "" end)
                    ++ log_line filename)) w,
     [EvLogAppend (log_line filename)]).
Proof. reflexivity. Qed.

End Ledger.

Section LedgerGrowth.

Lemma plain_lines_one (s : string) :
  newline_free s -> plain_lines (s ++ Py.nl) = [s].
Proof.
  induction s as [|c s IH]; intros H.
  - reflexivity.
  - apply newline_free_cons in H as [Hc Hs].
    cbn [append plain_lines]. now rewrite Hc, (IH Hs).
Qed.

(** The line written last is a line of the text, after whatever the text
    held on its last line when that line had no terminator. *)
Lemma appended_plain_line (pre s : string) :
  newline_free s -> exists a, In (a ++ s) (plain_lines (pre ++ s ++ Py.nl)).
Proof.
  intros Hs. induction pre as [|c pre [a IH]].
  - exists "". cbn [append]. rewrite plain_lines_one by assumption. now left.
  - cbn [append plain_lines].
    destruct (Ascii.eqb c (ascii_of_nat 10)).
    + exists a. now right.
    + destruct (plain_lines (pre ++ s ++ Py.nl)) as [|l0 ls]; [contradiction |].
      destruct IH as [-> | Hin].
      * exists (String c a). now left.
      * exists a. now right.
Qed.

(** Text added at the end extends the last line, when that line has no
    terminator, and leaves the other lines as they are. *)
Lemma plain_lines_grow (text more : string) :
  forall l0 ls,
    plain_lines text = l0 :: ls ->
    exists b ls',
      plain_lines (text ++ more) = (l0 ++ b) :: ls'
      /\ forall l, In l ls -> exists b', In (l ++ b') ls'.
Proof.
  induction text as [|c rest IH]; intros l0 ls; cbn [append plain_lines].
  - discriminate.
  - destruct (Ascii.eqb c (ascii_of_nat 10)).
    + intros H. injection H as <- <-.
      exists "", (plain_lines (rest ++ more)). split; [reflexivity |].
      intros l Hl. destruct (plain_lines rest) as [|l1 ls1]; [contradiction |].
      destruct (IH l1 ls1 eq_refl) as [b [ls' [E Ht]]]. rewrite E.
      destruct Hl as [<- | Hl].
      * exists b. now left.
      * destruct (Ht l Hl) as [b' Hb]. exists b'. now right.
    + destruct (plain_lines rest) as [|l1 ls1].
      * intros H. injection H as <- <-.
        destruct (plain_lines (rest ++ more)) as [|l2 ls2].
        -- exists "", []. split; [reflexivity | intros l []].
        -- exists l2, ls2. split; [reflexivity | intros l []].
      * intros H. injection H as <- <-.
        destruct (IH l1 ls1 eq_refl) as [b [ls' [E Ht]]]. rewrite E.
        exists b, ls'. split; [reflexivity | assumption].
Qed.

Lemma seen_after_plain_growth (g text more : string) :
  (exists l, In l (plain_lines text) /\ is_substring g l) ->
  exists l, In l (plain_lines (text ++ more)) /\ is_substring g l.
Proof.
  intros [l [Hin [pre [post Hl]]]].
  destruct (plain_lines text) as [|l0 ls] eqn:E; [contradiction |].
  destruct (plain_lines_grow text more l0 ls E) as [b [ls' [E' Ht]]].
  rewrite E'. destruct Hin as [<- | Hin].
  - exists (l0 ++ b). split; [now left |].
    exists pre, (post ++ b). rewrite Hl. now rewrite !append_assoc.
  - destruct (Ht l Hin) as [b' Hb]. exists (l ++ b'). split; [now right |].
    exists pre, (post ++ b'). rewrite Hl. now rewrite !append_assoc.
Qed.

(** Translating a text that was extended translates the former text in
    the same way; only the treatment of a line feed at the head of the
    extension depends on how the former text ended. *)
Lemma translate_newlines_app (after_cr : bool) (content more : string) :
  exists after_cr',
    Py.translate_newlines after_cr (content ++ more)
    = Py.translate_newlines after_cr content ++ Py.translate_newlines after_cr' more.
Proof.
  revert after_cr. induction content as [|c rest IH]; intros after_cr.
  - exists after_cr. reflexivity.
  - cbn [append Py.translate_newlines].
    destruct (Ascii.eqb c (ascii_of_nat 13)).
    + destruct (IH true) as [b' E]. exists b'. now rewrite E.
    + destruct (IH false) as [b' E]. exists b'. rewrite E.
      destruct (Ascii.eqb c (ascii_of_nat 10)); [destruct after_cr |]; reflexivity.
Qed.

Lemma translate_line_break_free (s : string) :
  line_break_free s -> Py.translate_newlines false (s ++ Py.nl) = s ++ Py.nl.
Proof.
  induction s as [|c s IH]; intros H; [reflexivity |].
  apply line_break_free_cons in H as [[H13 H10] Hs].
  cbn [append Py.translate_newlines]. now rewrite H13, H10, (IH Hs).
Qed.

(** A line that is not empty and holds no line break arrives as it was
    written, wherever in the file it stands. *)
Lemma translate_line (after_cr : bool) (s : string) :
  s <> "" -> line_break_free s ->
  Py.translate_newlines after_cr (s ++ Py.nl) = s ++ Py.nl.
Proof.
  destruct s as [|c s]; [congruence |]. intros _ H.
  apply line_break_free_cons in H as [[H13 H10] Hs].
  cbn [append Py.translate_newlines]. rewrite H13, H10.
  now rewrite (translate_line_break_free s Hs).
Qed.

Lemma text_lines_plain (content : string) :
  text_lines content = plain_lines (Py.translate_newlines false content).
Proof. symmetry. apply plain_lines_translated. Qed.

Lemma seen_after_growth (g content more : string) :
  (exists l, In l (text_lines content) /\ is_substring g l) ->
  exists l, In l (text_lines (content ++ more)) /\ is_substring g l.
Proof.
  rewrite !text_lines_plain.
  destruct (translate_newlines_app false content more) as [b' ->].
  apply seen_after_plain_growth.
Qed.

(** The line written last is a line of the ledger, after whatever the
    ledger held on its last line when that line had no terminator. *)
Lemma appended_line (pre s : string) :
  s <> "" -> line_break_free s ->
  exists a, In (a ++ s) (text_lines (pre ++ s ++ Py.nl)).
Proof.
  intros Hne Hs. rewrite text_lines_plain.
  destruct (translate_newlines_app false pre (s ++ Py.nl)) as [b' ->].
  rewrite translate_line by assumption.
  apply appended_plain_line. now apply line_break_free_newline_free.
Qed.

Lemma lstrip_line_break_free (chars s : string) :
  line_break_free s -> line_break_free (Py.lstrip chars s).
Proof.
  induction s as [|c s IH]; intros H; cbn [Py.lstrip]; [assumption |].
  destruct (Py.mem_char c chars); [| assumption].
  apply line_break_free_cons in H as [_ H]. now apply IH.
Qed.

Lemma rstrip_line_break_free (chars s : string) :
  line_break_free s -> line_break_free (Py.rstrip chars s).
Proof.
  induction s as [|c s IH]; intros H; cbn [Py.rstrip]; [assumption |].
  apply line_break_free_cons in H as [Hc H]. specialize (IH H).
  destruct (Py.rstrip chars s) as [|c' r].
  - destruct (Py.mem_char c chars); [split; reflexivity |].
    apply line_break_free_cons. split; [assumption | split; reflexivity].
  - apply line_break_free_cons. split; assumption.
Qed.

Lemma strip_line_break_free (chars s : string) :
  line_break_free s -> line_break_free (Py.strip chars s).
Proof.
  intros H. unfold Py.strip. now apply rstrip_line_break_free, lstrip_line_break_free.
Qed.

(** The line [log_file] writes for a name without a line break is a line
    of the ledger afterwards. *)
Lemma stored_line_is_there (content f : string) :
  line_break_free f ->
  exists before,
    In (before ++ Py.strip ".txt" f ++ ".zip")
       (text_lines (content ++ Py.strip ".txt" f ++ ".zip" ++ Py.nl)).
Proof.
  intros Hf.
  rewrite <- (append_assoc (Py.strip ".txt" f) ".zip" Py.nl).
  apply appended_line.
  - destruct (Py.strip ".txt" f); discriminate.
  - apply line_break_free_app; [now apply strip_line_break_free | split; reflexivity].
Qed.

Lemma scan_log_text (filename content : string) :
  scan_log filename content = true
  <-> exists l, In l (text_lines content) /\ is_substring filename l.
Proof. rewrite <- ledger_lines_text. apply scan_log_spec. Qed.

Lemma check_duplicate_run (filename content : string) (w : world) :
  w_log w = Some content ->
  check_duplicate filename w = (inr (scan_log filename content), w, []).
Proof. intros H. unfold check_duplicate. now rewrite run_bind_get, H. Qed.

End LedgerGrowth.

(** C5: [check_duplicate] answers true exactly when some line of the
    ledger contains the queried name as a substring; it does so for every
    ledger content, whichever way its lines are terminated.  With the line
    "foo_20200101.zip" in the ledger, the queries "foo_20200101" and
    "foo_2020010" are both answered true.  A name is looked for inside a
    line, never across two: in a ledger that holds "a", a carriage return
    and "b.zip", the name made of "a", a carriage return and "b" is
    answered false. *)
Theorem check_duplicate_substring_rule :
  (forall (w : world) (filename content : string),
      exists repeat : bool,
        check_duplicate filename (set_log (Some content) w)
        = (inr repeat, set_log (Some content) w, [])
        /\ (repeat = true
            <-> exists line,
                In line (text_lines content) /\ is_substring filename line))
  /\ (forall w : world,
         outcome (check_duplicate "foo_20200101"
                    (set_log (Some (ledger_of ["foo_20200101.zip"])) w)) = inr true)
  /\ (forall w : world,
         outcome (check_duplicate "foo_2020010"
                    (set_log (Some (ledger_of ["foo_20200101.zip"])) w)) = inr true)
  /\ text_lines ("a" ++ Py.cr ++ "b.zip" ++ Py.nl) = ["a"; "b.zip"]
  /\ (forall w : world,
         outcome (check_duplicate ("a" ++ Py.cr ++ "b")
                    (set_log (Some ("a" ++ Py.cr ++ "b.zip" ++ Py.nl)) w)) = inr false).
Proof.
  split; [| repeat split; intros w; reflexivity].
  intros w filename content. exists (scan_log filename content).
  split; [reflexivity |]. rewrite <- ledger_lines_text. apply scan_log_spec.
Qed.

(** C3 (the code departs from the claim): [log_file] removes the
    characters '.', 't' and 'x' from both ends of the name instead of the
    suffix ".txt", so recording "x.txt" stores ".zip", not "x.zip", and
    recording "report.txt" stores "repor.zip". *)
Theorem log_file_strips_characters :
  (forall w : world,
      w_log (final (log_file "x.txt" (set_log (Some "") w))) = Some (".zip" ++ Py.nl))
  /\ log_line "x.txt" <> "x.zip" ++ Py.nl
  /\ log_line "report.txt" = "repor.zip" ++ Py.nl.
Proof.
  split; [intros w; reflexivity | split; [discriminate | reflexivity]].
Qed.

(** ** Record transformer *)

Section Transformer.

Lemma range_nonpos (n : Z) : (n <= 0)%Z -> Py.range n = [].
Proof.
  intros H. unfold Py.range. destruct n; try reflexivity.
  exfalso. now apply H.
Qed.

Lemma range_of_nat (n : nat) : Py.range (Z.of_nat n) = map Z.of_nat (seq 0 n).
Proof. unfold Py.range. now rewrite Nat2Z.id. Qed.

(** Truncation of a negative rational is not positive. *)
Lemma trunc_negative (q : Q) :
  (q < 0)%Q -> (Z.quot (Qnum q) (Zpos (Qden q)) <= 0)%Z.
Proof.
  unfold Qlt. cbn [Qnum Qden]. intros H.
  assert (Hn : (Qnum q < 0)%Z) by lia.
  assert (Hq : (0 <= Z.quot (- Qnum q) (Zpos (Qden q)))%Z)
    by (apply Z.quot_pos; lia).
  rewrite Z.quot_opp_l in Hq by lia. lia.
Qed.

Lemma pic_links_nonpos (r : row) (n : Z) : (n <= 0)%Z -> pic_links r n = inr [].
Proof. intros H. unfold pic_links. now rewrite range_nonpos. Qed.

(** The inner loop on a string template: one link per number from
    [a + 1] on, each with its delimiter, after what was collected. *)
Lemma pic_links_loop (r : row) (t : string) (k a : nat) (acc : list string) :
  IMAGE_URL_PATTERN r = PyStr t ->
  fold_left (pic_link_step r) (map Z.of_nat (seq a k)) (inr acc)
  = inr (app acc
           (map (fun i => (Py.strip "seq#.jpg" t ++ Py.str_int (Z.of_nat i) ++ ".jpg") ++ "|")
                (seq (S a) k))).
Proof.
  intros Ht. revert a acc. induction k as [|k IH]; intros a acc.
  - cbn [seq map fold_left]. now rewrite app_nil_r.
  - cbn [seq map fold_left]. unfold pic_link_step at 2.
    rewrite Ht. cbn [str_strip rbind].
    rewrite IH, <- app_assoc. cbn [app].
    replace (Z.of_nat a + 1)%Z with (Z.of_nat (S a)) by lia.
    reflexivity.
Qed.

Lemma drop_last_delim (x : string) : Py.drop_last (x ++ "|") = x.
Proof.
  induction x as [|c x IH]; [reflexivity |].
  cbn [append Py.drop_last]. rewrite IH.
  destruct x; reflexivity.
Qed.

Lemma drop_last_app (a b : string) :
  b <> "" -> Py.drop_last (a ++ b) = a ++ Py.drop_last b.
Proof.
  intros Hb. induction a as [|c a IH]; [reflexivity |].
  cbn [append Py.drop_last]. rewrite IH.
  destruct (a ++ b) eqn:E; [| reflexivity].
  destruct a; [cbn in E; congruence | discriminate].
Qed.

(** Joining delimited links and dropping the last character is joining
    the links with the delimiter in between. *)
Lemma join_drop_last (l : list string) :
  Py.drop_last (Py.join_empty (map (fun x => x ++ "|") l)) = String.concat "|" l.
Proof.
  unfold Py.join_empty. induction l as [|x l IH]; [reflexivity |].
  destruct l as [|y l].
  - cbn [map fold_right String.concat]. rewrite append_empty_r.
    apply drop_last_delim.
  - change (String.concat "|" (x :: y :: l))
      with (x ++ "|" ++ String.concat "|" (y :: l)).
    rewrite <- IH. cbn [map fold_right].
    rewrite drop_last_app.
    + now rewrite append_assoc.
    + destruct y; discriminate.
Qed.

Lemma lstrip_length (chars s : string) :
  String.length (Py.lstrip chars s) <= String.length s.
Proof.
  induction s as [|c s IH]; cbn [Py.lstrip]; [lia |].
  destruct (Py.mem_char c chars); cbn [String.length]; lia.
Qed.

Lemma lstrip_fixed_app (chars base suffix : string) :
  base <> "" -> Py.lstrip chars base = base ->
  Py.lstrip chars (base ++ suffix) = base ++ suffix.
Proof.
  destruct base as [|c base]; [congruence |]. intros _ H.
  cbn [append Py.lstrip] in *.
  destruct (Py.mem_char c chars); [| reflexivity].
  pose proof (lstrip_length chars base) as L. rewrite H in L.
  cbn [String.length] in L. lia.
Qed.

Lemma rstrip_all_in (chars s : string) :
  all_in chars s = true -> Py.rstrip chars s = "".
Proof.
  induction s as [|c s IH]; [reflexivity |].
  cbn [all_in Py.rstrip]. intros H. apply andb_true_iff in H as [Hc Hs].
  now rewrite (IH Hs), Hc.
Qed.

Lemma rstrip_app_all_in (chars base suffix : string) :
  all_in chars suffix = true ->
  Py.rstrip chars (base ++ suffix) = Py.rstrip chars base.
Proof.
  intros H. induction base as [|c base IH].
  - now apply rstrip_all_in.
  - cbn [append Py.rstrip]. now rewrite IH.
Qed.

(** When the rest of the template neither starts nor ends with a
    character of the placeholder, stripping removes the placeholder and
    nothing else. *)
Lemma strip_placeholder (chars base : string) :
  base <> "" -> Py.lstrip chars base = base -> Py.rstrip chars base = base ->
  all_in chars chars = true ->
  Py.strip chars (base ++ chars) = base.
Proof.
  intros Hne Hl Hr Hall. unfold Py.strip.
  rewrite lstrip_fixed_app by assumption.
  now rewrite rstrip_app_all_in.
Qed.

(** On such a template and a non-negative integer count, the row gets
    the numbered links of the template, joined by the delimiter. *)
Lemma change_row_numbered_links (base : string) (n : nat) (others : list string) :
  base <> "" ->
  Py.lstrip "seq#.jpg" base = base -> Py.rstrip "seq#.jpg" base = base ->
  change_row (mkRow (PyInt (Z.of_nat n)) (PyStr (base ++ "seq#.jpg")) others)
  = inr (mkRow (PyInt (Z.of_nat n)) (PyStr (numbered_links base n)) others).
Proof.
  intros Hne Hl Hr. unfold change_row, pic_links.
  cbn [NON_TRASH_PHOTO_COUNT other_columns math_isnan py_int rbind negb].
  rewrite range_of_nat.
  rewrite (pic_links_loop _ (base ++ "seq#.jpg")) by reflexivity.
  cbn [rbind app]. rewrite strip_placeholder by (assumption || reflexivity).
  unfold numbered_links.
  rewrite <- join_drop_last, map_map. reflexivity.
Qed.

End Transformer.

(** C10 (the claim holds for finite counts): a row whose photo count is
    a negative integer or a negative finite float gets the empty string as
    its URL field, without an exception, whatever its template cell holds;
    a row whose photo count is absent gets the same. *)
Theorem negative_count_gives_empty_url (r : row) :
  negative_number (NON_TRASH_PHOTO_COUNT r) ->
  change_row r = inr (mkRow (NON_TRASH_PHOTO_COUNT r) (PyStr "") (other_columns r))
  /\ change_row (mkRow (PyFloat FNaN) (IMAGE_URL_PATTERN r) (other_columns r))
     = inr (mkRow (PyFloat FNaN) (PyStr "") (other_columns r)).
Proof.
  intros H. split; [| reflexivity].
  unfold change_row. destruct (NON_TRASH_PHOTO_COUNT r) as [z | [ | neg | q] | s];
    cbn [negative_number] in H; try contradiction;
    cbn [math_isnan py_int rbind negb].
  - rewrite pic_links_nonpos by lia. reflexivity.
  - rewrite pic_links_nonpos by now apply trunc_negative. reflexivity.
Qed.

Lemma negative_count_gives_empty_url_witness :
  change_row (mkRow (PyInt (-2)) (PyStr "https://cdn.example.com/veh/seq#.jpg") ["VIN1"])
  = inr (mkRow (PyInt (-2)) (PyStr "") ["VIN1"])
  /\ change_row (mkRow (PyFloat FNaN) (PyStr "https://cdn.example.com/veh/seq#.jpg") ["VIN1"])
     = inr (mkRow (PyFloat FNaN) (PyStr "") ["VIN1"]).
Proof.
  apply (negative_count_gives_empty_url
           (mkRow (PyInt (-2)) (PyStr "https://cdn.example.com/veh/seq#.jpg") ["VIN1"])).
  simpl. lia.
Defined.

(** C10 (the claim fails on an infinite count): negative infinity is a
    photo count below zero, which a column of floats can hold, and on it
    the transform raises [OverflowError] at the conversion to an integer
    instead of giving the empty string. *)
Lemma negative_infinity_count_raises :
  below_zero (PyFloat (FInf true))
  /\ change_row
       (mkRow (PyFloat (FInf true)) (PyStr "https://cdn.example.com/veh/seq#.jpg") ["VIN1"])
     = inl (Exn OverflowError "cannot convert float infinity to integer")
  /\ change_row
       (mkRow (PyFloat (FInf true)) (PyStr "https://cdn.example.com/veh/seq#.jpg") ["VIN1"])
     <> inr (mkRow (PyFloat (FInf true)) (PyStr "") ["VIN1"]).
Proof. split; [reflexivity | split; [reflexivity | discriminate]]. Qed.

(** C2 (the code departs from the claim): the transformer removes the
    characters of "seq#.jpg" from both ends of the template instead of the
    trailing placeholder.  With photo count 3 and the template
    "photos.example.com/veh/seq#.jpg" the links lose the leading "p"; with
    the template "https://cdn.example.com/veh/image.seq#.jpg" they lose
    "ge." before the number.  In both cases the result differs from the
    numbered links of the template. *)
Theorem change_row_strips_characters :
  change_row (mkRow (PyInt 3) (PyStr "photos.example.com/veh/seq#.jpg") [])
  = inr (mkRow (PyInt 3)
           (PyStr "hotos.example.com/veh/1.jpg|hotos.example.com/veh/2.jpg|hotos.example.com/veh/3.jpg")
           [])
  /\ numbered_links "photos.example.com/veh/" 3
     = "photos.example.com/veh/1.jpg|photos.example.com/veh/2.jpg|photos.example.com/veh/3.jpg"
  /\ change_row (mkRow (PyInt 3) (PyStr "photos.example.com/veh/seq#.jpg") [])
     <> inr (mkRow (PyInt 3) (PyStr (numbered_links "photos.example.com/veh/" 3)) [])
  /\ change_row (mkRow (PyInt 3) (PyStr "https://cdn.example.com/veh/image.seq#.jpg") [])
     = inr (mkRow (PyInt 3)
              (PyStr "https://cdn.example.com/veh/ima1.jpg|https://cdn.example.com/veh/ima2.jpg|https://cdn.example.com/veh/ima3.jpg")
              [])
  /\ numbered_links "https://cdn.example.com/veh/image." 3
     = "https://cdn.example.com/veh/image.1.jpg|https://cdn.example.com/veh/image.2.jpg|https://cdn.example.com/veh/image.3.jpg".
Proof. repeat split; try reflexivity. discriminate. Qed.

(** ** Remote source selector *)

Section Selector.

Lemma leb_refl (s : string) : String.leb s s = true.
Proof.
  unfold String.leb.
  replace (String.compare s s) with Eq; [reflexivity |].
  symmetry. now apply String_as_OT.cmp_eq.
Qed.

Lemma leb_ltb_trans (g y x : string) :
  String.leb g y = true -> String.ltb y x = true -> String.leb g x = true.
Proof.
  unfold String.leb, String.ltb. intros Hgy Hyx.
  destruct (String.compare y x) eqn:Cyx; try discriminate.
  apply String_as_OT.cmp_lt in Cyx.
  destruct (String.compare g y) eqn:Cgy; try discriminate.
  - apply String_as_OT.cmp_eq in Cgy. subst g.
    apply String_as_OT.cmp_lt in Cyx. unfold String_as_OT.cmp in Cyx.
    now rewrite Cyx.
  - apply String_as_OT.cmp_lt in Cgy.
    pose proof (String_as_OT.lt_trans _ _ _ Cgy Cyx) as Hgx.
    apply String_as_OT.cmp_lt in Hgx. unfold String_as_OT.cmp in Hgx.
    now rewrite Hgx.
Qed.

Lemma not_ltb_leb (y x : string) :
  String.ltb y x = false -> String.leb x y = true.
Proof.
  unfold String.leb, String.ltb. rewrite (String.compare_antisym x y).
  destruct (String.compare y x); simpl; congruence.
Qed.

Lemma insert_desc_In (x g : string) (l : list string) :
  In g (Py.insert_desc x l) <-> g = x \/ In g l.
Proof.
  induction l as [|y l IH]; cbn [Py.insert_desc].
  - simpl. intuition congruence.
  - destruct (String.ltb y x); cbn [In]; [| rewrite IH]; intuition congruence.
Qed.

Lemma sorted_reverse_In (g : string) (l : list string) :
  In g (Py.sorted_reverse l) <-> In g l.
Proof.
  unfold Py.sorted_reverse. induction l as [|x l IH]; cbn [fold_right].
  - reflexivity.
  - rewrite insert_desc_In, IH. simpl. intuition congruence.
Qed.

Lemma insert_desc_head (x : string) (l : list string) :
  head_greatest l -> head_greatest (Py.insert_desc x l).
Proof.
  destruct l as [|y l]; cbn [Py.insert_desc head_greatest].
  - intros _ g [<- | []]. apply leb_refl.
  - intros H. destruct (String.ltb y x) eqn:E; cbn [head_greatest].
    + intros g [<- | Hg]; [apply leb_refl |].
      apply leb_ltb_trans with y; [now apply H | assumption].
    + intros g [<- | Hg]; [apply leb_refl |].
      apply insert_desc_In in Hg as [-> | Hg].
      * now apply not_ltb_leb.
      * apply H. now right.
Qed.

Lemma sorted_reverse_head (l : list string) : head_greatest (Py.sorted_reverse l).
Proof.
  unfold Py.sorted_reverse. induction l as [|x l IH]; cbn [fold_right].
  - exact I.
  - now apply insert_desc_head.
Qed.

(** Lines 188-199 of [download_sftp]: no candidate raises [KeyError],
    otherwise the greatest candidate is chosen. *)
Lemma select_newest_spec (names : list string) :
  match candidates names with
  | [] => select_newest names = inl (Exn KeyError not_found_message)
  | _ :: _ => exists f, select_newest names = inr f /\ greatest f (candidates names)
  end.
Proof.
  unfold select_newest, greatest.
  pose proof (sorted_reverse_head (candidates names)) as Hh.
  pose proof (fun g => sorted_reverse_In g (candidates names)) as Hin.
  destruct (candidates names) as [|c cs] eqn:E; [reflexivity |].
  cbn [List.length Nat.eqb].
  destruct (Py.sorted_reverse (c :: cs)) as [|f fs].
  - exfalso. apply (Hin c). now left.
  - exists f. split; [reflexivity |]. split.
    + apply Hin. now left.
    + intros g Hg. apply Hh. now apply Hin.
Qed.

(** A name passes the filter of the selector exactly when it has the
    expected form. *)
Lemma candidates_In (x : string) (names : list string) :
  In x (candidates names) <-> In x names /\ has_prefix x.
Proof.
  unfold candidates, has_prefix. rewrite filter_In.
  now rewrite (startswith_spec PREFIX x).
Qed.

Lemma rstrip_endswith_zip (s : string) :
  Py.endswith ".zip" s = true -> Py.rstrip ".txt" s = s.
Proof.
  induction s as [|c s IH]; [reflexivity |].
  cbn [Py.endswith]. intros H. apply orb_true_iff in H as [H | H].
  - apply String.eqb_eq in H. rewrite H. reflexivity.
  - cbn [Py.rstrip]. rewrite (IH H).
    destruct s; [discriminate | reflexivity].
Qed.

Lemma selected_is_candidate (names : list string) (f : string) :
  select_newest names = inr f -> greatest f (candidates names).
Proof.
  intros Hs. pose proof (select_newest_spec names) as Hspec.
  destruct (candidates names) as [|c cs]; [congruence |].
  destruct Hspec as [f' [Hf' Hg]]. congruence.
Qed.

Lemma selected_has_prefix (names : list string) (f : string) :
  select_newest names = inr f -> In f names /\ has_prefix f.
Proof.
  intros Hs. destruct (selected_is_candidate names f Hs) as [Hin _].
  now apply candidates_In.
Qed.

Lemma selected_truthy (names : list string) (f : string) :
  select_newest names = inr f -> Py.truthy f = true.
Proof.
  intros Hs. destruct (selected_has_prefix names f Hs) as [_ [post ->]]. reflexivity.
Qed.

(** The name of a selected archive is stored in the ledger as it is. *)
Lemma strip_selected_zip (names : list string) (f : string) :
  select_newest names = inr f ->
  Py.endswith ".zip" f = true ->
  Py.strip ".txt" f = f.
Proof.
  intros Hs Hz. destruct (selected_has_prefix names f Hs) as [_ [post ->]].
  unfold Py.strip.
  change (Py.lstrip ".txt" ("ops_mdm_veh_inven_en_fr_vw_can" ++ post))
    with ("ops_mdm_veh_inven_en_fr_vw_can" ++ post).
  now apply rstrip_endswith_zip.
Qed.

(** The runs of [download_sftp]: it raises and changes nothing; or the
    fetch of the selected file, which the ledger did not hold, fails and
    leaves an empty file of that name in the current directory; or the
    file is fetched and its line appended to the ledger. *)
Lemma download_sftp_cases (w : world) :
  (exists e, download_sftp w = (inl e, w, []))
  \/ (exists e f content,
         w_sftp w = ConnOk
         /\ select_newest (sftp_listdir w) = inr f
         /\ w_log w = Some content
         /\ scan_log f content = false
         /\ download_sftp w
            = (inl e,
               set_cwd ((f, NotZip "")
                          :: filter (fun e => negb (String.eqb (fst e) f)) (w_cwd w)) w,
               []))
  \/ (exists f content rf,
         w_sftp w = ConnOk
         /\ select_newest (sftp_listdir w) = inr f
         /\ w_log w = Some content
         /\ scan_log f content = false
         /\ find (fun r => String.eqb (rname r) f) (w_vw_out w) = Some rf
         /\ download_sftp w
            = (inr f,
               set_log (Some (content ++ log_line f))
                 (set_cwd ((f, rdata rf)
                             :: filter (fun e => negb (String.eqb (fst e) f)) (w_cwd w)) w),
               [EvDownload f; EvLogAppend (log_line f)])).
Proof.
  unfold download_sftp. rewrite run_bind_get.
  destruct (w_sftp w) eqn:Es; try (left; eexists; reflexivity).
  rewrite run_bind_lift.
  destruct (select_newest (sftp_listdir w)) as [e | f] eqn:Esel;
    [left; eexists; reflexivity |].
  unfold check_duplicate. rewrite run_bind_assoc, run_bind_get.
  destruct (w_log w) as [content |] eqn:El; [| left; eexists; reflexivity].
  rewrite run_bind_ret.
  destruct (scan_log f content) eqn:Esc; [left; eexists; reflexivity |].
  destruct (Py.truthy f); [| left; eexists; reflexivity].
  unfold sftp_get. rewrite run_bind_assoc, run_bind_get.
  destruct (find (fun f0 => String.eqb (rname f0) f) (w_vw_out w)) as [rf |] eqn:Ef.
  - assert (Hok : (exists why, rdata rf = Unfetchable why)
                  \/ match rdata rf with Unfetchable _ => False | _ => True end)
      by (destruct (rdata rf); [right | right | right | left; eexists]; easy).
    destruct Hok as [[why Hwhy] | Hok].
    + right. left. exists (Exn OSError why), f, content.
      repeat split; try assumption. rewrite Hwhy.
      rewrite run_bind_assoc, run_bind_modify. reflexivity.
    + right. right. exists f, content, rf. repeat split; try assumption.
      destruct (rdata rf) eqn:Ed; try contradiction;
        rewrite run_bind_assoc, run_bind_modify, run_bind_emit;
        rewrite run_bind_parts, log_file_run; cbn; rewrite El; reflexivity.
  - right. left. exists (Exn FileNotFoundError "[Errno 2] No such file"), f, content.
    repeat split; assumption.
Qed.


End Selector.



(** ** Steps after the download *)

Section AfterDownload.

Context {A B : Type}.

Lemma ad_ret (a : A) : after_download (ret a).
Proof. intros w. split; [constructor | reflexivity]. Qed.

Lemma ad_raise (c : exn_class) (msg : string) : after_download (@raise A c msg).
Proof. intros w. split; [constructor | reflexivity]. Qed.

Lemma ad_lift (r : result A) : after_download (lift r).
Proof. intros w. split; [constructor | reflexivity]. Qed.

Lemma ad_get : after_download get.
Proof. intros w. split; [constructor | reflexivity]. Qed.

Lemma ad_emit (e : event) : later_step e -> after_download (emit e).
Proof. intros H w. split; [repeat constructor; exact H | reflexivity]. Qed.

Lemma ad_modify (f : world -> world) :
  (forall w, w_log (f w) = w_log w) -> after_download (modify f).
Proof. intros H w. split; [constructor | apply H]. Qed.

Lemma ad_bind (m : M A) (k : A -> M B) :
  after_download m -> (forall a, after_download (k a)) -> after_download (bind m k).
Proof.
  intros Hm Hk w. rewrite run_bind_parts.
  destruct (Hm w) as [Ht Hl]. destruct (outcome (m w)) as [e | a].
  - split; assumption.
  - destruct (Hk a (final (m w))) as [Ht' Hl']. cbn. split.
    + apply Forall_app. split; assumption.
    + congruence.
Qed.

Lemma ad_for_each (l : list A) (body : A -> M unit) :
  (forall x, after_download (body x)) -> after_download (for_each l body).
Proof.
  intros H. induction l as [|x l IH]; cbn [for_each].
  - intros w. split; [constructor | reflexivity].
  - intros w. rewrite run_bind_parts.
    destruct (H x w) as [Ht Hl]. destruct (outcome (body x w)) as [e | []].
    + split; assumption.
    + destruct (IH (final (body x w))) as [Ht' Hl']. cbn. split.
      * apply Forall_app. split; assumption.
      * congruence.
Qed.

End AfterDownload.

Ltac later_steps :=
  repeat first
    [ apply ad_ret
    | apply ad_raise
    | apply ad_lift
    | apply ad_get
    | apply ad_emit; exact I
    | apply ad_modify; intros ?; reflexivity
    | apply ad_for_each; intros ?
    | apply ad_bind; [| intros ?]
    | match goal with
      | |- after_download (match ?x with _ => _ end) => destruct x
      end
    | progress cbv zeta ].

Section Orchestrator.

Lemma unzip_file_later (filename : string) : after_download (unzip_file filename).
Proof. unfold unzip_file. later_steps. Qed.

Lemma convert_file_later (curr_ext new_ext filename : string) :
  after_download (convert_file curr_ext new_ext filename).
Proof. unfold convert_file, os_rename. later_steps. Qed.

Lemma change_pictures_later (filename : string) :
  after_download (change_pictures filename).
Proof. unfold change_pictures. later_steps. Qed.

Lemma ftp_upload_later (filename top : string) :
  after_download (ftp_upload filename top).
Proof. unfold ftp_upload, ftp_storbinary. later_steps. Qed.

Lemma remove_temp_files_later (filename : string) :
  after_download (remove_temp_files filename).
Proof. unfold remove_temp_files. later_steps. Qed.

Lemma os_rmdir_later : after_download os_rmdir.
Proof. unfold os_rmdir. later_steps. Qed.

(** A failed download is a failed pipeline that did nothing more. *)
Lemma pipeline_download_failed (w w1 : world) (e : exn) (t : list event) :
  download_sftp w = (inl e, w1, t) -> pipeline w = (inl e, w1, t).
Proof.
  intros H. unfold pipeline. rewrite run_bind_get, run_bind_parts, H. reflexivity.
Qed.

(** After a download the pipeline performs later steps only and does
    not touch the ledger again. *)
Lemma pipeline_download_done (w w1 : world) (f : string) (t : list event) :
  download_sftp w = (inr f, w1, t) ->
  exists post,
    trace (pipeline w) = app t post
    /\ Forall later_step post
    /\ w_log (final (pipeline w)) = w_log w1.
Proof.
  intros H. unfold pipeline. rewrite run_bind_get, run_bind_parts, H.
  cbn [outcome final trace fst snd].
  match goal with
  | |- context [trace (?m w1)] =>
      assert (Hm : after_download m)
  end.
  { later_steps;
      auto using unzip_file_later, convert_file_later, change_pictures_later,
        ftp_upload_later, remove_temp_files_later, os_rmdir_later. }
  match goal with
  | |- context [trace (?m w1)] => destruct (Hm w1) as [Ht Hl]; exists (trace (m w1))
  end.
  auto.
Qed.

Lemma handler_run (e : exn) (w : world) :
  exists m, handler e w = (inr tt, set_messages (app (w_messages w) [m]) w, []).
Proof.
  unfold handler, messages_append, modify.
  destruct (exn_cls e); eexists; reflexivity.
Qed.

Lemma main_tail_failed (e : exn) (w : world) :
  (run_success <- (handler e ;; ret false) ;;
   (if negb run_success then slack_send_message channels else ret tt) ;;
   ret tt) w
  = (inr tt, final (handler e w),
     [EvSlack channels (w_messages (final (handler e w)))]).
Proof.
  destruct (handler_run e w) as [m Hm].
  rewrite run_bind_assoc, run_bind_parts, Hm. cbn [outcome final trace fst snd app].
  rewrite run_bind_ret. cbn [negb]. unfold slack_send_message.
  rewrite run_bind_assoc, run_bind_get, run_bind_emit.
  reflexivity.
Qed.

Lemma main_tail_ok (w : world) :
  (run_success <- ret true ;;
   (if negb run_success then slack_send_message channels else ret tt) ;;
   ret tt) w
  = (inr tt, w, []).
Proof. reflexivity. Qed.

Lemma run_bind_try {A B} (m : M A) (k : result A -> M B) (w : world) :
  bind (try_ m) k w
  = (outcome (k (outcome (m w)) (final (m w))),
     final (k (outcome (m w)) (final (m w))),
     app (trace (m w)) (trace (k (outcome (m w)) (final (m w))))).
Proof.
  unfold bind, try_, outcome, final, trace.
  destruct (m w) as [[r w1] t1]. cbn [fst snd].
  now destruct (k r w1) as [[r2 w2] t2].
Qed.

(** What [main] makes of a run of the pipeline. *)
Lemma main_run (w : world) :
  let w0 := set_messages (app (w_messages w) ["An error has occurred:"]) w in
  main w
  = match outcome (pipeline w0) with
    | inr _ => (inr tt, final (pipeline w0), trace (pipeline w0))
    | inl e =>
        let w1 := final (handler e (final (pipeline w0))) in
        (inr tt, w1, app (trace (pipeline w0)) [EvSlack channels (w_messages w1)])
    end.
Proof.
  intros w0. unfold main, messages_append. rewrite run_bind_modify.
  fold w0. rewrite run_bind_try.
  destruct (outcome (pipeline w0)) as [e | []].
  - rewrite main_tail_failed. reflexivity.
  - rewrite main_tail_ok. cbn. now rewrite app_nil_r.
Qed.

End Orchestrator.

Section Runs.

Lemma download_sftp_duplicate (w : world) (f content : string) :
  w_sftp w = ConnOk ->
  select_newest (sftp_listdir w) = inr f ->
  w_log w = Some content ->
  scan_log f content = true ->
  download_sftp w
  = (inl (Exn DuplicateFileError "File has already been logged."), w, []).
Proof.
  intros Hc Hs Hl Hd. unfold download_sftp.
  rewrite run_bind_get, Hc, run_bind_lift, Hs.
  unfold check_duplicate. rewrite run_bind_assoc, run_bind_get, Hl, run_bind_ret, Hd.
  reflexivity.
Qed.

Lemma download_sftp_no_ledger (w : world) :
  w_log w = None -> exists e, download_sftp w = (inl e, w, []).
Proof.
  intros Hl.
  destruct (download_sftp_cases w)
    as [H | [[e [f [ct [_ [_ [Hl' _]]]]]] | [f [ct [rf [_ [_ [Hl' _]]]]]]]];
    [assumption | congruence | congruence].
Qed.

Lemma download_sftp_missing_log (w : world) (f : string) :
  w_sftp w = ConnOk ->
  select_newest (sftp_listdir w) = inr f ->
  w_log w = None ->
  download_sftp w = (inl (Exn FileNotFoundError missing_log_message), w, []).
Proof.
  intros Hc Hs Hl. unfold download_sftp.
  rewrite run_bind_get, Hc, run_bind_lift, Hs.
  unfold check_duplicate. rewrite run_bind_assoc, run_bind_get, Hl.
  reflexivity.
Qed.

(** The start of [main] changes the message list only. *)
Lemma started_same (w : world) (m : list string) :
  w_sftp (set_messages m w) = w_sftp w
  /\ sftp_listdir (set_messages m w) = sftp_listdir w
  /\ w_log (set_messages m w) = w_log w.
Proof. repeat split. Qed.

End Runs.

(** What a run of [main] that downloads [f] found, did and left in the
    ledger. *)
Lemma main_download_facts (w : world) (f : string) :
  In (EvDownload f) (trace (main w)) ->
  w_sftp w = ConnOk
  /\ select_newest (sftp_listdir w) = inr f
  /\ exists content post,
      w_log w = Some content
      /\ scan_log f content = false
      /\ trace (main w) = EvDownload f :: EvLogAppend (log_line f) :: post
      /\ Forall later_step post
      /\ w_log (final (main w)) = Some (content ++ log_line f).
Proof.
  rewrite main_run. cbv zeta.
  set (w0 := set_messages (app (w_messages w) ["An error has occurred:"]) w).
  destruct (download_sftp_cases w0)
    as [[e He] | [[e [f' [ct [_ [_ [_ [_ He]]]]]]]
                 | [f' [ct [rf [Hc [Hs [Hl [Hn [_ Hd]]]]]]]]]].
  - rewrite (pipeline_download_failed _ _ _ _ He). cbn.
    intros [H | []]. discriminate.
  - rewrite (pipeline_download_failed _ _ _ _ He). cbn.
    intros [H | []]. discriminate.
  - destruct (pipeline_download_done _ _ _ _ Hd) as [post [Ht [Hp Hlog]]].
    cbn [w_log set_log] in Hlog.
    assert (Hin : forall e, In (EvDownload f) (app (trace (pipeline w0)) e) ->
                            Forall later_step e -> f = f').
    { intros e Hin He. rewrite Ht in Hin. cbn in Hin.
      destruct Hin as [Hin | [Hin | Hin]]; [congruence | discriminate |].
      exfalso. apply in_app_or in Hin.
      assert (Hall : Forall later_step (app post e)) by (apply Forall_app; auto).
      rewrite Forall_forall in Hall.
      apply (Hall (EvDownload f)). apply in_or_app. exact Hin. }
    destruct (outcome (pipeline w0)) as [e | []]; cbn [final trace fst snd]; intros H.
    + rewrite (Hin _ H) by (repeat constructor).
      repeat split; try assumption.
      exists ct, (app post [EvSlack channels
                              (w_messages (final (handler e (final (pipeline w0)))))]).
      repeat split; try assumption.
      * rewrite Ht. reflexivity.
      * apply Forall_app. split; [assumption | repeat constructor].
      * destruct (handler_run e (final (pipeline w0))) as [m Hm]. rewrite Hm.
        exact Hlog.
    + rewrite <- (app_nil_r (trace (pipeline w0))) in H.
      rewrite (Hin _ H) by constructor.
      repeat split; try assumption. exists ct, post. repeat split; assumption.
Qed.

(** C7: in a run of [main] that downloads a file, the download is the
    first action of the run and the write of that file's ledger line is
    the second; every other action of the run (expand, rename, transform,
    upload, teardown, notification) comes after both.  The line written is
    the name stripped of the characters '.', 't', 'x' at both ends,
    followed by ".zip" and a line feed, and the ledger ends the run holding
    its former content followed by that line.  For a name without a line
    break that entry is a line of the ledger from then on (after the text
    of a last line that had no terminator, when there was one), and for an
    archive name, which ends with ".zip", the entry starts with the name
    itself. *)
Theorem ledger_written_right_after_download (w : world) (filename : string) :
  In (EvDownload filename) (trace (main w)) ->
  exists content post,
    w_log w = Some content
    /\ trace (main w)
       = EvDownload filename
           :: EvLogAppend (Py.strip ".txt" filename ++ ".zip" ++ Py.nl) :: post
    /\ Forall later_step post
    /\ w_log (final (main w))
       = Some (content ++ Py.strip ".txt" filename ++ ".zip" ++ Py.nl)
    /\ (line_break_free filename ->
        exists before,
          In (before ++ Py.strip ".txt" filename ++ ".zip")
             (text_lines (content ++ Py.strip ".txt" filename ++ ".zip" ++ Py.nl)))
    /\ (Py.endswith ".zip" filename = true -> Py.strip ".txt" filename = filename).
Proof.
  intros Hd.
  destruct (main_download_facts w filename Hd)
    as [_ [Hs [content [post [Hl [_ [Ht [Hp Hlog]]]]]]]].
  exists content, post.
  split; [assumption |]. split; [exact Ht |]. split; [assumption |].
  split; [exact Hlog |]. split.
  - intros Hf. now apply stored_line_is_there.
  - intros Hz. exact (strip_selected_zip _ _ Hs Hz).
Qed.

Lemma ledger_written_right_after_download_witness :
  exists content post,
    w_log (Sample.fresh [Sample.good_row]) = Some content
    /\ trace (main (Sample.fresh [Sample.good_row]))
       = EvDownload Sample.archive
           :: EvLogAppend (Py.strip ".txt" Sample.archive ++ ".zip" ++ Py.nl) :: post
    /\ Forall later_step post
    /\ w_log (final (main (Sample.fresh [Sample.good_row])))
       = Some (content ++ Py.strip ".txt" Sample.archive ++ ".zip" ++ Py.nl)
    /\ (line_break_free Sample.archive ->
        exists before,
          In (before ++ Py.strip ".txt" Sample.archive ++ ".zip")
             (text_lines (content ++ Py.strip ".txt" Sample.archive ++ ".zip" ++ Py.nl)))
    /\ (Py.endswith ".zip" Sample.archive = true ->
        Py.strip ".txt" Sample.archive = Sample.archive).
Proof.
  apply (ledger_written_right_after_download (Sample.fresh [Sample.good_row]) Sample.archive).
  vm_compute. left. reflexivity.
Defined.

(** C8: when the duplicate check finds the chosen candidate in the ledger,
    [download_sftp] raises [DuplicateFileError] before any download, and
    the run of [main] changes nothing but the message list and performs
    no action but the notification: no file is fetched, the ledger is not
    written, nothing is expanded, transformed or uploaded. *)
Theorem duplicate_run_performs_no_work (w : world) (f content : string) :
  w_sftp w = ConnOk ->
  select_newest (sftp_listdir w) = inr f ->
  w_log w = Some content ->
  (exists line, In line (ledger_lines content) /\ is_substring f line) ->
  download_sftp w
  = (inl (Exn DuplicateFileError "File has already been logged."), w, [])
  /\ main w
     = (inr tt,
        set_messages
          (app (w_messages w) ["An error has occurred:"; "File has already been logged."]) w,
        [EvSlack channels
           (app (w_messages w) ["An error has occurred:"; "File has already been logged."])]).
Proof.
  intros Hc Hs Hl Hseen. apply scan_log_spec in Hseen.
  split; [now apply (download_sftp_duplicate w f content) |].
  rewrite main_run. cbv zeta.
  set (w0 := set_messages (app (w_messages w) ["An error has occurred:"]) w).
  rewrite (pipeline_download_failed w0 w0 _ []
             (download_sftp_duplicate w0 f content Hc Hs Hl Hseen)).
  cbn. rewrite <- app_assoc. reflexivity.
Qed.

Lemma duplicate_run_performs_no_work_witness :
  download_sftp Sample.seen
  = (inl (Exn DuplicateFileError "File has already been logged."), Sample.seen, [])
  /\ main Sample.seen
     = (inr tt,
        set_messages
          (app (w_messages Sample.seen)
               ["An error has occurred:"; "File has already been logged."]) Sample.seen,
        [EvSlack channels
           (app (w_messages Sample.seen)
                ["An error has occurred:"; "File has already been logged."])]).
Proof.
  apply (duplicate_run_performs_no_work Sample.seen Sample.archive (log_line Sample.archive)).
  - reflexivity.
  - reflexivity.
  - reflexivity.
  - exists (Sample.archive ++ ".zip"). split.
    + left. reflexivity.
    + exists "", ".zip". reflexivity.
Defined.

(** C9: when the ledger file does not exist, [check_duplicate] raises a
    file-not-found error for every queried name instead of answering
    false; a run that reaches the check fails with that error, reported
    as an unknown error; and no run downloads anything: its only action is
    the failure notification and the ledger is still absent afterwards. *)
Theorem missing_ledger_fails_run (w : world) :
  w_log w = None ->
  (forall filename,
      check_duplicate filename w
      = (inl (Exn FileNotFoundError missing_log_message), w, []))
  /\ (forall f,
         w_sftp w = ConnOk ->
         select_newest (sftp_listdir w) = inr f ->
         download_sftp w = (inl (Exn FileNotFoundError missing_log_message), w, [])
         /\ w_messages (final (main w))
            = app (w_messages w)
                ["An error has occurred:"; "Unknown error: " ++ missing_log_message])
  /\ (exists msgs, trace (main w) = [EvSlack channels msgs])
  /\ (forall g, ~ In (EvDownload g) (trace (main w)))
  /\ w_cwd (final (main w)) = w_cwd w
  /\ w_log (final (main w)) = None.
Proof.
  intros Hl.
  set (w0 := set_messages (app (w_messages w) ["An error has occurred:"]) w).
  assert (Hl0 : w_log w0 = None) by exact Hl.
  destruct (download_sftp_no_ledger w0 Hl0) as [e He].
  pose proof (pipeline_download_failed _ _ _ _ He) as Hp.
  pose proof (main_run w) as Hm. cbv zeta in Hm. fold w0 in Hm. rewrite Hp in Hm.
  cbn [outcome final trace fst snd app] in Hm.
  destruct (handler_run e w0) as [m Hh]. rewrite Hh in Hm. cbn [final fst snd] in Hm.
  split; [| split; [| split; [| split; [| split]]]].
  - intros filename. unfold check_duplicate. now rewrite run_bind_get, Hl.
  - intros f Hc Hs. split; [now apply (download_sftp_missing_log w f) |].
    assert (He' : download_sftp w0
                  = (inl (Exn FileNotFoundError missing_log_message), w0, []))
      by now apply (download_sftp_missing_log w0 f).
    rewrite He in He'. injection He' as ->.
    unfold handler, messages_append, modify in Hh. cbn in Hh.
    injection Hh as Hh. apply app_inv_head in Hh. injection Hh as <-.
    rewrite Hm. cbn. rewrite <- app_assoc. reflexivity.
  - rewrite Hm. eexists. reflexivity.
  - intros g. rewrite Hm. intros [H | []]. discriminate.
  - rewrite Hm. reflexivity.
  - rewrite Hm. exact Hl.
Qed.

Lemma missing_ledger_fails_run_witness :
  (forall filename,
      check_duplicate filename Sample.no_ledger
      = (inl (Exn FileNotFoundError missing_log_message), Sample.no_ledger, []))
  /\ (forall f,
         w_sftp Sample.no_ledger = ConnOk ->
         select_newest (sftp_listdir Sample.no_ledger) = inr f ->
         download_sftp Sample.no_ledger
         = (inl (Exn FileNotFoundError missing_log_message), Sample.no_ledger, [])
         /\ w_messages (final (main Sample.no_ledger))
            = app (w_messages Sample.no_ledger)
                ["An error has occurred:"; "Unknown error: " ++ missing_log_message])
  /\ (exists msgs, trace (main Sample.no_ledger) = [EvSlack channels msgs])
  /\ (forall g, ~ In (EvDownload g) (trace (main Sample.no_ledger)))
  /\ w_cwd (final (main Sample.no_ledger)) = w_cwd Sample.no_ledger
  /\ w_log (final (main Sample.no_ledger)) = None.
Proof.
  apply (missing_ledger_fails_run Sample.no_ledger). reflexivity.
Defined.

(** ** Working-area teardown *)

Section Teardown.

Lemma ec_bind {A} (m : M A) (k : A -> M unit) :
  (forall a, ends_clean (k a)) -> ends_clean (bind m k).
Proof.
  intros Hk w. rewrite run_bind_parts.
  destruct (outcome (m w)) as [e | a]; cbn [outcome final fst snd].
  - discriminate.
  - apply Hk.
Qed.

Lemma ec_rmdir : ends_clean os_rmdir.
Proof.
  intros w. unfold os_rmdir. rewrite run_bind_get.
  destruct (w_temp w) as [[|n entries] |]; cbn; congruence.
Qed.

Lemma pipeline_ends_clean : ends_clean pipeline.
Proof. unfold pipeline. do 8 (apply ec_bind; intros ?). apply ec_rmdir. Qed.

(** A run of [main] that sends no notification has removed the working
    area. *)
Lemma quiet_run_removes_working_area (w : world) :
  (forall chans msgs, ~ In (EvSlack chans msgs) (trace (main w))) ->
  w_temp (final (main w)) = None.
Proof.
  rewrite main_run. cbv zeta.
  set (w0 := set_messages (app (w_messages w) ["An error has occurred:"]) w).
  pose proof (pipeline_ends_clean w0) as Hc.
  destruct (outcome (pipeline w0)) as [e | []]; cbn [final trace fst snd]; intros H.
  - exfalso. eapply H. apply in_or_app. right. left. reflexivity.
  - now apply Hc.
Qed.

End Teardown.

(** C1 (the code departs from the claim): the teardown is part of the
    [try] body of [main] and runs only when every step before it has
    succeeded.  A run whose transform raises on a photo count that holds
    text starts without a working area and ends with one that still holds
    the renamed table; so does a run whose upload cannot reach the
    destination. *)
Theorem main_keeps_working_area_after_failure :
  w_temp (Sample.fresh [Sample.good_row; Sample.text_row]) = None
  /\ outcome (pipeline (Sample.fresh [Sample.good_row; Sample.text_row]))
     = inl (Exn TypeError "must be real number, not str")
  /\ w_temp (final (main (Sample.fresh [Sample.good_row; Sample.text_row])))
     = Some [File Sample.table_csv (Table [Sample.good_row; Sample.text_row])]
  /\ outcome (pipeline (Sample.sink_down [Sample.good_row]))
     = inl (Exn OSError "[Errno 111] Connection refused")
  /\ w_temp (final (main (Sample.sink_down [Sample.good_row]))) <> None.
Proof. repeat split; try reflexivity. vm_compute. discriminate. Qed.

(** ** Remote sink uploader *)

Section Uploader.

Lemma map_flat_map {A B C} (f : B -> C) (g : A -> list B) (l : list A) :
  map f (flat_map g l) = flat_map (fun x => map f (g x)) l.
Proof.
  induction l as [|x l IH]; cbn [flat_map map]; [reflexivity |].
  now rewrite map_app, IH.
Qed.

End Uploader.

(** C4 (the code departs from the claim): [ftp_upload] skips the files of
    a directory only when the path of that very directory ends with
    "__MACOSX".  In a working area that holds "__MACOSX/photos/._cover.jpg"
    the walk reaches the directory "/home/vw/temp/__MACOSX/photos", whose
    path does not end with the marker, and the file below the marker
    directory is stored on the destination. *)
Theorem ftp_upload_stores_file_below_marker :
  os_walk (path Sample.mac_world) (w_temp Sample.mac_world)
  = [("/home/vw/temp", ["__MACOSX"], [("inventory.txt", Raw "data")]);
     ("/home/vw/temp/__MACOSX", ["photos"], [("._inventory.txt", Raw "meta")]);
     ("/home/vw/temp/__MACOSX/photos", [], [("._cover.jpg", Raw "meta")])]
  /\ trace (ftp_upload "inventory.txt" (path Sample.mac_world) Sample.mac_world)
     = [EvStor "inventory.txt"; EvStor "._cover.jpg"]
  /\ w_ftp_stored
       (final (ftp_upload "inventory.txt" (path Sample.mac_world) Sample.mac_world))
     = [("inventory.txt", Raw "data"); ("._cover.jpg", Raw "meta")].
Proof. repeat split; reflexivity. Qed.

(** * Further properties of the script *)

(** ** Entries of the working area *)

Section Entries.

Lemma find_entry_put_same (n : node) (es : list node) :
  find_entry (node_name n) (put_entry n es) = Some n.
Proof.
  unfold find_entry. induction es as [|e es IH]; cbn [put_entry find].
  - now rewrite String.eqb_refl.
  - destruct (String.eqb (node_name e) (node_name n)) eqn:E; cbn [find].
    + now rewrite String.eqb_refl.
    + now rewrite E.
Qed.

Lemma find_entry_put_other (name : string) (n : node) (es : list node) :
  name <> node_name n -> find_entry name (put_entry n es) = find_entry name es.
Proof.
  intros Hne. unfold find_entry. induction es as [|e es IH]; cbn [put_entry find].
  - apply not_eq_sym, String.eqb_neq in Hne. now rewrite Hne.
  - destruct (String.eqb (node_name e) (node_name n)) eqn:E; cbn [find].
    + apply String.eqb_eq in E. rewrite E.
      apply not_eq_sym, String.eqb_neq in Hne. now rewrite Hne.
    + now rewrite IH.
Qed.

Lemma find_entry_remove_same (x : string) (es : list node) :
  find_entry x (remove_entry x es) = None.
Proof.
  unfold find_entry, remove_entry. induction es as [|e es IH]; cbn [filter find].
  - reflexivity.
  - destruct (String.eqb (node_name e) x) eqn:E; cbn [negb find]; [assumption |].
    now rewrite E.
Qed.

Lemma find_entry_remove_other (x y : string) (es : list node) :
  x <> y -> find_entry y (remove_entry x es) = find_entry y es.
Proof.
  intros Hne. unfold find_entry, remove_entry.
  induction es as [|e es IH]; cbn [filter find]; [reflexivity |].
  destruct (String.eqb (node_name e) x) eqn:E; cbn [negb find].
  - apply String.eqb_eq in E. rewrite E.
    apply String.eqb_neq in Hne. now rewrite Hne.
  - now rewrite IH.
Qed.

Lemma put_entry_names (x : string) (n : node) (es : list node) :
  In x (entry_names (put_entry n es)) <-> x = node_name n \/ In x (entry_names es).
Proof.
  unfold entry_names. induction es as [|e es IH]; cbn [put_entry map In].
  - intuition congruence.
  - destruct (String.eqb (node_name e) (node_name n)) eqn:E; cbn [map In].
    + apply String.eqb_eq in E. rewrite E. intuition congruence.
    + rewrite IH. intuition congruence.
Qed.

Lemma holds_directory_put_file (x name : string) (d : payload) (es : list node) :
  holds_directory x (put_entry (File name d) es) -> holds_directory x es.
Proof.
  unfold holds_directory. destruct (String.eqb x name) eqn:E.
  - apply String.eqb_eq in E. subst x.
    now rewrite (find_entry_put_same (File name d)).
  - apply String.eqb_neq in E. now rewrite find_entry_put_other.
Qed.

Lemma plain_files_put (members : list node) (name : string) (d : payload)
      (dest : list node) :
  plain_files members dest -> plain_files members (put_entry (File name d) dest).
Proof.
  unfold plain_files. intros H. eapply Forall_impl; [| exact H].
  intros [x dx | x cs]; [| trivial].
  intros Hx Hd. apply Hx. now apply holds_directory_put_file in Hd.
Qed.

(** Regular files that meet no directory of their name are all written,
    each over the file of the same name. *)
Lemma extractall_plain_files (top : string) (members dest : list node) :
  plain_files members dest ->
  extractall top members dest = (None, write_all members dest).
Proof.
  unfold extractall, write_all. revert dest.
  induction members as [|m ms IH]; intros dest H; cbn [fold_left]; [reflexivity |].
  inversion H as [|m' ms' Hm Hms]; subst.
  destruct m as [name d | name cs]; [| contradiction].
  assert (E : extract_member top (File name d) dest = (None, put_entry (File name d) dest)).
  { cbn [extract_member]. unfold holds_directory in Hm.
    destruct (find_entry name dest) as [[? ? | ? ?] |]; [reflexivity | | reflexivity].
    now destruct Hm. }
  cbn [and_then]. rewrite E. apply IH. now apply plain_files_put.
Qed.

Lemma write_all_names (x : string) (members dest : list node) :
  In x (entry_names (write_all members dest))
  <-> In x (entry_names dest) \/ In x (entry_names members).
Proof.
  unfold write_all. revert dest.
  induction members as [|m ms IH]; intros dest; cbn [fold_left].
  - unfold entry_names at 3. cbn. intuition.
  - rewrite IH, put_entry_names. unfold entry_names at 4. cbn [map In].
    intuition congruence.
Qed.

Lemma append_same_head (a b c : string) : a ++ b = a ++ c -> b = c.
Proof. induction a as [|x a IH]; cbn [append]; intros H; [assumption |]. injection H. auto. Qed.

(** The stem of a name has no dot, so it is its own stem whatever
    extension follows it. *)
Lemma split_dot_0_stem (filename ext : string) :
  Py.split_dot_0 (Py.split_dot_0 filename ++ String "."%char ext)
  = Py.split_dot_0 filename.
Proof.
  induction filename as [|c f IH]; cbn [Py.split_dot_0].
  - cbn. reflexivity.
  - destruct (Ascii.eqb c "."%char) eqn:E.
    + cbn. reflexivity.
    + cbn [append Py.split_dot_0]. now rewrite E, IH.
Qed.

Lemma os_rename_file (src dst name : string) (d : payload) (es : list node) (w : world) :
  w_temp w = Some es ->
  find_entry src es = Some (File name d) ->
  src <> dst ->
  ~ holds_directory dst es ->
  os_rename src dst w
  = (inr tt, set_temp (Some (put_entry (File dst d) (remove_entry src es))) w,
     [EvRename src dst]).
Proof.
  intros Ht Hf Hne Hd. unfold os_rename. rewrite run_bind_get. cbv zeta.
  rewrite Ht, Hf. apply String.eqb_neq in Hne. rewrite Hne.
  unfold holds_directory in Hd.
  destruct (find_entry dst es) as [[? ? | ? ?] |];
    [| now destruct Hd |]; rewrite run_bind_modify; reflexivity.
Qed.

Lemma os_rename_onto_directory (src dst name : string) (d : payload) (es : list node)
      (w : world) :
  w_temp w = Some es ->
  find_entry src es = Some (File name d) ->
  src <> dst ->
  holds_directory dst es ->
  exists msg, os_rename src dst w = (inl (Exn IsADirectoryError msg), w, []).
Proof.
  intros Ht Hf Hne Hd. unfold os_rename. rewrite run_bind_get. cbv zeta.
  rewrite Ht, Hf. apply String.eqb_neq in Hne. rewrite Hne.
  unfold holds_directory in Hd.
  destruct (find_entry dst es) as [[? ? | ? ?] |]; try contradiction.
  eexists. reflexivity.
Qed.

End Entries.

(** ** Archive expander and collapser *)

Lemma convert_file_run (curr_ext new_ext filename name : string) (d : payload)
      (es : list node) (w : world) :
  w_temp w = Some es ->
  find_entry (Py.split_dot_0 filename ++ curr_ext) es = Some (File name d) ->
  curr_ext <> new_ext ->
  ~ holds_directory (Py.split_dot_0 filename ++ new_ext) es ->
  convert_file curr_ext new_ext filename w
  = (inr (Py.split_dot_0 filename ++ new_ext),
     set_temp
       (Some (put_entry (File (Py.split_dot_0 filename ++ new_ext) d)
                (remove_entry (Py.split_dot_0 filename ++ curr_ext) es))) w,
     [EvRename (Py.split_dot_0 filename ++ curr_ext) (Py.split_dot_0 filename ++ new_ext)]).
Proof.
  intros Ht Hf Hne Hd. unfold convert_file. rewrite run_bind_parts.
  rewrite (os_rename_file _ _ name d es) by
    (try assumption; intros E; apply Hne; now apply append_same_head in E).
  reflexivity.
Qed.

(** X1: the two conversions of [main] compose to a round trip, unless a
    directory is in the way.  Suppose the working area holds a regular
    file named after the stem of the archive (its name up to the first
    dot) with the extension .txt.  When it holds no directory of that stem
    with the extension .csv, converting to .csv and back returns the .txt
    name, leaves that file with its content under the .txt name, leaves no
    .csv entry of that stem (a regular file that was there before is
    overwritten and gone) and does not touch the entries of other names.
    When it holds such a directory, the first conversion raises
    [IsADirectoryError] and nothing is renamed. *)
Theorem convert_file_round_trip (filename name : string) (d : payload)
        (es : list node) (w : world) :
  w_temp w = Some es ->
  find_entry (Py.split_dot_0 filename ++ ".txt") es = Some (File name d) ->
  match find_entry (Py.split_dot_0 filename ++ ".csv") es with
  | Some (Dir _ _) =>
      exists msg,
        convert_there_and_back filename w = (inl (Exn IsADirectoryError msg), w, [])
  | _ =>
      exists es',
        convert_there_and_back filename w
        = (inr (Py.split_dot_0 filename ++ ".txt"), set_temp (Some es') w,
           [EvRename (Py.split_dot_0 filename ++ ".txt") (Py.split_dot_0 filename ++ ".csv");
            EvRename (Py.split_dot_0 filename ++ ".csv") (Py.split_dot_0 filename ++ ".txt")])
        /\ find_entry (Py.split_dot_0 filename ++ ".txt") es'
           = Some (File (Py.split_dot_0 filename ++ ".txt") d)
        /\ find_entry (Py.split_dot_0 filename ++ ".csv") es' = None
        /\ (forall other,
               other <> Py.split_dot_0 filename ++ ".txt" ->
               other <> Py.split_dot_0 filename ++ ".csv" ->
               find_entry other es' = find_entry other es)
  end.
Proof.
  intros Ht Hf. set (stem := Py.split_dot_0 filename) in *.
  assert (Hd : stem ++ ".txt" <> stem ++ ".csv")
    by (intros E; apply append_same_head in E; discriminate).
  assert (Hcases : holds_directory (stem ++ ".csv") es
                   \/ ~ holds_directory (stem ++ ".csv") es).
  { unfold holds_directory.
    destruct (find_entry (stem ++ ".csv") es) as [[? ? | ? ?] |]; tauto. }
  destruct Hcases as [Hdir | Hfree].
  - destruct (os_rename_onto_directory _ _ name d es w Ht Hf Hd Hdir) as [msg Hr].
    unfold holds_directory in Hdir.
    destruct (find_entry (stem ++ ".csv") es) as [[? ? | ? ?] |]; try contradiction.
    exists msg. unfold convert_there_and_back, convert_file. fold stem.
    now rewrite run_bind_parts, run_bind_parts, Hr.
  - set (es1 := put_entry (File (stem ++ ".csv") d) (remove_entry (stem ++ ".txt") es)).
    assert (Hback : ~ holds_directory (stem ++ ".txt") es1).
    { unfold holds_directory, es1.
      rewrite find_entry_put_other by (cbn; congruence).
      now rewrite find_entry_remove_same. }
    assert (Hgoal :
              exists es',
                convert_there_and_back filename w
                = (inr (stem ++ ".txt"), set_temp (Some es') w,
                   [EvRename (stem ++ ".txt") (stem ++ ".csv");
                    EvRename (stem ++ ".csv") (stem ++ ".txt")])
                /\ find_entry (stem ++ ".txt") es' = Some (File (stem ++ ".txt") d)
                /\ find_entry (stem ++ ".csv") es' = None
                /\ (forall other,
                       other <> stem ++ ".txt" -> other <> stem ++ ".csv" ->
                       find_entry other es' = find_entry other es)).
    { exists (put_entry (File (stem ++ ".txt") d) (remove_entry (stem ++ ".csv") es1)).
      split; [| split; [| split]].
      - assert (Hs : Py.split_dot_0 (stem ++ ".csv") = stem) by apply split_dot_0_stem.
        unfold convert_there_and_back. rewrite run_bind_parts.
        rewrite (convert_file_run ".txt" ".csv" filename name d es w Ht Hf)
          by (discriminate || exact Hfree).
        cbn [outcome final trace fst snd]. fold stem. fold es1.
        rewrite (convert_file_run ".csv" ".txt" (stem ++ ".csv") (stem ++ ".csv") d es1
                   (set_temp (Some es1) w));
          rewrite ?Hs.
        + reflexivity.
        + reflexivity.
        + apply (find_entry_put_same (File (stem ++ ".csv") d)).
        + discriminate.
        + exact Hback.
      - apply (find_entry_put_same (File (stem ++ ".txt") d)).
      - rewrite find_entry_put_other by (cbn; congruence).
        apply find_entry_remove_same.
      - intros other H1 H2.
        rewrite find_entry_put_other by (cbn; congruence).
        rewrite find_entry_remove_other by congruence.
        unfold es1. rewrite find_entry_put_other by (cbn; congruence).
        apply find_entry_remove_other. congruence. }
    unfold holds_directory in Hfree.
    destruct (find_entry (stem ++ ".csv") es) as [[? ? | ? ?] |];
      [exact Hgoal | now destruct Hfree | exact Hgoal].
Qed.

Lemma convert_file_round_trip_witness :
  exists es',
    convert_there_and_back Sample.archive Fixture.unpacked
    = (inr (Py.split_dot_0 Sample.archive ++ ".txt"),
       set_temp (Some es') Fixture.unpacked,
       [EvRename (Py.split_dot_0 Sample.archive ++ ".txt")
                 (Py.split_dot_0 Sample.archive ++ ".csv");
        EvRename (Py.split_dot_0 Sample.archive ++ ".csv")
                 (Py.split_dot_0 Sample.archive ++ ".txt")])
    /\ find_entry (Py.split_dot_0 Sample.archive ++ ".txt") es'
       = Some (File (Py.split_dot_0 Sample.archive ++ ".txt") (Table [Sample.good_row]))
    /\ find_entry (Py.split_dot_0 Sample.archive ++ ".csv") es' = None
    /\ (forall other,
           other <> Py.split_dot_0 Sample.archive ++ ".txt" ->
           other <> Py.split_dot_0 Sample.archive ++ ".csv" ->
           find_entry other es'
           = find_entry other
               [File "notes.md" (Raw "keep"); File Sample.table (Table [Sample.good_row])]).
Proof.
  apply (convert_file_round_trip Sample.archive Sample.table (Table [Sample.good_row])
           [File "notes.md" (Raw "keep"); File Sample.table (Table [Sample.good_row])]
           Fixture.unpacked).
  - reflexivity.
  - reflexivity.
Defined.

Lemma find_filter_out {A} (p : A -> bool) (l : list A) :
  find p (filter (fun x => negb (p x)) l) = None.
Proof.
  induction l as [|x l IH]; cbn [filter find]; [reflexivity |].
  destruct (p x) eqn:E; cbn [negb find]; [assumption |]. now rewrite E.
Qed.

(** The extraction inside [unzip_file] touches the working area only and
    records no action of its own. *)
Lemma zip_extractall_shape (members : list node) (w : world) :
  exists r t, zip_extractall members w = (r, set_temp t w, []).
Proof.
  unfold zip_extractall. rewrite run_bind_get.
  destruct members as [|m ms].
  - exists (inr tt), (w_temp w). now destruct w.
  - cbv zeta. rewrite run_bind_modify.
    destruct (fst (extractall (path w) (m :: ms)
                     match w_temp w with Some es => es | None => [] end)) as [e |];
      eexists; eexists; reflexivity.
Qed.

Lemma zip_extractall_plain_files (members : list node) (w : world) :
  members <> [] ->
  plain_files members (match w_temp w with Some es => es | None => [] end) ->
  zip_extractall members w
  = (inr tt,
     set_temp (Some (write_all members (match w_temp w with Some es => es | None => [] end))) w,
     []).
Proof.
  intros Hne Hp. unfold zip_extractall. rewrite run_bind_get.
  destruct members as [|m ms]; [congruence |].
  cbv zeta. rewrite run_bind_modify, (extractall_plain_files _ _ _ Hp). reflexivity.
Qed.

Lemma unzip_file_run (filename stored : string) (members : list node) (w : world) :
  Py.truthy filename = true ->
  find (fun e => String.eqb (fst e) filename) (w_cwd w) = Some (stored, Zip members) ->
  members <> [] ->
  plain_files members (match w_temp w with Some es => es | None => [] end) ->
  unzip_file filename w
  = (inr tt,
     set_cwd (filter (fun e => negb (String.eqb (fst e) filename)) (w_cwd w))
       (set_temp
          (Some (write_all members (match w_temp w with Some es => es | None => [] end)))
          w),
     [EvExtract filename; EvRemoveArchive filename]).
Proof.
  intros Ht Hf Hne Hp. unfold unzip_file. rewrite Ht, run_bind_get, Hf.
  rewrite run_bind_parts, (zip_extractall_plain_files members w Hne Hp).
  cbn [outcome final trace fst snd app].
  rewrite run_bind_emit, run_bind_modify. reflexivity.
Qed.

(** X3: [unzip_file] on a sound zip archive of the current directory
    whose members are regular files, at least one, none of them named like
    a directory of the working area: it returns, performs the extraction
    and then the removal of the archive, and leaves a working area (created
    when there was none) whose entry names are those it had before
    together with those of the members; the archive is no longer in the
    current directory. *)
Theorem unzip_file_extracts (filename stored : string) (members : list node) (w : world) :
  filename <> "" ->
  find (fun e => String.eqb (fst e) filename) (w_cwd w) = Some (stored, Zip members) ->
  members <> [] ->
  plain_files members (match w_temp w with Some es => es | None => [] end) ->
  exists es',
    unzip_file filename w
    = (inr tt,
       set_cwd (filter (fun e => negb (String.eqb (fst e) filename)) (w_cwd w))
         (set_temp (Some es') w),
       [EvExtract filename; EvRemoveArchive filename])
    /\ (forall x,
           In x (entry_names es')
           <-> In x (entry_names (match w_temp w with Some es => es | None => [] end))
               \/ In x (entry_names members))
    /\ find (fun e => String.eqb (fst e) filename)
            (w_cwd (final (unzip_file filename w))) = None.
Proof.
  intros Hne Hf Hm Hp.
  assert (Ht : Py.truthy filename = true)
    by (unfold Py.truthy; apply String.eqb_neq in Hne; now rewrite Hne).
  pose proof (unzip_file_run filename stored members w Ht Hf Hm Hp) as Hrun.
  eexists. split; [exact Hrun | split].
  - intros x. apply write_all_names.
  - rewrite Hrun. cbn [final fst snd w_cwd set_cwd].
    apply (find_filter_out (fun e : string * remote_data => String.eqb (fst e) filename)).
Qed.

Lemma unzip_file_extracts_witness :
  exists es',
    unzip_file Sample.archive Fixture.fetched
    = (inr tt,
       set_cwd (filter (fun e => negb (String.eqb (fst e) Sample.archive))
                  (w_cwd Fixture.fetched))
         (set_temp (Some es') Fixture.fetched),
       [EvExtract Sample.archive; EvRemoveArchive Sample.archive])
    /\ (forall x,
           In x (entry_names es')
           <-> In x (entry_names
                       (match w_temp Fixture.fetched with Some es => es | None => [] end))
               \/ In x (entry_names [File Sample.table (Table [Sample.good_row])]))
    /\ find (fun e => String.eqb (fst e) Sample.archive)
            (w_cwd (final (unzip_file Sample.archive Fixture.fetched))) = None.
Proof.
  apply (unzip_file_extracts Sample.archive Sample.archive
           [File Sample.table (Table [Sample.good_row])] Fixture.fetched).
  - discriminate.
  - reflexivity.
  - discriminate.
  - repeat constructor. cbn. tauto.
Defined.

(** X4: [unzip_file] does nothing and returns when the name is empty.
    Whenever it raises, the archive has not been removed: the current
    directory, the ledger and the destination are as they were and no
    action is recorded.  The working area need not be as it was: on an
    archive one of whose members fails its CRC check, [unzip_file] raises
    [BadZipFile] after the members before it, taken here to be regular
    files that meet no directory of their name, and the bytes read from
    the damaged one have been written. *)
Theorem unzip_file_failure_keeps_archive :
  (forall w : world, unzip_file "" w = (inr tt, w, []))
  /\ (forall (filename : string) (w : world) (e : exn),
         outcome (unzip_file filename w) = inl e ->
         trace (unzip_file filename w) = []
         /\ w_cwd (final (unzip_file filename w)) = w_cwd w
         /\ w_log (final (unzip_file filename w)) = w_log w
         /\ w_ftp_stored (final (unzip_file filename w)) = w_ftp_stored w)
  /\ (forall (filename stored damaged : string) (data : payload)
             (before after : list node) (w : world),
         filename <> "" ->
         find (fun e => String.eqb (fst e) filename) (w_cwd w)
         = Some (stored, ZipDamaged before damaged data after) ->
         plain_files (app before [File damaged data])
           (match w_temp w with Some es => es | None => [] end) ->
         exists msg,
           unzip_file filename w
           = (inl (Exn BadZipFile msg),
              set_temp
                (Some (write_all (app before [File damaged data])
                         (match w_temp w with Some es => es | None => [] end))) w,
              [])).
Proof.
  split; [reflexivity | split].
  - intros filename w e. unfold unzip_file.
    destruct (Py.truthy filename); [| discriminate].
    rewrite run_bind_get.
    destruct (find (fun e0 => String.eqb (fst e0) filename) (w_cwd w))
      as [[stored [members | before damaged data after | bytes | why]] |];
      try (intros _; repeat split; reflexivity).
    + rewrite run_bind_parts.
      destruct (zip_extractall_shape members w) as [r [t ->]].
      cbn [outcome final trace fst snd]. destruct r as [e' | []].
      * intros _. repeat split; reflexivity.
      * rewrite run_bind_emit, run_bind_modify. discriminate.
    + rewrite run_bind_parts.
      destruct (zip_extractall_shape (app before [File damaged data]) w) as [r [t ->]].
      cbn [outcome final trace fst snd]. destruct r as [e' | []];
        intros _; repeat split; reflexivity.
  - intros filename stored damaged data before after w Hne Hf Hp.
    assert (Ht : Py.truthy filename = true)
      by (unfold Py.truthy; apply String.eqb_neq in Hne; now rewrite Hne).
    unfold unzip_file. rewrite Ht, run_bind_get, Hf.
    rewrite run_bind_parts, (zip_extractall_plain_files _ w) by
      (assumption || (destruct before; discriminate)).
    eexists. reflexivity.
Qed.

(** ** Teardown of the working area *)

Lemma bind_ext {A B} (m : M A) (k1 k2 : A -> M B) (w : world) :
  (forall a w', k1 a w' = k2 a w') -> bind m k1 w = bind m k2 w.
Proof.
  intros H. unfold bind. destruct (m w) as [[[e | a] w1] t1]; [reflexivity |].
  now rewrite H.
Qed.

Lemma for_each_app {A} (l1 l2 : list A) (body : A -> M unit) (w : world) :
  for_each (app l1 l2) body w = (for_each l1 body ;; for_each l2 body) w.
Proof.
  revert w. induction l1 as [|x l1 IH]; intros w; cbn [app for_each].
  - now rewrite run_bind_ret.
  - rewrite run_bind_assoc. apply bind_ext. intros _ w'. apply IH.
Qed.

Lemma delete_entry_run (n : node) (w : world) :
  deletable w n = true ->
  (w' <- get ;;
   match find (fun r => String.eqb (fst r) (node_name n)) (w_undeletable w') with
   | Some (_, remains) =>
       modify (fun w' => set_temp (option_map (leave_behind n remains) (w_temp w')) w') ;;
       raise NameError "name 'filepath' is not defined"
   | None =>
       modify (fun w' =>
                 set_temp (option_map (remove_entry (node_name n)) (w_temp w')) w') ;;
       emit (EvDelete (node_name n))
   end) w
  = (inr tt, set_temp (option_map (remove_entry (node_name n)) (w_temp w)) w,
     [EvDelete (node_name n)]).
Proof.
  unfold deletable. intros H. rewrite run_bind_get.
  destruct (find (fun r => String.eqb (fst r) (node_name n)) (w_undeletable w));
    [discriminate |].
  rewrite run_bind_modify. reflexivity.
Qed.

Lemma delete_entry_fails (n : node) (w : world) :
  deletable w n = false ->
  exists remains,
    (w' <- get ;;
     match find (fun r => String.eqb (fst r) (node_name n)) (w_undeletable w') with
     | Some (_, remains) =>
         modify (fun w' => set_temp (option_map (leave_behind n remains) (w_temp w')) w') ;;
         raise NameError "name 'filepath' is not defined"
     | None =>
         modify (fun w' =>
                   set_temp (option_map (remove_entry (node_name n)) (w_temp w')) w') ;;
         emit (EvDelete (node_name n))
     end) w
    = (inl (Exn NameError "name 'filepath' is not defined"),
       set_temp (option_map (leave_behind n remains) (w_temp w)) w, []).
Proof.
  unfold deletable. intros H. rewrite run_bind_get.
  destruct (find (fun r => String.eqb (fst r) (node_name n)) (w_undeletable w))
    as [[x remains] |]; [| discriminate].
  exists remains. rewrite run_bind_modify. reflexivity.
Qed.

Lemma delete_loop (l : list node) (w : world) :
  forallb (deletable w) l = true ->
  for_each l
    (fun n =>
       w' <- get ;;
       match find (fun r => String.eqb (fst r) (node_name n)) (w_undeletable w') with
       | Some (_, remains) =>
           modify (fun w' => set_temp (option_map (leave_behind n remains) (w_temp w')) w') ;;
           raise NameError "name 'filepath' is not defined"
       | None =>
           modify (fun w' =>
                     set_temp (option_map (remove_entry (node_name n)) (w_temp w')) w') ;;
           emit (EvDelete (node_name n))
       end) w
  = (inr tt,
     set_temp
       (option_map (fun es => fold_left (fun acc n => remove_entry (node_name n) acc) l es)
                   (w_temp w)) w,
     map (fun n => EvDelete (node_name n)) l).
Proof.
  revert w. induction l as [|n l IH]; intros w H; cbn [for_each fold_left map].
  - destruct w as [a b c d e [t |] g h i j k]; reflexivity.
  - cbn [forallb] in H. apply andb_true_iff in H as [Hn Hl].
    rewrite run_bind_parts, (delete_entry_run n w Hn).
    cbn [outcome final trace fst snd]. rewrite IH by exact Hl.
    cbn [outcome final trace fst snd app].
    destruct (w_temp w) as [es |]; reflexivity.
Qed.

(** The loop stops at the first entry whose deletion fails. *)
Lemma delete_loop_stops (pre post : list node) (n : node) (w : world) :
  forallb (deletable w) pre = true ->
  deletable w n = false ->
  exists remains,
    for_each (app pre (n :: post))
      (fun n =>
         w' <- get ;;
         match find (fun r => String.eqb (fst r) (node_name n)) (w_undeletable w') with
         | Some (_, remains) =>
             modify (fun w' =>
                       set_temp (option_map (leave_behind n remains) (w_temp w')) w') ;;
             raise NameError "name 'filepath' is not defined"
         | None =>
             modify (fun w' =>
                       set_temp (option_map (remove_entry (node_name n)) (w_temp w')) w') ;;
             emit (EvDelete (node_name n))
         end) w
    = (inl (Exn NameError "name 'filepath' is not defined"),
       set_temp
         (option_map
            (fun es =>
               leave_behind n remains
                 (fold_left (fun acc n => remove_entry (node_name n) acc) pre es))
            (w_temp w)) w,
       map (fun n => EvDelete (node_name n)) pre).
Proof.
  intros Hpre Hn.
  destruct (delete_entry_fails n
              (set_temp
                 (option_map
                    (fun es => fold_left (fun acc n => remove_entry (node_name n) acc) pre es)
                    (w_temp w)) w) Hn) as [remains Hf].
  exists remains.
  rewrite for_each_app, run_bind_parts, (delete_loop pre w Hpre).
  cbn [outcome final trace fst snd for_each].
  rewrite run_bind_parts, Hf. cbn [outcome final trace fst snd].
  rewrite app_nil_r. destruct (w_temp w) as [es |]; reflexivity.
Qed.

Lemma remove_all_named (l es : list node) :
  (forall n, In n es -> In (node_name n) (entry_names l)) ->
  fold_left (fun acc n => remove_entry (node_name n) acc) l es = [].
Proof.
  revert es. induction l as [|x l IH]; intros es H; cbn [fold_left].
  - destruct es as [|n es]; [reflexivity |]. destruct (H n). now left.
  - apply IH. intros n Hn. unfold remove_entry in Hn.
    apply filter_In in Hn as [Hn Hx]. apply negb_true_iff, String.eqb_neq in Hx.
    destruct (H n Hn) as [E | Hin]; [congruence | assumption].
Qed.

Lemma remove_entry_names (x y : string) (es : list node) :
  In x (entry_names (remove_entry y es)) <-> x <> y /\ In x (entry_names es).
Proof.
  unfold entry_names, remove_entry. rewrite !in_map_iff. split.
  - intros [n [Hn Hin]]. apply filter_In in Hin as [Hin Hy].
    apply negb_true_iff, String.eqb_neq in Hy.
    split; [congruence | now exists n].
  - intros [Hne [n [Hn Hin]]]. exists n. split; [assumption |].
    apply filter_In. split; [assumption |].
    apply negb_true_iff, String.eqb_neq. congruence.
Qed.

Lemma removals_names (x : string) (l es : list node) :
  In x (entry_names (fold_left (fun acc y => remove_entry (node_name y) acc) l es))
  <-> In x (entry_names es) /\ forall y, In y l -> node_name y <> x.
Proof.
  revert es. induction l as [|y l IH]; intros es; cbn [fold_left].
  - split; [intros H; split; [assumption | intros y []] | tauto].
  - rewrite IH, remove_entry_names. split.
    + intros [[Hne Hin] Hl]. split; [assumption |].
      intros z [<- | Hz]; [congruence | now apply Hl].
    + intros [Hin Hl]. split; [split |].
      * intros E. apply (Hl y); [now left | congruence].
      * assumption.
      * intros z Hz. apply Hl. now right.
Qed.

Lemma removed_names_are_gone (x : node) (l es : list node) :
  In x l ->
  ~ In (node_name x)
       (entry_names (fold_left (fun acc y => remove_entry (node_name y) acc) l es)).
Proof.
  intros Hx H. apply removals_names in H as [_ H]. now apply (H x).
Qed.

Lemma name_survives_removals (l es : list node) (x : string) :
  In x (entry_names es) ->
  (forall y, In y l -> node_name y <> x) ->
  In x (entry_names (fold_left (fun acc y => remove_entry (node_name y) acc) l es)).
Proof.
  revert es. induction l as [|y l IH]; intros es Hin Hl; cbn [fold_left]; [assumption |].
  apply IH.
  - unfold entry_names in *. apply in_map_iff in Hin as [n [Hn Hin]].
    apply in_map_iff. exists n. split; [assumption |].
    unfold remove_entry. apply filter_In. split; [assumption |].
    apply negb_true_iff, String.eqb_neq. intros E. apply (Hl y); [now left | congruence].
  - intros z Hz. apply Hl. now right.
Qed.

Lemma leave_behind_names (n : node) (remains es : list node) :
  entry_names (leave_behind n remains es) = entry_names es.
Proof.
  unfold entry_names. destruct n as [name d | name cs]; cbn [leave_behind]; [reflexivity |].
  rewrite map_map. apply map_ext_in. intros e _.
  destruct (String.eqb (node_name e) name) eqn:E; [| reflexivity].
  apply String.eqb_eq in E. now rewrite E.
Qed.

Lemma deletable_other_name (w : world) (x n : node) :
  deletable w x = true -> deletable w n = false -> node_name x <> node_name n.
Proof. unfold deletable. intros Hx Hn E. rewrite E in Hx. congruence. Qed.

(** X5: [remove_temp_files] ignores its [filename] argument.  On an
    existing working area all of whose entries can be deleted it returns
    after deleting every entry, one deletion per entry in listing order,
    and leaves the directory empty, so that the [os.rmdir] that follows it
    in [main] succeeds and the directory is gone.  At the first entry
    whose deletion fails it raises [NameError], because the handler of the
    failure names a variable that does not exist: the entries before that
    one are gone, an entry of that name and the working area remain, the
    entries after it are not looked at and the [os.rmdir] of [main] is not
    reached.  On a missing working area it raises [FileNotFoundError]. *)
Theorem remove_temp_files_stops_at_first_failure (filename : string) (w : world) :
  match w_temp w with
  | Some es =>
      (forallb (deletable w) es = true ->
       remove_temp_files filename w
       = (inr tt, set_temp (Some []) w, map (fun n => EvDelete (node_name n)) es)
       /\ (remove_temp_files filename ;; os_rmdir) w
          = (inr tt, set_temp None w,
             app (map (fun n => EvDelete (node_name n)) es) [EvRmdir]))
      /\ (forall (pre post : list node) (n : node),
             es = app pre (n :: post) ->
             forallb (deletable w) pre = true ->
             deletable w n = false ->
             exists remaining,
               remove_temp_files filename w
               = (inl (Exn NameError "name 'filepath' is not defined"),
                  set_temp (Some remaining) w,
                  map (fun n => EvDelete (node_name n)) pre)
               /\ In (node_name n) (entry_names remaining)
               /\ (forall x, In x pre -> ~ In (node_name x) (entry_names remaining))
               /\ (remove_temp_files filename ;; os_rmdir) w
                  = remove_temp_files filename w)
  | None =>
      exists msg,
        remove_temp_files filename w = (inl (Exn FileNotFoundError msg), w, [])
  end.
Proof.
  destruct (w_temp w) as [es |] eqn:Ht.
  - split.
    + intros Hall.
      assert (Hrun : remove_temp_files filename w
                     = (inr tt, set_temp (Some []) w,
                        map (fun n => EvDelete (node_name n)) es)).
      { unfold remove_temp_files. rewrite run_bind_get, Ht, delete_loop, Ht by assumption.
        cbn [option_map]. rewrite remove_all_named; [reflexivity |].
        intros n Hn. unfold entry_names. now apply in_map. }
      split; [exact Hrun |].
      rewrite run_bind_parts, Hrun. reflexivity.
    + intros pre post n -> Hpre Hn.
      destruct (delete_loop_stops pre post n w Hpre Hn) as [remains Hloop].
      assert (Hrun : remove_temp_files filename w
                     = (inl (Exn NameError "name 'filepath' is not defined"),
                        set_temp
                          (Some (leave_behind n remains
                                   (fold_left (fun acc x => remove_entry (node_name x) acc)
                                      pre (app pre (n :: post))))) w,
                        map (fun n => EvDelete (node_name n)) pre)).
      { unfold remove_temp_files. rewrite run_bind_get, Ht, Hloop, Ht. reflexivity. }
      eexists. split; [exact Hrun | split; [| split]].
      * rewrite leave_behind_names. apply name_survives_removals.
        -- unfold entry_names. rewrite map_app. apply in_or_app. right. now left.
        -- intros x Hx. apply (deletable_other_name w); [| assumption].
           rewrite forallb_forall in Hpre. now apply Hpre.
      * intros x Hx. rewrite leave_behind_names.
        now apply removed_names_are_gone.
      * now rewrite run_bind_parts, Hrun.
  - unfold remove_temp_files. rewrite run_bind_get, Ht. eexists. reflexivity.
Qed.

(** ** Ledger: what is recorded is seen, and stays seen *)

(** X6: recording never makes a seen name unseen.  A name for which
    [check_duplicate] answers true is still answered true after any
    [log_file], whatever name is recorded, whichever way the lines of the
    ledger are terminated and also when its last line has no terminator. *)
Theorem seen_stays_seen (w : world) (f g : string) :
  outcome (check_duplicate g w) = inr true ->
  check_duplicate g (final (log_file f w)) = (inr true, final (log_file f w), []).
Proof.
  intros H. unfold check_duplicate in H. rewrite run_bind_get in H.
  destruct (w_log w) as [content |] eqn:El; [| discriminate].
  cbn in H. injection H as H.
  rewrite log_file_run, El. cbn [final fst snd].
  rewrite (check_duplicate_run g (content ++ log_line f)) by reflexivity.
  replace (scan_log g (content ++ log_line f)) with true; [reflexivity |].
  symmetry. apply scan_log_text. apply seen_after_growth. now apply scan_log_text.
Qed.

Lemma seen_stays_seen_witness :
  check_duplicate "vw_can_20201207" (final (log_file Sample.older Sample.seen))
  = (inr true, final (log_file Sample.older Sample.seen), []).
Proof.
  apply (seen_stays_seen Sample.seen Sample.older "vw_can_20201207").
  reflexivity.
Defined.

(** X7: what [log_file] records is seen.  After [log_file(f)], also on a
    ledger that did not exist, [check_duplicate] answers true for every
    name contained in the stored form of [f], which is [f] stripped of the
    characters '.', 't', 'x' at both ends, followed by ".zip"; this holds
    provided that form holds no line break, neither a carriage return nor
    a line feed, whichever way the lines of the ledger are terminated. *)
Theorem recorded_name_is_seen (w : world) (f g : string) :
  line_break_free (Py.strip ".txt" f) ->
  is_substring g (Py.strip ".txt" f ++ ".zip") ->
  check_duplicate g (final (log_file f w)) = (inr true, final (log_file f w), []).
Proof.
  intros Hn [pre [post Hg]]. rewrite log_file_run. cbn [final fst snd].
  set (old := match w_log w with Some c => c | None => "" end).
  rewrite (check_duplicate_run g (old ++ log_line f)) by reflexivity.
  replace (scan_log g (old ++ log_line f)) with true; [reflexivity |].
  symmetry. apply scan_log_text.
  unfold log_line. rewrite <- (append_assoc (Py.strip ".txt" f) ".zip" Py.nl).
  destruct (appended_line old (Py.strip ".txt" f ++ ".zip")) as [a Ha].
  { destruct (Py.strip ".txt" f); discriminate. }
  { apply line_break_free_app; [assumption | split; reflexivity]. }
  eexists. split; [exact Ha |].
  exists (a ++ pre), post. rewrite Hg. now rewrite !append_assoc.
Qed.

Lemma recorded_name_is_seen_witness :
  check_duplicate Sample.archive (final (log_file Sample.archive Sample.no_ledger))
  = (inr true, final (log_file Sample.archive Sample.no_ledger), []).
Proof.
  apply (recorded_name_is_seen Sample.no_ledger Sample.archive Sample.archive).
  - split; reflexivity.
  - exists "", ".zip". reflexivity.
Defined.

(** ** Runs of [main] *)

Section SourceUntouched.

Context {A B : Type}.

Lemma ks_ret (a : A) : keeps_source (ret a).
Proof. intros w. split; reflexivity. Qed.

Lemma ks_raise (c : exn_class) (msg : string) : keeps_source (@raise A c msg).
Proof. intros w. split; reflexivity. Qed.

Lemma ks_lift (r : result A) : keeps_source (lift r).
Proof. intros w. split; reflexivity. Qed.

Lemma ks_get : keeps_source get.
Proof. intros w. split; reflexivity. Qed.

Lemma ks_emit (e : event) : keeps_source (emit e).
Proof. intros w. split; reflexivity. Qed.

Lemma ks_modify (f : world -> world) :
  (forall w, w_sftp (f w) = w_sftp w /\ w_vw_out (f w) = w_vw_out w) ->
  keeps_source (modify f).
Proof. intros H w. apply H. Qed.

Lemma ks_bind (m : M A) (k : A -> M B) :
  keeps_source m -> (forall a, keeps_source (k a)) -> keeps_source (bind m k).
Proof.
  intros Hm Hk w. rewrite run_bind_parts.
  destruct (Hm w) as [H1 H2]. destruct (outcome (m w)) as [e | a].
  - split; assumption.
  - destruct (Hk a (final (m w))) as [H3 H4]. cbn. split; congruence.
Qed.

Lemma ks_try (m : M A) : keeps_source m -> keeps_source (try_ m).
Proof.
  intros Hm w. destruct (Hm w) as [H1 H2]. unfold try_, final in *.
  destruct (m w) as [[r w1] t1]. split; assumption.
Qed.

End SourceUntouched.

Lemma ks_for_each {A} (l : list A) (body : A -> M unit) :
  (forall x, keeps_source (body x)) -> keeps_source (for_each l body).
Proof.
  intros H. induction l as [|x l IH]; cbn [for_each].
  - apply ks_ret.
  - apply ks_bind; [apply H | intros _; exact IH].
Qed.

Ltac keeps_source_steps :=
  repeat first
    [ apply ks_ret
    | apply ks_raise
    | apply ks_lift
    | apply ks_get
    | apply ks_emit
    | apply ks_modify; intros ?; split; reflexivity
    | apply ks_for_each; intros ?
    | apply ks_try
    | apply ks_bind; [| intros ?]
    | match goal with
      | |- keeps_source (match ?x with _ => _ end) => destruct x
      end
    | progress cbv zeta ].

Section MainRuns.

Lemma main_keeps_source : keeps_source main.
Proof.
  unfold main, pipeline, handler, messages_append, slack_send_message,
    download_sftp, check_duplicate, sftp_get, log_file, unzip_file,
    convert_file, os_rename, change_pictures, ftp_upload, ftp_storbinary,
    remove_temp_files, os_rmdir.
  keeps_source_steps.
Qed.

(** A run without a download leaves the ledger as it is. *)
Lemma main_no_download_log (w : world) :
  (forall f, ~ In (EvDownload f) (trace (main w))) ->
  w_log (final (main w)) = w_log w.
Proof.
  rewrite main_run. cbv zeta.
  set (w0 := set_messages (app (w_messages w) ["An error has occurred:"]) w).
  destruct (download_sftp_cases w0)
    as [[e He] | [[e [f' [ct [_ [_ [_ [_ He]]]]]]]
                 | [f' [ct [rf [Hc [Hs [Hl [Hn [_ Hd]]]]]]]]]].
  - rewrite (pipeline_download_failed _ _ _ _ He). cbn [outcome final trace fst snd].
    intros _. destruct (handler_run e w0) as [m Hm]. rewrite Hm. reflexivity.
  - rewrite (pipeline_download_failed _ _ _ _ He). cbn [outcome final trace fst snd].
    intros _.
    match goal with
    | |- context [handler e ?w1] => destruct (handler_run e w1) as [m Hm]; rewrite Hm
    end.
    reflexivity.
  - destruct (pipeline_download_done _ _ _ _ Hd) as [post [Ht [Hp Hlog]]].
    intros H. exfalso. apply (H f').
    destruct (outcome (pipeline w0)) as [e | []]; cbn [trace snd]; rewrite Ht.
    + now left.
    + now left.
Qed.

End MainRuns.

Section Frames.

Context {X A B : Type} (component : world -> X) (P : event -> Prop).

Lemma keeps_ret (a : A) : keeps component (ret a).
Proof. intros w. reflexivity. Qed.

Lemma keeps_raise (c : exn_class) (msg : string) : keeps component (@raise A c msg).
Proof. intros w. reflexivity. Qed.

Lemma keeps_lift (r : result A) : keeps component (lift r).
Proof. intros w. reflexivity. Qed.

Lemma keeps_get : keeps component get.
Proof. intros w. reflexivity. Qed.

Lemma keeps_emit (e : event) : keeps component (emit e).
Proof. intros w. reflexivity. Qed.

Lemma keeps_modify (f : world -> world) :
  (forall w, component (f w) = component w) -> keeps component (modify f).
Proof. intros H w. apply H. Qed.

Lemma keeps_bind (m : M A) (k : A -> M B) :
  keeps component m -> (forall a, keeps component (k a)) -> keeps component (bind m k).
Proof.
  intros Hm Hk w. rewrite run_bind_parts.
  pose proof (Hm w) as H1. destruct (outcome (m w)) as [e | a].
  - exact H1.
  - pose proof (Hk a (final (m w))) as H2. cbn. congruence.
Qed.

Lemma only_ret (a : A) : emits_only P (ret a).
Proof. intros w. constructor. Qed.

Lemma only_raise (c : exn_class) (msg : string) : emits_only P (@raise A c msg).
Proof. intros w. constructor. Qed.

Lemma only_lift (r : result A) : emits_only P (lift r).
Proof. intros w. constructor. Qed.

Lemma only_get : emits_only P get.
Proof. intros w. constructor. Qed.

Lemma only_modify (f : world -> world) : emits_only P (modify f).
Proof. intros w. constructor. Qed.

Lemma only_emit (e : event) : P e -> emits_only P (emit e).
Proof. intros H w. repeat constructor. exact H. Qed.

Lemma only_bind (m : M A) (k : A -> M B) :
  emits_only P m -> (forall a, emits_only P (k a)) -> emits_only P (bind m k).
Proof.
  intros Hm Hk w. rewrite run_bind_parts.
  pose proof (Hm w) as H1. destruct (outcome (m w)) as [e | a].
  - exact H1.
  - cbn. apply Forall_app. split; [exact H1 | apply Hk].
Qed.

End Frames.

Lemma keeps_for_each {X A} (component : world -> X) (l : list A) (body : A -> M unit) :
  (forall x, keeps component (body x)) -> keeps component (for_each l body).
Proof.
  intros H. induction l as [|x l IH]; cbn [for_each].
  - apply keeps_ret.
  - apply keeps_bind; [apply H | intros _; exact IH].
Qed.

Lemma only_for_each {A} (P : event -> Prop) (l : list A) (body : A -> M unit) :
  (forall x, emits_only P (body x)) -> emits_only P (for_each l body).
Proof.
  intros H. induction l as [|x l IH]; cbn [for_each].
  - apply only_ret.
  - apply only_bind; [apply H | intros _; exact IH].
Qed.

Ltac keeps_steps :=
  repeat first
    [ apply keeps_ret
    | apply keeps_raise
    | apply keeps_lift
    | apply keeps_get
    | apply keeps_emit
    | apply keeps_modify; intros ?; reflexivity
    | apply keeps_for_each; intros ?
    | apply keeps_bind; [| intros ?]
    | match goal with
      | |- keeps _ (match ?x with _ => _ end) => destruct x
      end
    | progress cbv zeta ].

Ltac only_steps :=
  repeat first
    [ apply only_ret
    | apply only_raise
    | apply only_lift
    | apply only_get
    | apply only_modify
    | apply only_emit; exact I
    | apply only_for_each; intros ?
    | apply only_bind; [| intros ?]
    | match goal with
      | |- emits_only _ (match ?x with _ => _ end) => destruct x
      end
    | progress cbv zeta ].

Ltac unfold_pipeline :=
  unfold pipeline, download_sftp, check_duplicate, sftp_get, log_file, unzip_file,
    convert_file, os_rename, change_pictures, ftp_upload, ftp_storbinary,
    remove_temp_files, os_rmdir.

Section PipelineFrames.

Lemma pipeline_keeps_messages : keeps w_messages pipeline.
Proof. unfold_pipeline. keeps_steps. Qed.

Lemma pipeline_keeps_getcwd : keeps w_getcwd pipeline.
Proof. unfold_pipeline. keeps_steps. Qed.

Lemma pipeline_never_notifies : emits_only not_slack pipeline.
Proof. unfold_pipeline. only_steps. Qed.

Lemma download_in_trace_dec (t : list event) :
  (exists f, In (EvDownload f) t) \/ (forall f, ~ In (EvDownload f) t).
Proof.
  induction t as [|e t [[f Hf] | Hn]].
  - right. intros f [].
  - left. exists f. now right.
  - destruct e; try (right; intros f [H | H]; [discriminate | now apply (Hn f)]).
    left. exists filename. now left.
Qed.

End PipelineFrames.

(** X8: the ledger only grows.  A run of [main] on a missing ledger
    leaves it missing; on an existing ledger it keeps the former content
    as a prefix and adds either nothing or the line of a file the run
    downloaded, and every name [check_duplicate] answered true for before
    the run is answered true after it, whichever way the lines of the
    ledger are terminated. *)
Theorem ledger_only_grows (w : world) :
  match w_log w with
  | None => w_log (final (main w)) = None
  | Some content =>
      exists suffix,
        w_log (final (main w)) = Some (content ++ suffix)
        /\ (suffix = ""
            \/ exists f, suffix = log_line f /\ In (EvDownload f) (trace (main w)))
        /\ forall g, scan_log g content = true -> scan_log g (content ++ suffix) = true
  end.
Proof.
  destruct (download_in_trace_dec (trace (main w))) as [[f Hf] | Hn].
  - destruct (main_download_facts w f Hf) as [_ [_ [content [post [Hl [_ [_ [_ Hl']]]]]]]].
    rewrite Hl. exists (log_line f). split; [assumption | split].
    + right. now exists f.
    + intros g Hg. apply scan_log_text. apply seen_after_growth.
      now apply scan_log_text.
  - rewrite (main_no_download_log w Hn).
    destruct (w_log w) as [content |]; [| reflexivity].
    exists "". rewrite append_empty_r. auto.
Qed.

(** X9: a file is fetched at most once.  When a run of [main] has
    downloaded a file whose name ends with ".zip" and holds no line break
    (neither a carriage return nor a line feed), whether or not the later
    steps of that run succeeded, the next run
    against the same source selects the same file, finds it in the ledger,
    raises [DuplicateFileError] and does nothing but append its two
    messages and notify. *)
Theorem second_run_is_duplicate (w : world) (f : string) :
  In (EvDownload f) (trace (main w)) ->
  Py.endswith ".zip" f = true ->
  line_break_free f ->
  main (final (main w))
  = (inr tt,
     set_messages
       (app (w_messages (final (main w))) [header; "File has already been logged."])
       (final (main w)),
     [EvSlack channels
        (app (w_messages (final (main w))) [header; "File has already been logged."])]).
Proof.
  intros Hd Hz Hn.
  destruct (main_download_facts w f Hd) as [Hc [Hs [content [post [Hl [_ [_ [_ Hl']]]]]]]].
  destruct (main_keeps_source w) as [Hc' Hv'].
  set (w' := final (main w)) in *.
  assert (Hs' : select_newest (sftp_listdir w') = inr f)
    by (unfold sftp_listdir; rewrite Hv'; exact Hs).
  assert (Hseen : scan_log f (content ++ log_line f) = true).
  { apply scan_log_text. unfold log_line.
    destruct (stored_line_is_there content f Hn) as [a Ha].
    eexists. split; [exact Ha |].
    rewrite (strip_selected_zip _ _ Hs Hz).
    exists a, ".zip". reflexivity. }
  rewrite main_run. cbv zeta.
  set (w0 := set_messages (app (w_messages w') ["An error has occurred:"]) w').
  assert (Hdup : download_sftp w0
                 = (inl (Exn DuplicateFileError "File has already been logged."), w0, [])).
  { apply (download_sftp_duplicate w0 f (content ++ log_line f)).
    - cbn. congruence.
    - exact Hs'.
    - exact Hl'.
    - exact Hseen. }
  rewrite (pipeline_download_failed w0 w0 _ [] Hdup).
  cbn. rewrite <- app_assoc. reflexivity.
Qed.

Lemma second_run_is_duplicate_witness :
  main (final (main (Sample.sink_down [Sample.good_row])))
  = (inr tt,
     set_messages
       (app (w_messages (final (main (Sample.sink_down [Sample.good_row]))))
            [header; "File has already been logged."])
       (final (main (Sample.sink_down [Sample.good_row]))),
     [EvSlack channels
        (app (w_messages (final (main (Sample.sink_down [Sample.good_row]))))
             [header; "File has already been logged."])]).
Proof.
  apply (second_run_is_duplicate (Sample.sink_down [Sample.good_row]) Sample.archive).
  - vm_compute. left. reflexivity.
  - reflexivity.
  - split; reflexivity.
Defined.

(** X10: one notification at most, and it comes last.  The header
    message is appended to [messages] at the start of every run, successful
    ones included, and no step of the pipeline changes that list or
    notifies.  When no step of the pipeline raises, the run sends no
    notification and ends with the working area removed.  When a step
    raises, the run sends exactly one notification, as its last action,
    carrying the whole list: what it held before, the header and one
    message for the exception, which is the text of the exception for the
    three kinds [main] names and that text after "Unknown error: " for
    every other kind. *)
Theorem main_notifies_once_and_last (w : world) :
  exists t,
    Forall not_slack t
    /\ match outcome (pipeline (set_messages (app (w_messages w) [header]) w)) with
       | inr _ =>
           trace (main w) = t
           /\ w_messages (final (main w)) = app (w_messages w) [header]
           /\ w_temp (final (main w)) = None
       | inl e =>
           let m := match exn_cls e with
                    | FTPConnectionError | KeyError | DuplicateFileError => str_exn e
                    | _ => "Unknown error: " ++ str_exn e
                    end in
           trace (main w) = app t [EvSlack channels (app (w_messages w) [header; m])]
           /\ w_messages (final (main w)) = app (w_messages w) [header; m]
       end.
Proof.
  rewrite main_run. cbv zeta. unfold header.
  set (w0 := set_messages (app (w_messages w) ["An error has occurred:"]) w).
  pose proof (pipeline_never_notifies w0) as Hq.
  pose proof (pipeline_keeps_messages w0) as Hm.
  pose proof (pipeline_ends_clean w0) as Hc.
  exists (trace (pipeline w0)). split; [assumption |].
  destruct (outcome (pipeline w0)) as [e | []]; cbn [outcome final trace fst snd].
  - assert (Hh : w_messages (final (handler e (final (pipeline w0))))
                 = app (w_messages w)
                     ["An error has occurred:";
                      match exn_cls e with
                      | FTPConnectionError | KeyError | DuplicateFileError => str_exn e
                      | _ => "Unknown error: " ++ str_exn e
                      end]).
    { unfold handler, messages_append.
      destruct (exn_cls e); unfold modify;
        cbn [final fst snd w_messages set_messages]; rewrite Hm;
        unfold w0; cbn [w_messages set_messages]; now rewrite <- app_assoc. }
    rewrite Hh. split; reflexivity.
  - split; [reflexivity | split; [exact Hm | now apply Hc]].
Qed.

(** X11: a source whose session does not open fails the run before
    anything else is looked at, whatever the listing and the ledger are,
    and the world is unchanged but for the messages.  A rejected
    authentication and a host that cannot be found reach the notification
    as the message of the [FTPConnectionError], without the "Unknown
    error" prefix; any other failure of the session, a refused connection
    for one, is not converted and is reported as an unknown error. *)
Theorem source_failure_is_reported (w : world) :
  match w_sftp w with
  | ConnOk => True
  | AuthRejected why =>
      main w
      = (inr tt,
         set_messages
           (app (w_messages w)
                [header; "Unable to authenticate connection to sftp: " ++ why]) w,
         [EvSlack channels
            (app (w_messages w)
                 [header; "Unable to authenticate connection to sftp: " ++ why])])
  | Unreachable why =>
      main w
      = (inr tt,
         set_messages
           (app (w_messages w)
                [header; "Unable to establish connection to host : " ++ why]) w,
         [EvSlack channels
            (app (w_messages w)
                 [header; "Unable to establish connection to host : " ++ why])])
  | Failed why =>
      main w
      = (inr tt,
         set_messages (app (w_messages w) [header; "Unknown error: " ++ why]) w,
         [EvSlack channels (app (w_messages w) [header; "Unknown error: " ++ why])])
  end.
Proof.
  destruct (w_sftp w) as [| why | why | why] eqn:Es; [exact I | | |];
    rewrite main_run; cbv zeta;
    set (w0 := set_messages (app (w_messages w) ["An error has occurred:"]) w).
  - rewrite (pipeline_download_failed w0 w0
               (Exn FTPConnectionError ("Unable to authenticate connection to sftp: " ++ why))
               []).
    + cbn. rewrite <- app_assoc. reflexivity.
    + unfold download_sftp. rewrite run_bind_get.
      change (w_sftp w0) with (w_sftp w). now rewrite Es.
  - rewrite (pipeline_download_failed w0 w0
               (Exn FTPConnectionError ("Unable to establish connection to host : " ++ why))
               []).
    + cbn. rewrite <- app_assoc. reflexivity.
    + unfold download_sftp. rewrite run_bind_get.
      change (w_sftp w0) with (w_sftp w). now rewrite Es.
  - rewrite (pipeline_download_failed w0 w0 (Exn SSHException why) []).
    + cbn. rewrite <- app_assoc. reflexivity.
    + unfold download_sftp. rewrite run_bind_get.
      change (w_sftp w0) with (w_sftp w). now rewrite Es.
Qed.

(** X12: a reachable source without any entry of the prefix fails the
    run with [KeyError] before the ledger is opened, so also when the
    ledger is missing.  The notification carries the message between
    single quotes, because [str] of a [KeyError] is the [repr] of its
    argument. *)
Theorem no_candidate_is_reported (w : world) :
  w_sftp w = ConnOk ->
  candidates (sftp_listdir w) = [] ->
  main w
  = (inr tt,
     set_messages (app (w_messages w) [header; Py.repr not_found_message]) w,
     [EvSlack channels (app (w_messages w) [header; Py.repr not_found_message])]).
Proof.
  intros Hc He. rewrite main_run. cbv zeta.
  set (w0 := set_messages (app (w_messages w) ["An error has occurred:"]) w).
  rewrite (pipeline_download_failed w0 w0 (Exn KeyError not_found_message) []).
  - cbn. rewrite <- app_assoc. reflexivity.
  - unfold download_sftp. rewrite run_bind_get.
    change (w_sftp w0) with (w_sftp w). rewrite Hc, run_bind_lift.
    change (sftp_listdir w0) with (sftp_listdir w).
    unfold select_newest. now rewrite He.
Qed.

Lemma no_candidate_is_reported_witness :
  main Fixture.empty_drop
  = (inr tt,
     set_messages
       (app (w_messages Fixture.empty_drop) [header; Py.repr not_found_message])
       Fixture.empty_drop,
     [EvSlack channels
        (app (w_messages Fixture.empty_drop) [header; Py.repr not_found_message])]).
Proof.
  apply (no_candidate_is_reported Fixture.empty_drop); reflexivity.
Defined.

(** ** Record transformer: closed form, failures, repeated application *)

Section TransformerMore.

Lemma pic_link_step_raised (r : row) (e : exn) (l : list Z) :
  fold_left (pic_link_step r) l (inl e) = inl e.
Proof. induction l as [|i l IH]; [reflexivity | exact IH]. Qed.

Lemma pic_links_string (r : row) (t : string) (n : Z) :
  IMAGE_URL_PATTERN r = PyStr t ->
  pic_links r n
  = inr (map (fun i => (Py.strip "seq#.jpg" t ++ Py.str_int (Z.of_nat i) ++ ".jpg") ++ "|")
             (seq 1 (Z.to_nat n))).
Proof.
  intros Ht. unfold pic_links, Py.range.
  now rewrite (pic_links_loop r t (Z.to_nat n) 0 [] Ht).
Qed.

Lemma pic_links_not_string (r : row) (n : Z) :
  (forall t, IMAGE_URL_PATTERN r <> PyStr t) ->
  (0 < n)%Z ->
  exists msg, pic_links r n = inl (Exn AttributeError msg).
Proof.
  intros Ht Hn. unfold pic_links, Py.range.
  destruct (Z.to_nat n) as [|k] eqn:E; [lia |].
  cbn [seq map fold_left]. unfold pic_link_step at 2. cbn [rbind].
  destruct (IMAGE_URL_PATTERN r) as [z | f | t]; cbn [str_strip rbind];
    try (eexists; apply pic_link_step_raised).
  now destruct (Ht t).
Qed.

Lemma links_of_count (r : row) (n : Z) :
  (pic_path_list <~ pic_links r n ;;
   inr (mkRow (NON_TRASH_PHOTO_COUNT r)
          (PyStr (Py.drop_last (Py.join_empty pic_path_list))) (other_columns r)))
  = change_row r ->
  outcome_on_count r n.
Proof.
  intros H. unfold outcome_on_count. rewrite <- H. clear H.
  destruct (IMAGE_URL_PATTERN r) as [z | f | t] eqn:Et.
  - destruct (Z.leb_spec n 0) as [Hn | Hn].
    + now rewrite pic_links_nonpos.
    + destruct (pic_links_not_string r n) as [msg ->];
        [rewrite Et; discriminate | assumption |].
      now exists msg.
  - destruct (Z.leb_spec n 0) as [Hn | Hn].
    + now rewrite pic_links_nonpos.
    + destruct (pic_links_not_string r n) as [msg ->];
        [rewrite Et; discriminate | assumption |].
      now exists msg.
  - rewrite (pic_links_string r t n Et). cbn [rbind]. unfold row_with_url, numbered_links.
    rewrite <- join_drop_last, map_map. reflexivity.
Qed.

Lemma change_rows_raised (rows : list row) (r : row) (e : exn) :
  In r rows -> change_row r = inl e -> exists e', change_rows rows = inl e'.
Proof.
  intros Hin He. induction rows as [|r0 rows IH]; [contradiction |].
  cbn [change_rows]. destruct Hin as [-> | Hin].
  - rewrite He. eexists. reflexivity.
  - destruct (change_row r0) as [e0 | r0']; cbn [rbind]; [eexists; reflexivity |].
    destruct (IH Hin) as [e' ->]. eexists. reflexivity.
Qed.

End TransformerMore.

(** X13: the closed form of the row transform.  A text photo count
    raises [TypeError], an infinite one [OverflowError], a missing one
    gives the empty string.  A numeric count is taken by its integer part
    [n] (2.7 counts as 2): on a string template the URL field becomes the
    links numbered 1 to [n] built on the template stripped of the
    characters of "seq#.jpg" at both ends, joined by "|" with no trailing
    delimiter (the empty string when [n <= 0]); on a template that is not a
    string (a missing cell, which is a float, or a number) the field
    becomes the empty string when [n <= 0] and the row raises
    [AttributeError] otherwise. *)
Theorem change_row_closed_form (r : row) :
  match NON_TRASH_PHOTO_COUNT r with
  | PyStr _ => change_row r = inl (Exn TypeError "must be real number, not str")
  | PyFloat FNaN => change_row r = inr (row_with_url r "")
  | PyFloat (FInf _) =>
      change_row r = inl (Exn OverflowError "cannot convert float infinity to integer")
  | PyFloat (FFin q) => outcome_on_count r (Z.quot (Qnum q) (Zpos (Qden q)))
  | PyInt z => outcome_on_count r z
  end.
Proof.
  destruct (NON_TRASH_PHOTO_COUNT r) as [z | [ | neg | q] | s] eqn:Ec.
  - apply links_of_count. unfold change_row. now rewrite Ec.
  - unfold change_row, row_with_url. now rewrite Ec.
  - unfold change_row. now rewrite Ec.
  - apply links_of_count. unfold change_row. now rewrite Ec.
  - unfold change_row. now rewrite Ec.
Qed.

(** X15: one bad row blocks the whole table.  When some row of the table
    raises, [change_pictures] raises after reading the file and before
    writing anything: the working area, and the rest of the world, are as
    they were, no row has been rewritten. *)
Theorem one_bad_row_blocks_the_table (filename name : string) (rows : list row)
        (es : list node) (r : row) (e : exn) (w : world) :
  w_temp w = Some es ->
  find_entry filename es = Some (File name (Table rows)) ->
  In r rows ->
  change_row r = inl e ->
  exists e', change_pictures filename w = (inl e', w, [EvReadCsv filename]).
Proof.
  intros Ht Hf Hin He.
  destruct (change_rows_raised rows r e Hin He) as [e' He'].
  exists e'. unfold change_pictures.
  rewrite run_bind_get, Ht, Hf, run_bind_emit, run_bind_lift, He'.
  reflexivity.
Qed.

Lemma one_bad_row_blocks_the_table_witness :
  exists e',
    change_pictures "stock.csv"
      (set_temp (Some [File "stock.csv" (Table [Sample.good_row; Sample.text_row])])
                Fixture.unpacked)
    = (inl e',
       set_temp (Some [File "stock.csv" (Table [Sample.good_row; Sample.text_row])])
                Fixture.unpacked,
       [EvReadCsv "stock.csv"]).
Proof.
  apply (one_bad_row_blocks_the_table "stock.csv" "stock.csv"
           [Sample.good_row; Sample.text_row]
           [File "stock.csv" (Table [Sample.good_row; Sample.text_row])]
           Sample.text_row (Exn TypeError "must be real number, not str")).
  - reflexivity.
  - reflexivity.
  - right. left. reflexivity.
  - reflexivity.
Defined.

(** X16: on a template that ends with the placeholder and whose other
    part neither starts nor ends with one of the characters 's', 'e', 'q',
    '#', '.', 'j', 'p', 'g' (an "https://" address with a "/" before the
    placeholder, for one), the URL field becomes the links that part
    numbered from 1 to the count, whether [pandas] hands the count over as
    an integer or as a float of that value. *)
Theorem clean_template_links (r : row) (base : string) (n : Z) :
  IMAGE_URL_PATTERN r = PyStr (base ++ "seq#.jpg") ->
  base <> "" ->
  Py.lstrip "seq#.jpg" base = base ->
  Py.rstrip "seq#.jpg" base = base ->
  NON_TRASH_PHOTO_COUNT r = PyInt n
  \/ NON_TRASH_PHOTO_COUNT r = PyFloat (FFin (inject_Z n)) ->
  change_row r = inr (row_with_url r (numbered_links base (Z.to_nat n))).
Proof.
  intros Hu Hne Hl Hr Hc.
  assert (H : outcome_on_count r n).
  { apply links_of_count. unfold change_row.
    destruct Hc as [-> | ->]; cbn [math_isnan py_int rbind negb inject_Z Qnum Qden].
    - reflexivity.
    - now rewrite Z.quot_1_r. }
  unfold outcome_on_count in H. rewrite Hu in H.
  now rewrite strip_placeholder in H.
Qed.

Lemma clean_template_links_witness :
  change_row (mkRow (PyFloat (FFin (inject_Z 2)))
                (PyStr ("https://cdn.example.com/veh/" ++ "seq#.jpg")) ["VIN1"])
  = inr (row_with_url
           (mkRow (PyFloat (FFin (inject_Z 2)))
              (PyStr ("https://cdn.example.com/veh/" ++ "seq#.jpg")) ["VIN1"])
           (numbered_links "https://cdn.example.com/veh/" (Z.to_nat 2))).
Proof.
  apply (clean_template_links
           (mkRow (PyFloat (FFin (inject_Z 2)))
              (PyStr ("https://cdn.example.com/veh/" ++ "seq#.jpg")) ["VIN1"])
           "https://cdn.example.com/veh/" 2).
  - reflexivity.
  - discriminate.
  - reflexivity.
  - reflexivity.
  - right. reflexivity.
Defined.

Section Repeated.

Lemma uint_digits (d : Decimal.uint) :
  all_in decimal_digits (NilEmpty.string_of_uint d) = true.
Proof.
  induction d as [| d IH | d IH | d IH | d IH | d IH | d IH | d IH | d IH | d IH | d IH];
    cbn [NilEmpty.string_of_uint all_in]; try rewrite IH; reflexivity.
Qed.

Lemma str_int_digits (k : nat) :
  Py.str_int (Z.of_nat (S k)) <> ""
  /\ all_in decimal_digits (Py.str_int (Z.of_nat (S k))) = true.
Proof.
  unfold Py.str_int. cbn [Z.of_nat Z.to_int NilZero.string_of_int].
  pose proof (DecimalPos.Unsigned.to_uint_nonnil (Pos.of_succ_nat k)) as Hn.
  unfold NilZero.string_of_uint.
  destruct (Pos.to_uint (Pos.of_succ_nat k)) as [| u | u | u | u | u | u | u | u | u | u];
    [congruence | ..];
    (split; [cbn [NilEmpty.string_of_uint]; discriminate | apply uint_digits]).
Qed.

Lemma digit_not_in_placeholder (c : ascii) :
  Py.mem_char c decimal_digits = true -> Py.mem_char c "seq#.jpg" = false.
Proof.
  unfold decimal_digits. cbn [Py.mem_char]. rewrite !orb_true_iff, !Ascii.eqb_eq.
  intros H. repeat (destruct H as [H | H]; [subst c; reflexivity |]). discriminate.
Qed.

Lemma rstrip_digits (d : string) :
  d <> "" -> all_in decimal_digits d = true -> Py.rstrip "seq#.jpg" d = d.
Proof.
  induction d as [|c d IH]; [congruence |]. intros _ H.
  cbn [all_in] in H. apply andb_true_iff in H as [Hc Hd].
  cbn [Py.rstrip]. destruct d as [|c' d].
  - cbn [Py.rstrip]. now rewrite digit_not_in_placeholder.
  - rewrite IH by (assumption || discriminate). reflexivity.
Qed.

Lemma rstrip_before_digits (x d : string) :
  d <> "" -> all_in decimal_digits d = true ->
  Py.rstrip "seq#.jpg" (x ++ d) = x ++ d.
Proof.
  intros Hne Hd. induction x as [|c x IH]; [now apply rstrip_digits |].
  cbn [append Py.rstrip]. rewrite IH.
  destruct (x ++ d) eqn:E; [| reflexivity].
  destruct x; [cbn in E; congruence | discriminate].
Qed.

Lemma concat_first (f : nat -> string) (a k : nat) :
  exists tail, String.concat "|" (map f (seq a (S k))) = f a ++ tail.
Proof.
  destruct k as [|k].
  - exists "". cbn. now rewrite append_empty_r.
  - eexists. cbn [seq map]. cbn [String.concat]. reflexivity.
Qed.

Lemma concat_last (f : nat -> string) (k : nat) :
  forall a, exists pre, String.concat "|" (map f (seq a (S k))) = pre ++ f (a + k).
Proof.
  induction k as [|k IH]; intros a.
  - exists "". cbn. now rewrite Nat.add_0_r.
  - destruct (IH (S a)) as [pre Hp].
    exists (f a ++ "|" ++ pre).
    change (String.concat "|" (map f (seq a (S (S k)))))
      with (f a ++ "|" ++ String.concat "|" (map f (seq (S a) (S k)))).
    rewrite Hp, !append_assoc. cbn [append].
    now rewrite Nat.add_succ_r.
Qed.

(** The links built for a count of at least one, cut before their last
    ".jpg": they start with the template's clean part and end with the
    digits of the count. *)
Lemma numbered_links_shape (base : string) (k : nat) :
  exists tail pre,
    numbered_links base (S k) = base ++ tail
    /\ numbered_links base (S k)
       = (pre ++ base ++ Py.str_int (Z.of_nat (S k))) ++ ".jpg".
Proof.
  unfold numbered_links.
  destruct (concat_first (fun i => base ++ Py.str_int (Z.of_nat i) ++ ".jpg") 1 k)
    as [tail Ht].
  destruct (concat_last (fun i => base ++ Py.str_int (Z.of_nat i) ++ ".jpg") k 1)
    as [pre Hp].
  exists (Py.str_int (Z.of_nat 1) ++ ".jpg" ++ tail), pre. split.
  - rewrite Ht. now rewrite !append_assoc.
  - rewrite Hp. cbn [Nat.add]. now rewrite !append_assoc.
Qed.

End Repeated.

(** X17: the transform is not idempotent.  Take a clean template (as in
    X16) and a count of at least one.  The first pass writes the numbered
    links, a string of the form [body ++ ".jpg"].  A second pass over that
    row does not leave it alone: it strips the final ".jpg" only, takes
    the whole of [body] for a template and writes the links of [body]
    numbered from 1 to the count, a different string. *)
Theorem transform_twice_rebuilds_links (base : string) (k : nat) (others : list string) :
  base <> "" ->
  Py.lstrip "seq#.jpg" base = base ->
  Py.rstrip "seq#.jpg" base = base ->
  exists body,
    change_row (mkRow (PyInt (Z.of_nat (S k))) (PyStr (base ++ "seq#.jpg")) others)
    = inr (mkRow (PyInt (Z.of_nat (S k))) (PyStr (body ++ ".jpg")) others)
    /\ change_row (mkRow (PyInt (Z.of_nat (S k))) (PyStr (body ++ ".jpg")) others)
       = inr (mkRow (PyInt (Z.of_nat (S k))) (PyStr (numbered_links body (S k))) others)
    /\ numbered_links body (S k) <> body ++ ".jpg".
Proof.
  intros Hne Hl Hr.
  destruct (numbered_links_shape base k) as [tail [pre [Hhead Hlast]]].
  destruct (str_int_digits k) as [Hd0 Hd].
  set (d := Py.str_int (Z.of_nat (S k))) in *.
  exists (pre ++ base ++ d). split; [| split].
  - rewrite <- Hlast. now apply change_row_numbered_links.
  - set (r1 := mkRow (PyInt (Z.of_nat (S k))) (PyStr ((pre ++ base ++ d) ++ ".jpg")) others).
    assert (H : outcome_on_count r1 (Z.of_nat (S k)))
      by (apply links_of_count; reflexivity).
    unfold outcome_on_count in H. cbn [r1 IMAGE_URL_PATTERN] in H.
    rewrite H. unfold row_with_url. cbn [r1 NON_TRASH_PHOTO_COUNT other_columns].
    rewrite Nat2Z.id. do 3 f_equal.
    unfold Py.strip. rewrite <- Hlast, Hhead.
    rewrite lstrip_fixed_app by assumption.
    rewrite <- Hhead, Hlast.
    rewrite rstrip_app_all_in by reflexivity.
    rewrite <- (append_assoc pre base d).
    now rewrite rstrip_before_digits.
  - destruct (concat_first
                (fun i => (pre ++ base ++ d) ++ Py.str_int (Z.of_nat i) ++ ".jpg") 1 k)
      as [tail' Ht].
    unfold numbered_links. rewrite Ht. rewrite append_assoc.
    intros E. apply append_same_head in E. discriminate.
Qed.

Lemma transform_twice_rebuilds_links_witness :
  exists body,
    change_row (mkRow (PyInt (Z.of_nat 2))
                  (PyStr ("https://cdn.example.com/veh/" ++ "seq#.jpg")) ["VIN1"])
    = inr (mkRow (PyInt (Z.of_nat 2)) (PyStr (body ++ ".jpg")) ["VIN1"])
    /\ change_row (mkRow (PyInt (Z.of_nat 2)) (PyStr (body ++ ".jpg")) ["VIN1"])
       = inr (mkRow (PyInt (Z.of_nat 2)) (PyStr (numbered_links body 2)) ["VIN1"])
    /\ numbered_links body 2 <> body ++ ".jpg".
Proof.
  apply (transform_twice_rebuilds_links "https://cdn.example.com/veh/" 1 ["VIN1"]).
  - discriminate.
  - reflexivity.
  - reflexivity.
Defined.

(** ** Remote sink uploader: what reaches the destination *)

Section UploaderMore.

Lemma ftp_storbinary_accepted (name : string) (data : payload) (w : world) :
  storable w name = true ->
  ftp_storbinary name data w
  = (inr tt, set_ftp_stored (app (w_ftp_stored w) [(name, data)]) w, [EvStor name]).
Proof.
  unfold storable, ftp_storbinary. intros H. apply andb_true_iff in H as [Hb Hr].
  apply negb_true_iff in Hb. rewrite run_bind_get, Hb.
  destruct (find (fun r => String.eqb (fst r) name) (w_ftp_refuses w)); [discriminate |].
  rewrite run_bind_modify. reflexivity.
Qed.

Lemma ftp_storbinary_refused (name : string) (data : payload) (w : world) :
  storable w name = false ->
  exists e, ftp_storbinary name data w = (inl e, w, []).
Proof.
  unfold storable, ftp_storbinary. intros H. rewrite run_bind_get.
  destruct (Py.has_line_break name); [eexists; reflexivity |].
  destruct (find (fun r => String.eqb (fst r) name) (w_ftp_refuses w)) as [[x reply] |];
    [eexists; reflexivity | discriminate].
Qed.

Lemma stor_loop (files : list (string * payload)) (w : world) :
  forallb (fun x => storable w (fst x)) files = true ->
  for_each files (fun '(name, data) => ftp_storbinary name data) w
  = (inr tt, set_ftp_stored (app (w_ftp_stored w) files) w,
     map (fun x => EvStor (fst x)) files).
Proof.
  revert w. induction files as [|[name data] files IH]; intros w H; cbn [for_each map].
  - rewrite app_nil_r. now destruct w.
  - cbn [forallb fst] in H. apply andb_true_iff in H as [Hn Hl].
    rewrite run_bind_parts, (ftp_storbinary_accepted name data w Hn).
    cbn [outcome final trace fst snd]. rewrite IH by exact Hl.
    cbn. now rewrite <- app_assoc.
Qed.

(** The loop stops at the first file the destination does not take. *)
Lemma stor_loop_stops (sent rest : list (string * payload)) (name : string)
      (data : payload) (w : world) :
  forallb (fun x => storable w (fst x)) sent = true ->
  storable w name = false ->
  exists e,
    for_each (app sent ((name, data) :: rest)) (fun '(name, data) => ftp_storbinary name data) w
    = (inl e, set_ftp_stored (app (w_ftp_stored w) sent) w,
       map (fun x => EvStor (fst x)) sent).
Proof.
  intros Hs Hn. rewrite for_each_app, run_bind_parts, (stor_loop sent w Hs).
  cbn [outcome final trace fst snd for_each].
  destruct (ftp_storbinary_refused name data
              (set_ftp_stored (app (w_ftp_stored w) sent) w) Hn) as [e He].
  exists e. rewrite run_bind_parts, He. cbn. now rewrite app_nil_r.
Qed.

Lemma skip_loop (files : list (string * payload)) (w : world) :
  for_each files (fun '(name, data) => ret tt) w = (inr tt, w, []).
Proof.
  induction files as [|[name data] files IH]; cbn [for_each]; [reflexivity |].
  now rewrite run_bind_ret.
Qed.

(** The two nested loops of [ftp_upload] are one loop over the files of
    the directories that are not skipped. *)
Lemma walk_loop (items : list walk_item) (w : world) :
  for_each items
    (fun '(new_path, subdirs, files) =>
       for_each files
         (fun '(name, data) =>
            if negb (Py.endswith "__MACOSX" new_path)
            then ftp_storbinary name data
            else ret tt)) w
  = for_each
      (flat_map
         (fun item : walk_item =>
            let '(new_path, _, files) := item in
            if negb (Py.endswith "__MACOSX" new_path) then files else [])
         items)
      (fun '(name, data) => ftp_storbinary name data) w.
Proof.
  revert w. induction items as [|[[new_path subdirs] files] items IH];
    intros w; cbn [for_each flat_map]; [reflexivity |].
  rewrite for_each_app.
  destruct (Py.endswith "__MACOSX" new_path); cbn [negb].
  - rewrite run_bind_parts, skip_loop. cbn [outcome final trace fst snd app for_each].
    rewrite run_bind_ret, IH. now destruct (for_each _ _ w) as [[r w1] t1].
  - apply bind_ext. intros _ w'. apply IH.
Qed.

Lemma ftp_upload_loop (filename top : string) (w : world) :
  w_ftp w = ConnOk ->
  ftp_upload filename top w
  = for_each (uploaded_files top (w_temp w))
      (fun '(name, data) => ftp_storbinary name data) w.
Proof.
  intros Hc. unfold ftp_upload. rewrite run_bind_get, Hc. apply walk_loop.
Qed.

Lemma ftp_upload_run (filename top : string) (w : world) :
  w_ftp w = ConnOk ->
  forallb (fun x => storable w (fst x)) (uploaded_files top (w_temp w)) = true ->
  ftp_upload filename top w
  = (inr tt,
     set_ftp_stored (app (w_ftp_stored w) (uploaded_files top (w_temp w))) w,
     map (fun x => EvStor (fst x)) (uploaded_files top (w_temp w))).
Proof.
  intros Hc Hs. rewrite ftp_upload_loop by assumption. now apply stor_loop.
Qed.

Lemma last_char_app (x s : string) :
  s <> "" -> last_char (x ++ s) = last_char s.
Proof.
  intros Hs. induction x as [|c x IH]; [reflexivity |].
  cbn [append last_char]. rewrite IH.
  destruct (x ++ s) eqn:E; [| reflexivity].
  destruct x; [cbn in E; congruence | discriminate].
Qed.

Lemma endswith_last_char (suffix s : string) :
  suffix <> "" -> Py.endswith suffix s = true -> last_char s = last_char suffix.
Proof.
  intros Hn. induction s as [|c s IH]; cbn [Py.endswith].
  - intros H. destruct suffix; [congruence | discriminate H].
  - intros H. apply orb_true_iff in H as [H | H].
    + apply String.eqb_eq in H. now rewrite H.
    + cbn [last_char]. rewrite <- (IH H).
      destruct s; [| reflexivity].
      destruct suffix; [congruence | discriminate H].
Qed.

(** The path of the working area never ends with the marker. *)
Lemma path_not_marker (w : world) : Py.endswith "__MACOSX" (path w) = false.
Proof.
  destruct (Py.endswith "__MACOSX" (path w)) eqn:E; [| reflexivity].
  apply endswith_last_char in E; [| discriminate].
  unfold path, Py.os_path_join in E.
  change (Py.startswith "/" "temp") with false in E. cbv iota in E.
  change ("/" ++ "temp") with "/temp" in E.
  destruct (String.eqb (w_getcwd w) "" || Py.endswith "/" (w_getcwd w));
    rewrite last_char_app in E by discriminate; discriminate.
Qed.

End UploaderMore.

(** X18: the upload is flat, stops at the first file the destination
    does not take, and leaves everything but the destination alone.
    [ftp_upload] ignores its [filename] argument.  With a reachable
    destination it sends, in the order of the walk and each under its base
    name with its content, the files of every directory whose path does
    not end with "__MACOSX".  When the destination takes every one of them
    (no name holds a line break, none is refused), it returns and the
    destination holds what it held, followed by those files.  At the first
    file it does not take, [ftp_upload] raises: the files before that one
    have been stored, that one and those after it have not.  In both cases
    the working area, the ledger and the rest of the world are unchanged.
    With a destination whose session does not open it raises and nothing
    is sent. *)
Theorem ftp_upload_sends_flat (filename top : string) (w : world) :
  match w_ftp w with
  | ConnOk =>
      (forallb (fun x => storable w (fst x)) (uploaded_files top (w_temp w)) = true ->
       ftp_upload filename top w
       = (inr tt,
          set_ftp_stored (app (w_ftp_stored w) (uploaded_files top (w_temp w))) w,
          map (fun x => EvStor (fst x)) (uploaded_files top (w_temp w))))
      /\ (forall (sent rest : list (string * payload)) (name : string) (data : payload),
             uploaded_files top (w_temp w) = app sent ((name, data) :: rest) ->
             forallb (fun x => storable w (fst x)) sent = true ->
             storable w name = false ->
             exists e,
               ftp_upload filename top w
               = (inl e, set_ftp_stored (app (w_ftp_stored w) sent) w,
                  map (fun x => EvStor (fst x)) sent))
      /\ map fst (uploaded_files top (w_temp w)) = uploaded_names top (w_temp w)
  | _ =>
      exists e, ftp_upload filename top w = (inl e, w, [])
  end.
Proof.
  destruct (w_ftp w) as [| why | why | why] eqn:Hc;
    try (unfold ftp_upload; rewrite run_bind_get, Hc; eexists; reflexivity).
  split; [| split].
  - now apply ftp_upload_run.
  - intros sent rest name data E Hs Hn.
    rewrite ftp_upload_loop, E by assumption. now apply stor_loop_stops.
  - unfold uploaded_files, uploaded_names. rewrite map_flat_map.
    induction (os_walk top (w_temp w)) as [|[[new_path subdirs] files] items IH];
      cbn [flat_map]; [reflexivity |].
    rewrite IH. now destruct (Py.endswith "__MACOSX" new_path).
Qed.

(** X19: the payload goes out whatever the current directory is called.
    When [main] uploads to a destination that takes every file sent, every
    regular file that lies directly in the working area is among them,
    because the path of the working area ends with "temp" and never with
    the marker. *)
Theorem top_level_files_are_uploaded (filename name : string) (d : payload)
        (es : list node) (w : world) :
  w_ftp w = ConnOk ->
  w_temp w = Some es ->
  forallb (fun x => storable w (fst x)) (uploaded_files (path w) (w_temp w)) = true ->
  In (File name d) es ->
  In (EvStor name) (trace (ftp_upload filename (path w) w))
  /\ In (name, d) (w_ftp_stored (final (ftp_upload filename (path w) w))).
Proof.
  intros Hc Ht Hs Hin.
  assert (Hup : In (name, d) (uploaded_files (path w) (w_temp w))).
  { unfold uploaded_files. rewrite Ht. cbn [os_walk flat_map].
    rewrite path_not_marker. cbn [negb]. apply in_or_app. left.
    unfold dir_files. apply in_flat_map. exists (File name d).
    split; [assumption | now left]. }
  rewrite ftp_upload_run by assumption. cbn [trace final fst snd]. split.
  - apply (in_map (fun x => EvStor (fst x)) _ (name, d)). exact Hup.
  - cbn. apply in_or_app. now right.
Qed.

Lemma top_level_files_are_uploaded_witness :
  In (EvStor "inventory.txt")
     (trace (ftp_upload "ignored" (path Sample.mac_world) Sample.mac_world))
  /\ In ("inventory.txt", Raw "data")
        (w_ftp_stored (final (ftp_upload "ignored" (path Sample.mac_world) Sample.mac_world))).
Proof.
  apply (top_level_files_are_uploaded "ignored" "inventory.txt" (Raw "data")
           Sample.mac_area Sample.mac_world).
  - reflexivity.
  - reflexivity.
  - reflexivity.
  - left. reflexivity.
Defined.

(** ** Remote source selector: what the choice depends on *)

Section SelectorMore.

Lemma has_prefix_startswith (x : string) :
  has_prefix x <-> Py.startswith PREFIX x = true.
Proof. unfold has_prefix. now rewrite (startswith_spec PREFIX x). Qed.

Lemma download_sftp_run (w : world) (f content : string) (rf : remote_file) :
  w_sftp w = ConnOk ->
  select_newest (sftp_listdir w) = inr f ->
  w_log w = Some content ->
  scan_log f content = false ->
  find (fun r => String.eqb (rname r) f) (w_vw_out w) = Some rf ->
  fetchable (rdata rf) ->
  download_sftp w
  = (inr f,
     set_log (Some (content ++ log_line f))
       (set_cwd ((f, rdata rf)
                   :: filter (fun e => negb (String.eqb (fst e) f)) (w_cwd w)) w),
     [EvDownload f; EvLogAppend (log_line f)]).
Proof.
  intros Hc Hs Hl Hn Hf Hok. unfold download_sftp.
  rewrite run_bind_get, Hc, run_bind_lift, Hs.
  unfold check_duplicate. rewrite run_bind_assoc, run_bind_get, Hl, run_bind_ret, Hn.
  rewrite (selected_truthy _ _ Hs).
  unfold sftp_get. rewrite run_bind_assoc, run_bind_get. cbv zeta. rewrite Hf.
  destruct (rdata rf) eqn:Ed; try contradiction;
    rewrite run_bind_assoc, run_bind_modify, run_bind_emit;
    rewrite run_bind_parts, log_file_run; cbn; rewrite Hl; reflexivity.
Qed.

Lemma download_sftp_fetch_fails (w : world) (f content why : string) (rf : remote_file) :
  w_sftp w = ConnOk ->
  select_newest (sftp_listdir w) = inr f ->
  w_log w = Some content ->
  scan_log f content = false ->
  find (fun r => String.eqb (rname r) f) (w_vw_out w) = Some rf ->
  rdata rf = Unfetchable why ->
  download_sftp w
  = (inl (Exn OSError why),
     set_cwd ((f, NotZip "") :: filter (fun e => negb (String.eqb (fst e) f)) (w_cwd w)) w,
     []).
Proof.
  intros Hc Hs Hl Hn Hf Hd. unfold download_sftp.
  rewrite run_bind_get, Hc, run_bind_lift, Hs.
  unfold check_duplicate. rewrite run_bind_assoc, run_bind_get, Hl, run_bind_ret, Hn.
  rewrite (selected_truthy _ _ Hs).
  unfold sftp_get. rewrite run_bind_assoc, run_bind_get. cbv zeta. rewrite Hf, Hd.
  rewrite run_bind_assoc, run_bind_modify. reflexivity.
Qed.

End SelectorMore.

(** X20: the choice depends on the set of names only.  Two listings
    with the same names, in whatever order and with whatever repetitions,
    lead [select_newest] to the same file or to the same [KeyError]; other
    entries of the directory play no part unless they start with the
    prefix. *)
Theorem selection_depends_on_names_only (names names' : list string) :
  (forall x, Py.startswith PREFIX x = true -> (In x names <-> In x names')) ->
  select_newest names = select_newest names'.
Proof.
  intros H.
  assert (Hc : forall x, In x (candidates names) <-> In x (candidates names')).
  { intros x. rewrite !candidates_In, has_prefix_startswith.
    split; intros [Hi Hp]; split; try assumption; now apply (H x Hp). }
  pose proof (select_newest_spec names) as S1.
  pose proof (select_newest_spec names') as S2.
  destruct (candidates names) as [|c cs] eqn:E1;
    destruct (candidates names') as [|c' cs'] eqn:E2.
  - congruence.
  - exfalso. apply (Hc c'). now left.
  - exfalso. apply (Hc c). now left.
  - destruct S1 as [f [Hf [Hin Hmax]]]. destruct S2 as [f' [Hf' [Hin' Hmax']]].
    rewrite Hf, Hf'. f_equal. apply String.leb_antisym.
    + apply Hmax'. now apply Hc.
    + apply Hmax. now apply Hc.
Qed.

Lemma selection_depends_on_names_only_witness :
  select_newest [Sample.older; "readme.txt"; Sample.archive]
  = select_newest [Sample.archive; Sample.older; Sample.archive; "notes.md"].
Proof.
  apply (selection_depends_on_names_only
           [Sample.older; "readme.txt"; Sample.archive]
           [Sample.archive; Sample.older; Sample.archive; "notes.md"]).
  intros x Hp. split.
  - intros [<- | [<- | [<- | []]]]; cbn; auto. discriminate Hp.
  - intros [<- | [<- | [<- | [<- | []]]]]; cbn; auto. discriminate Hp.
Defined.

(** X21: what [download_sftp] leaves behind.  When it raises, it has
    recorded no action and the ledger, the working area and the
    destination are as they were; the world is unchanged altogether,
    unless the fetch itself failed, in which case the current directory
    holds an empty file under the selected name.  That is what happens to
    a selected entry that cannot be fetched: the error of the transfer
    leaves [download_sftp] unconverted, and since the ledger was not
    written the next run selects the same entry again.  When
    [download_sftp] returns a name, that name is an entry of the listing
    that starts with the prefix, the current directory holds under that
    name the content of the first entry so named, the ledger holds its
    former content followed by the line of that name, and the working area
    and the destination are untouched. *)
Theorem download_sftp_outcomes :
  (forall w : world,
      match outcome (download_sftp w) with
      | inl e =>
          trace (download_sftp w) = []
          /\ w_log (final (download_sftp w)) = w_log w
          /\ w_temp (final (download_sftp w)) = w_temp w
          /\ w_ftp_stored (final (download_sftp w)) = w_ftp_stored w
          /\ (final (download_sftp w) = w
              \/ exists f,
                  select_newest (sftp_listdir w) = inr f
                  /\ w_cwd (final (download_sftp w))
                     = (f, NotZip "")
                         :: filter (fun e => negb (String.eqb (fst e) f)) (w_cwd w))
      | inr f =>
          In f (sftp_listdir w)
          /\ has_prefix f
          /\ exists rf content,
              find (fun r => String.eqb (rname r) f) (w_vw_out w) = Some rf
              /\ fetchable (rdata rf)
              /\ w_log w = Some content
              /\ find (fun e => String.eqb (fst e) f) (w_cwd (final (download_sftp w)))
                 = Some (f, rdata rf)
              /\ w_log (final (download_sftp w)) = Some (content ++ log_line f)
              /\ w_temp (final (download_sftp w)) = w_temp w
              /\ w_ftp_stored (final (download_sftp w)) = w_ftp_stored w
      end)
  /\ (forall (w : world) (f content why : string) (rf : remote_file),
         w_sftp w = ConnOk ->
         select_newest (sftp_listdir w) = inr f ->
         w_log w = Some content ->
         scan_log f content = false ->
         find (fun r => String.eqb (rname r) f) (w_vw_out w) = Some rf ->
         rdata rf = Unfetchable why ->
         download_sftp w
         = (inl (Exn OSError why),
            set_cwd ((f, NotZip "")
                       :: filter (fun e => negb (String.eqb (fst e) f)) (w_cwd w)) w,
            [])
         /\ select_newest (sftp_listdir (final (download_sftp w))) = inr f
         /\ w_log (final (download_sftp w)) = Some content).
Proof.
  split.
  - intros w.
    destruct (download_sftp_cases w)
      as [[e He] | [[e [f [ct [_ [Hs [_ [_ He]]]]]]]
                   | [f [ct [rf [Hc [Hs [Hl [Hn [Hf Hd]]]]]]]]]].
    + rewrite He. cbn. repeat split; try reflexivity. now left.
    + rewrite He. cbn [outcome final trace fst snd]. repeat split; try reflexivity.
      right. exists f. split; [assumption | reflexivity].
    + rewrite Hd. cbn [outcome final trace fst snd].
      destruct (selected_has_prefix _ _ Hs) as [Hin Hp].
      split; [assumption |]. split; [assumption |].
      exists rf, ct.
      assert (Hok : fetchable (rdata rf)).
      { destruct (rdata rf) as [ms | bf dn dd af | bytes | why] eqn:Ed; try exact I.
        rewrite (download_sftp_fetch_fails w f ct why rf Hc Hs Hl Hn Hf Ed) in Hd.
        discriminate. }
      repeat split; try assumption.
      cbn. now rewrite String.eqb_refl.
  - intros w f content why rf Hc Hs Hl Hn Hf Hd.
    pose proof (download_sftp_fetch_fails w f content why rf Hc Hs Hl Hn Hf Hd) as Hrun.
    rewrite Hrun. repeat split; assumption.
Qed.

(** ** A run in which every step succeeds *)

Section HappyPath.

Lemma change_pictures_run (filename name : string) (rows rows' : list row)
      (es : list node) (w : world) :
  w_temp w = Some es ->
  find_entry filename es = Some (File name (Table rows)) ->
  change_rows rows = inr rows' ->
  change_pictures filename w
  = (inr tt, set_temp (Some (put_entry (File filename (Table rows')) es)) w,
     [EvReadCsv filename; EvWriteCsv filename]).
Proof.
  intros Ht Hf Hr. unfold change_pictures.
  rewrite run_bind_get. cbv zeta.
  rewrite Ht, Hf, run_bind_emit, run_bind_lift, Hr, run_bind_modify.
  reflexivity.
Qed.

Lemma nothing_holds_directory (name : string) : ~ holds_directory name [].
Proof. intros H. exact H. Qed.

Lemma single_file_no_directory (x name : string) (d : payload) :
  ~ holds_directory x [File name d].
Proof.
  unfold holds_directory, find_entry. cbn [find node_name].
  now destruct (String.eqb name x).
Qed.

Lemma single_file_renamed (src dst : string) (d : payload) :
  put_entry (File dst d) (remove_entry src [File src d]) = [File dst d].
Proof.
  unfold remove_entry. cbn [filter node_name]. now rewrite String.eqb_refl.
Qed.

Lemma single_file_found (name : string) (d : payload) :
  find_entry name [File name d] = Some (File name d).
Proof. unfold find_entry. cbn [find node_name]. now rewrite String.eqb_refl. Qed.

Lemma single_file_rewritten (name : string) (d d' : payload) :
  put_entry (File name d') [File name d] = [File name d'].
Proof. cbn [put_entry node_name]. now rewrite String.eqb_refl. Qed.

End HappyPath.

Lemma run_bind_eq {A B} (m : M A) (k : A -> M B) (w w1 w2 : world) (a : A)
      (r : result B) (t1 t2 : list event) :
  m w = (inr a, w1, t1) -> k a w1 = (r, w2, t2) -> bind m k w = (r, w2, app t1 t2).
Proof. intros Hm Hk. unfold bind. now rewrite Hm, Hk. Qed.

Lemma pipeline_happy (w : world) (f content : string) (rf : remote_file)
      (rows rows' : list row) :
  w_sftp w = ConnOk ->
  select_newest (sftp_listdir w) = inr f ->
  w_log w = Some content ->
  scan_log f content = false ->
  find (fun r => String.eqb (rname r) f) (w_vw_out w) = Some rf ->
  rdata rf = Zip [File (Py.split_dot_0 f ++ ".txt") (Table rows)] ->
  w_temp w = None ->
  change_rows rows = inr rows' ->
  w_ftp w = ConnOk ->
  storable w (Py.split_dot_0 f ++ ".txt") = true ->
  deletable w (File (Py.split_dot_0 f ++ ".txt") (Table rows')) = true ->
  exists w',
    pipeline w
    = (inr tt, w',
       [EvDownload f; EvLogAppend (log_line f);
        EvExtract f; EvRemoveArchive f;
        EvRename (Py.split_dot_0 f ++ ".txt") (Py.split_dot_0 f ++ ".csv");
        EvReadCsv (Py.split_dot_0 f ++ ".csv"); EvWriteCsv (Py.split_dot_0 f ++ ".csv");
        EvRename (Py.split_dot_0 f ++ ".csv") (Py.split_dot_0 f ++ ".txt");
        EvStor (Py.split_dot_0 f ++ ".txt");
        EvDelete (Py.split_dot_0 f ++ ".txt"); EvRmdir])
    /\ w_ftp_stored w'
       = app (w_ftp_stored w) [(Py.split_dot_0 f ++ ".txt", Table rows')]
    /\ w_temp w' = None
    /\ w_log w' = Some (content ++ log_line f)
    /\ find (fun e => String.eqb (fst e) f) (w_cwd w') = None
    /\ w_messages w' = w_messages w.
Proof.
  intros Hc Hs Hl Hn Hf Hd Ht Hr Hftp Hstor Hdel.
  set (stem := Py.split_dot_0 f) in *.
  assert (Hstem : Py.split_dot_0 (stem ++ ".csv") = stem) by apply split_dot_0_stem.
  assert (Hrun : exists w' t, pipeline w = (inr tt, w', t)
                   /\ t = [EvDownload f; EvLogAppend (log_line f);
                           EvExtract f; EvRemoveArchive f;
                           EvRename (stem ++ ".txt") (stem ++ ".csv");
                           EvReadCsv (stem ++ ".csv"); EvWriteCsv (stem ++ ".csv");
                           EvRename (stem ++ ".csv") (stem ++ ".txt");
                           EvStor (stem ++ ".txt");
                           EvDelete (stem ++ ".txt"); EvRmdir]
                   /\ w_ftp_stored w' = app (w_ftp_stored w) [(stem ++ ".txt", Table rows')]
                   /\ w_temp w' = None
                   /\ w_log w' = Some (content ++ log_line f)
                   /\ find (fun e => String.eqb (fst e) f) (w_cwd w') = None
                   /\ w_messages w' = w_messages w).
  { eexists. eexists. split.
    - unfold pipeline. rewrite run_bind_get.
      eapply run_bind_eq.
      { apply (download_sftp_run w f content rf Hc Hs Hl Hn Hf). now rewrite Hd. }
      rewrite Hd.
      eapply run_bind_eq.
      { apply (unzip_file_run f f [File (stem ++ ".txt") (Table rows)]).
        - exact (selected_truthy _ _ Hs).
        - cbn [w_cwd set_log set_cwd find fst]. now rewrite String.eqb_refl.
        - discriminate.
        - cbn [w_temp set_log set_cwd]. rewrite Ht.
          repeat constructor. apply nothing_holds_directory. }
      cbn [w_temp set_log set_cwd]. rewrite Ht.
      change (write_all [File (stem ++ ".txt") (Table rows)] [])
        with [File (stem ++ ".txt") (Table rows)].
      eapply run_bind_eq.
      { apply (convert_file_run ".txt" ".csv" f (stem ++ ".txt") (Table rows)
                 [File (stem ++ ".txt") (Table rows)]).
        - reflexivity.
        - apply single_file_found.
        - discriminate.
        - apply single_file_no_directory. }
      fold stem. rewrite single_file_renamed.
      eapply run_bind_eq.
      { apply (change_pictures_run (stem ++ ".csv") (stem ++ ".csv") rows rows'
                 [File (stem ++ ".csv") (Table rows)]).
        - reflexivity.
        - apply single_file_found.
        - exact Hr. }
      rewrite single_file_rewritten.
      eapply run_bind_eq.
      { apply (convert_file_run ".csv" ".txt" (stem ++ ".csv") (stem ++ ".csv")
                 (Table rows') [File (stem ++ ".csv") (Table rows')]).
        - reflexivity.
        - rewrite Hstem. apply single_file_found.
        - discriminate.
        - apply single_file_no_directory. }
      rewrite Hstem, single_file_renamed.
      eapply run_bind_eq.
      { apply ftp_upload_run; [exact Hftp |].
        unfold uploaded_files.
        cbn [w_temp set_temp set_cwd set_log os_walk flat_map dir_files dir_subdirs].
        rewrite path_not_marker. cbn [negb app forallb fst].
        rewrite andb_true_r. exact Hstor. }
      unfold uploaded_files.
      cbn [w_temp set_temp set_cwd set_log os_walk flat_map dir_files dir_subdirs].
      rewrite path_not_marker. cbn [negb app].
      eapply run_bind_eq.
      { unfold remove_temp_files. rewrite run_bind_get.
        cbn [w_temp set_ftp_stored set_temp set_cwd set_log].
        rewrite delete_loop by (cbn [forallb]; rewrite andb_true_r; exact Hdel).
        cbn [w_temp set_ftp_stored set_temp set_cwd set_log option_map fold_left
             remove_entry filter node_name map].
        rewrite String.eqb_refl. cbn [negb]. reflexivity. }
      unfold os_rmdir. rewrite run_bind_get. cbn [w_temp set_temp].
      rewrite run_bind_modify, (run_parts (emit EvRmdir _)). reflexivity.
    - fold stem. rewrite ?Hstem, ?path_not_marker.
      cbn. rewrite ?Hstem, ?path_not_marker. cbn.
      repeat split; try assumption.
      rewrite String.eqb_refl. cbn [negb].
      apply (find_filter_out (fun e : string * remote_data => String.eqb (fst e) f)). }
  destruct Hrun as [w' [t [Hp [-> Hrest]]]]. exists w'. split; assumption.
Qed.

(** X22: when everything is in order, the transformed table reaches the
    destination.  Suppose the source is reachable, the newest candidate
    [f] is not in the ledger, it can be fetched and its archive holds one
    file, a table named after the stem of [f] with the extension .txt, no
    row of which raises; there is no working area; the destination is
    reachable and takes that name; and the file can be deleted.  Then
    [main] returns without a notification after exactly these actions, in
    this order: download, ledger write, extraction, removal of the
    archive, rename to .csv, read, write, rename to .txt, one upload, one
    deletion, removal of the working area.  The destination has received
    the transformed table under the .txt name, the archive is gone from
    the current directory, the ledger ends with the line of [f], and the
    message list has grown by the header alone. *)
Theorem run_delivers_transformed_table (w : world) (f content : string)
        (rf : remote_file) (rows rows' : list row) :
  w_sftp w = ConnOk ->
  select_newest (sftp_listdir w) = inr f ->
  w_log w = Some content ->
  scan_log f content = false ->
  find (fun r => String.eqb (rname r) f) (w_vw_out w) = Some rf ->
  rdata rf = Zip [File (Py.split_dot_0 f ++ ".txt") (Table rows)] ->
  w_temp w = None ->
  change_rows rows = inr rows' ->
  w_ftp w = ConnOk ->
  storable w (Py.split_dot_0 f ++ ".txt") = true ->
  deletable w (File (Py.split_dot_0 f ++ ".txt") (Table rows')) = true ->
  exists w',
    main w
    = (inr tt, w',
       [EvDownload f; EvLogAppend (log_line f);
        EvExtract f; EvRemoveArchive f;
        EvRename (Py.split_dot_0 f ++ ".txt") (Py.split_dot_0 f ++ ".csv");
        EvReadCsv (Py.split_dot_0 f ++ ".csv"); EvWriteCsv (Py.split_dot_0 f ++ ".csv");
        EvRename (Py.split_dot_0 f ++ ".csv") (Py.split_dot_0 f ++ ".txt");
        EvStor (Py.split_dot_0 f ++ ".txt");
        EvDelete (Py.split_dot_0 f ++ ".txt"); EvRmdir])
    /\ w_ftp_stored w'
       = app (w_ftp_stored w) [(Py.split_dot_0 f ++ ".txt", Table rows')]
    /\ w_temp w' = None
    /\ w_log w' = Some (content ++ log_line f)
    /\ find (fun e => String.eqb (fst e) f) (w_cwd w') = None
    /\ w_messages w' = app (w_messages w) [header].
Proof.
  intros Hc Hs Hl Hn Hf Hd Ht Hr Hftp Hstor Hdel.
  set (w0 := set_messages (app (w_messages w) ["An error has occurred:"]) w).
  destruct (pipeline_happy w0 f content rf rows rows' Hc Hs Hl Hn Hf Hd Ht Hr Hftp
              Hstor Hdel)
    as [w' [Hp [H1 [H2 [H3 [H4 H5]]]]]].
  exists w'. split.
  - pose proof (main_run w) as Hm. cbv zeta in Hm. fold w0 in Hm.
    rewrite Hp in Hm. exact Hm.
  - repeat split; assumption.
Qed.

Lemma run_delivers_transformed_table_witness :
  exists w',
    main (Sample.fresh [Sample.good_row])
    = (inr tt, w',
       [EvDownload Sample.archive; EvLogAppend (log_line Sample.archive);
        EvExtract Sample.archive; EvRemoveArchive Sample.archive;
        EvRename (Py.split_dot_0 Sample.archive ++ ".txt")
                 (Py.split_dot_0 Sample.archive ++ ".csv");
        EvReadCsv (Py.split_dot_0 Sample.archive ++ ".csv");
        EvWriteCsv (Py.split_dot_0 Sample.archive ++ ".csv");
        EvRename (Py.split_dot_0 Sample.archive ++ ".csv")
                 (Py.split_dot_0 Sample.archive ++ ".txt");
        EvStor (Py.split_dot_0 Sample.archive ++ ".txt");
        EvDelete (Py.split_dot_0 Sample.archive ++ ".txt"); EvRmdir])
    /\ w_ftp_stored w'
       = app (w_ftp_stored (Sample.fresh [Sample.good_row]))
           [(Py.split_dot_0 Sample.archive ++ ".txt",
             Table [row_with_url Sample.good_row
                      "https://cdn.example.com/veh/1.jpg|https://cdn.example.com/veh/2.jpg"])]
    /\ w_temp w' = None
    /\ w_log w' = Some ("" ++ log_line Sample.archive)
    /\ find (fun e => String.eqb (fst e) Sample.archive) (w_cwd w') = None
    /\ w_messages w' = app (w_messages (Sample.fresh [Sample.good_row])) [header].
Proof.
  apply (run_delivers_transformed_table (Sample.fresh [Sample.good_row])
           Sample.archive ""
           (mkRemote Sample.archive 10 (Zip [File Sample.table (Table [Sample.good_row])]))
           [Sample.good_row]); reflexivity.
Defined.
